(** * Early-Alert agent: the news-triage pipeline and its gates

    A shallow embedding of [src/early_warning_system.py] (the linear script)
    and [src/main.py] (the four-node workflow).

    Python strings are modelled by their UTF-8 bytes ([string]), a lone
    surrogate by its three-byte pattern; JSON-shaped values by [pyval];
    exceptions by [result]; the completion client, the news client,
    [PromptTemplate.format] and the builtin [str] are external
    collaborators and enter as Section variables, and so do the limits the
    interpreter sets to the decoder.  Console output, e-mails and
    completion calls are collected in an event trace; the console encodes
    UTF-8 and refuses a lone surrogate. *)

From Stdlib Require Import Bool Arith ZArith NArith List Ascii String Lia.
From Stdlib Require Import DecimalString.
Import ListNotations.
Local Open Scope string_scope.
Local Open Scope nat_scope.

Set Implicit Arguments.

(* ================================================================== *)
(** ** Python string operations *)
(* ================================================================== *)

Module PyStr.

Definition code (c : ascii) : nat := nat_of_ascii c.

Definition chr (n : nat) : string := String (ascii_of_nat n) EmptyString.

(** The characters that cannot be typed inside a literal. *)
Definition dq : string := chr 34.
Definition nl : string := chr 10.
Definition bslash : string := chr 92.

(** [q s] is [s] with every apostrophe turned into a double quote, so that
    JSON test data can be written legibly. *)
Fixpoint q (s : string) : string :=
  match s with
  | EmptyString => EmptyString
  | String c r => String (if Nat.eqb (code c) 39 then ascii_of_nat 34 else c) (q r)
  end.

Fixpoint drop (n : nat) (s : string) : string :=
  match n, s with
  | O, _ => s
  | S _, EmptyString => EmptyString
  | S k, String _ r => drop k r
  end.

Fixpoint take (n : nat) (s : string) : string :=
  match n, s with
  | O, _ => EmptyString
  | S _, EmptyString => EmptyString
  | S k, String c r => String c (take k r)
  end.

Fixpoint rev_append (s acc : string) : string :=
  match s with
  | EmptyString => acc
  | String c r => rev_append r (String c acc)
  end.

Definition rev (s : string) : string := rev_append s EmptyString.

(** [p in s] *)
Fixpoint contains (p s : string) : bool :=
  String.prefix p s ||
  match s with
  | EmptyString => false
  | String _ r => contains p r
  end.

(** [s.replace(old, new)] for a non-empty [old]: occurrences are found left
    to right and do not overlap.  [skip] counts the characters of an
    occurrence that are still to be passed over. *)
Fixpoint replace_from (old new : string) (skip : nat) (s : string) : string :=
  match s with
  | EmptyString => EmptyString
  | String c r =>
      match skip with
      | S k => replace_from old new k r
      | O =>
          if String.prefix old s
          then new ++ replace_from old new (String.length old - 1) r
          else String c (replace_from old new 0 r)
      end
  end.

Definition replace (old new s : string) : string := replace_from old new 0 s.

(** [s.lower()] on the ASCII letters.  The only characters outside ASCII
    whose lower-case form contains an ASCII letter are U+0130 and U+212A
    (giving [i] followed by U+0307, and [k]); neither can take part in an
    occurrence of the marker searched for in [Workflow.filter_news_node]. *)
Definition lower_ascii (c : ascii) : ascii :=
  let n := code c in
  if (65 <=? n) && (n <=? 90) then ascii_of_nat (n + 32) else c.

Fixpoint lower (s : string) : string :=
  match s with
  | EmptyString => EmptyString
  | String c r => String (lower_ascii c) (lower r)
  end.

(** White space in the sense of [str.isspace], as UTF-8 byte sequences:
    [ws_len s] is the length of the white-space character [s] starts with,
    and 0 when it starts with none. *)
Definition ascii_space (n : nat) : bool :=
  ((9 <=? n) && (n <=? 13)) || ((28 <=? n) && (n <=? 32)).

Definition ws_len (s : string) : nat :=
  match s with
  | EmptyString => 0
  | String a r =>
      let x := code a in
      if ascii_space x then 1
      else match r with
      | EmptyString => 0
      | String b r' =>
          let y := code b in
          if (x =? 194) && ((y =? 133) || (y =? 160)) then 2
          else match r' with
          | EmptyString => 0
          | String c _ =>
              let z := code c in
              if (x =? 225) && (y =? 154) && (z =? 128) then 3
              else if (x =? 226) && (y =? 128) &&
                      (((128 <=? z) && (z <=? 138)) || (z =? 168) || (z =? 169) || (z =? 175))
              then 3
              else if (x =? 226) && (y =? 129) && (z =? 159) then 3
              else if (x =? 227) && (y =? 128) && (z =? 128) then 3
              else 0
          end
      end
  end.

(** The same test on a reversed string: the character is read backwards. *)
Definition ws_len_rev (s : string) : nat :=
  match s with
  | EmptyString => 0
  | String c r =>
      if ascii_space (code c) then 1
      else match r with
      | EmptyString => 0
      | String b r' =>
          if ws_len (String b (String c EmptyString)) =? 2 then 2
          else match r' with
          | EmptyString => 0
          | String a _ =>
              if ws_len (String a (String b (String c EmptyString))) =? 3 then 3 else 0
          end
      end
  end.

Fixpoint strip_from (test : string -> nat) (skip : nat) (s : string) : string :=
  match s with
  | EmptyString => EmptyString
  | String _ r =>
      match skip with
      | S k => strip_from test k r
      | O =>
          match test s with
          | O => s
          | S k => strip_from test k r
          end
      end
  end.

Definition lstrip (s : string) : string := strip_from ws_len 0 s.
Definition rstrip (s : string) : string := rev (strip_from ws_len_rev 0 (rev s)).

(** [s.strip()] *)
Definition strip (s : string) : string := rstrip (lstrip s).

(** The bytes 10xxxxxx, which continue a character. *)
Definition is_continuation (c : ascii) : bool :=
  let n := code c in (128 <=? n) && (n <? 192).

(** [s[:n]]: the first [n] characters of [s]. *)
Fixpoint take_chars (n : nat) (s : string) : string :=
  match s with
  | EmptyString => EmptyString
  | String c r =>
      if is_continuation c then String c (take_chars n r)
      else match n with
           | O => EmptyString
           | S k => String c (take_chars k r)
           end
  end.

(** [s.encode("utf-8")] succeeds: [s] holds no surrogate.  The pattern of
    a surrogate begins with the byte ED followed by a byte from A0 on, which
    no other character does. *)
Fixpoint encodable (s : string) : bool :=
  match s with
  | EmptyString => true
  | String c r =>
      match r with
      | EmptyString => true
      | String d _ => negb ((code c =? 237) && (160 <=? code d)) && encodable r
      end
  end.

(** [s * n] *)
Fixpoint copies (n : nat) (s : string) : string :=
  match n with
  | O => EmptyString
  | S k => s ++ copies k s
  end.

(** [sep.join(l)] *)
Fixpoint join (sep : string) (l : list string) : string :=
  match l with
  | [] => EmptyString
  | [x] => x
  | x :: r => x ++ sep ++ join sep r
  end.

End PyStr.

(* ================================================================== *)
(** ** Python values and exceptions *)
(* ================================================================== *)

Set Warnings "-register-all".

Inductive float_const := NaN | PosInfinity | NegInfinity.

(** What [json.loads] can return.  A float keeps its decimal literal:
    [PyFloat m e] is the double nearest to [m * 10^e]. *)
Inductive pyval :=
| PyNone
| PyBool (b : bool)
| PyInt (z : Z)
| PyFloat (m e : Z)
| PyFloatConst (c : float_const)
| PyStr (s : string)
| PyList (l : list pyval)
| PyDict (d : list (string * pyval)).

Definition pydict := list (string * pyval).

Inductive exn :=
| JSONDecodeError
| RecursionError
| ValueError
| AttributeError
| TypeError
| UnicodeEncodeError
| KeyError (k : string)
| External (derives_Exception : bool) (msg : string).

(** [isinstance(e, Exception)]: what [except Exception] catches.  An
    [External false _] stands for [KeyboardInterrupt], [SystemExit] and the
    like. *)
Definition is_Exception (e : exn) : bool :=
  match e with
  | External b _ => b
  | _ => true
  end.

Inductive result (A : Type) :=
| Ok (a : A)
| Raise (e : exn).
Arguments Ok {A} a.
Arguments Raise {A} e.

Module Py.

(** [d.get(k)] on a mapping *)
Fixpoint dict_get (d : pydict) (k : string) : option pyval :=
  match d with
  | [] => None
  | (k', v) :: r => if String.eqb k k' then Some v else dict_get r k
  end.

(** [d[k] = v]: an existing key keeps its place. *)
Fixpoint dict_set (d : pydict) (k : string) (v : pyval) : pydict :=
  match d with
  | [] => [(k, v)]
  | (k', v') :: r =>
      if String.eqb k k' then (k', v) :: r else (k', v') :: dict_set r k v
  end.

(** The double nearest to [m * 10^e] is zero iff [|m| * 10^e <= 2^-1075]
    (round to nearest, ties to even). *)
Definition float_is_zero (m e : Z) : bool :=
  (Z.eqb m 0 ||
   (Z.ltb e 0 && Z.leb (Z.abs m * 2 ^ 1075) (10 ^ (- e))))%Z.

(** [bool(v)] *)
Definition truthy (v : pyval) : bool :=
  match v with
  | PyNone => false
  | PyBool b => b
  | PyInt z => negb (Z.eqb z 0)
  | PyFloat m e => negb (float_is_zero m e)
  | PyFloatConst _ => true
  | PyStr s => negb (String.eqb s EmptyString)
  | PyList l => match l with [] => false | _ => true end
  | PyDict d => match d with [] => false | _ => true end
  end.

(** [v.get(k)]: only a mapping has the method. *)
Definition get (v : pyval) (k : string) : result pyval :=
  match v with
  | PyDict d => Ok (match dict_get d k with Some x => x | None => PyNone end)
  | _ => Raise AttributeError
  end.

(** [a or b] *)
Definition or_ (a b : pyval) : pyval := if truthy a then a else b.

(** [v[:n]] is defined on strings and lists; everything else raises. *)
Definition sliceable (v : pyval) : bool :=
  match v with
  | PyStr _ | PyList _ => true
  | _ => false
  end.

(** [v[:n]], for a value that can be sliced *)
Definition slice_to (n : nat) (v : pyval) : pyval :=
  match v with
  | PyStr s => PyStr (PyStr.take_chars n s)
  | PyList l => PyList (firstn n l)
  | _ => v
  end.

(** The text an f-string puts for [v] can be encoded as UTF-8.  A string
    is put as it is; the text of any other value is ASCII or a [repr],
    which escapes the surrogates of the strings inside it. *)
Definition printable (v : pyval) : bool :=
  match v with
  | PyStr s => PyStr.encodable s
  | _ => true
  end.

End Py.

(** What the interpreter allows the decoder.  [recursion_room] is the
    number of arrays and objects that can stand one inside the other before
    the recursion limit is reached: [sys.getrecursionlimit()] less the
    frames in use where [json.loads] is called.  [int_max_str_digits] is
    [sys.get_int_max_str_digits()], the cap on the digits of an integer
    literal, 0 standing for no cap. *)
Record interpreter := Interpreter { recursion_room : nat; int_max_str_digits : nat }.

(* ================================================================== *)
(** ** [json.loads]

    The decoder of the standard library (the accelerated scanner, strict
    mode, no hooks), transcribed as a recursive-descent parser.  Entering
    an array or an object takes one level of the recursion the interpreter
    allows, and an integer literal with more digits than the cap is
    refused with [ValueError]. *)
(* ================================================================== *)

Module Json.

Import PyStr.

(** [WHITESPACE = [ \t\n\r]*] *)
Definition is_ws (c : ascii) : bool :=
  let n := code c in (n =? 32) || (n =? 9) || (n =? 10) || (n =? 13).

Fixpoint skip_ws (s : string) : string :=
  match s with
  | String c r => if is_ws c then skip_ws r else s
  | EmptyString => EmptyString
  end.

Definition is_digit (c : ascii) : bool :=
  let n := code c in (48 <=? n) && (n <=? 57).

Definition hex_val (c : ascii) : option N :=
  let n := code c in
  if (48 <=? n) && (n <=? 57) then Some (N.of_nat (n - 48))
  else if (97 <=? n) && (n <=? 102) then Some (N.of_nat (n - 87))
  else if (65 <=? n) && (n <=? 70) then Some (N.of_nat (n - 55))
  else None.

Definition hex4 (a b c d : ascii) : option N :=
  match hex_val a, hex_val b, hex_val c, hex_val d with
  | Some x, Some y, Some z, Some w => Some (((x * 16 + y) * 16 + z) * 16 + w)%N
  | _, _, _, _ => None
  end.

Definition byte (n : N) : string := String (ascii_of_N n) EmptyString.

(** The UTF-8 bytes of a code point (a lone surrogate is written with the
    three-byte pattern, so that distinct strings stay distinct). *)
Definition utf8 (u : N) : string :=
  (if u <? 128 then byte u
   else if u <? 2048 then byte (192 + u / 64) ++ byte (128 + u mod 64)
   else if u <? 65536 then
     byte (224 + u / 4096) ++ byte (128 + (u / 64) mod 64) ++ byte (128 + u mod 64)
   else
     byte (240 + u / 262144) ++ byte (128 + (u / 4096) mod 64) ++
     byte (128 + (u / 64) mod 64) ++ byte (128 + u mod 64))%N.

Definition is_high (u : N) : bool := ((55296 <=? u) && (u <=? 56319))%N.
Definition is_low (u : N) : bool := ((56320 <=? u) && (u <=? 57343))%N.
Definition join_surrogates (hi lo : N) : N :=
  (65536 + (hi - 55296) * 1024 + (lo - 56320))%N.

(** [BACKSLASH]: the one-character escapes *)
Definition simple_escape (c : ascii) : option string :=
  let n := code c in
  if n =? 34 then Some (chr 34)
  else if n =? 92 then Some (chr 92)
  else if n =? 47 then Some (chr 47)
  else if n =? 98 then Some (chr 8)
  else if n =? 102 then Some (chr 12)
  else if n =? 110 then Some (chr 10)
  else if n =? 114 then Some (chr 13)
  else if n =? 116 then Some (chr 9)
  else None.

Definition flush (pend : option N) : string :=
  match pend with
  | Some hi => utf8 hi
  | None => EmptyString
  end.

Definition emit (pre : string) (k : option (string * string)) : option (string * string) :=
  match k with
  | Some (body, rest) => Some (pre ++ body, rest)
  | None => None
  end.

(** [scanstring], entered after the opening quote; returns the decoded
    text and what follows the closing quote.  [pend] is a high surrogate
    read from a [\uXXXX] escape and waiting for its low half. *)
Fixpoint scanstring (pend : option N) (s : string) : option (string * string) :=
  match s with
  | EmptyString => None
  | String c r =>
      let n := code c in
      if n =? 34 then Some (flush pend, r)
      else if n =? 92 then
        match r with
        | EmptyString => None
        | String e r1 =>
            if code e =? 117 then
              match r1 with
              | String h1 (String h2 (String h3 (String h4 r2))) =>
                  match hex4 h1 h2 h3 h4 with
                  | None => None
                  | Some u =>
                      match pend with
                      | Some hi =>
                          if is_low u
                          then emit (utf8 (join_surrogates hi u)) (scanstring None r2)
                          else if is_high u
                          then emit (utf8 hi) (scanstring (Some u) r2)
                          else emit (utf8 hi ++ utf8 u) (scanstring None r2)
                      | None =>
                          if is_high u
                          then scanstring (Some u) r2
                          else emit (utf8 u) (scanstring None r2)
                      end
                  end
              | _ => None
              end
            else
              match simple_escape e with
              | Some x => emit (flush pend ++ x) (scanstring None r1)
              | None => None
              end
        end
      else if n <? 32 then None
      else emit (flush pend ++ String c EmptyString) (scanstring None r)
  end.

(** Numbers, as [NUMBER_RE] matches them: an optional minus sign, then
    0 or a digit string without leading zero, then optionally a point
    followed by digits, then optionally an exponent. *)
Fixpoint take_digits (s : string) : string * string :=
  match s with
  | String c r =>
      if is_digit c
      then let (d, rest) := take_digits r in (String c d, rest)
      else (EmptyString, s)
  | EmptyString => (EmptyString, EmptyString)
  end.

Fixpoint digits_value (acc : Z) (d : string) : Z :=
  match d with
  | EmptyString => acc
  | String c r => digits_value (acc * 10 + Z.of_nat (code c - 48))%Z r
  end.

(** The integer part, without the sign. *)
Definition scan_int (s : string) : option (string * string) :=
  match s with
  | String c r =>
      if code c =? 48 then Some (String c EmptyString, r)
      else if is_digit c then Some (take_digits s)
      else None
  | EmptyString => None
  end.

Definition scan_frac (s : string) : string * string :=
  match s with
  | String c r =>
      if code c =? 46 then
        match take_digits r with
        | (EmptyString, _) => (EmptyString, s)
        | (d, rest) => (d, rest)
        end
      else (EmptyString, s)
  | EmptyString => (EmptyString, s)
  end.

(** The exponent: its value, if the group matches, and the rest. *)
Definition scan_exp (s : string) : option Z * string :=
  match s with
  | String c r =>
      if (code c =? 101) || (code c =? 69) then
        let (neg, r1) :=
          match r with
          | String g r' =>
              if code g =? 45 then (true, r')
              else if code g =? 43 then (false, r')
              else (false, r)
          | EmptyString => (false, r)
          end in
        match take_digits r1 with
        | (EmptyString, _) => (None, s)
        | (d, rest) =>
            (Some (if neg then (- digits_value 0 d)%Z else digits_value 0 d), rest)
        end
      else (None, s)
  | EmptyString => (None, s)
  end.

(** The outcome of scanning: what was read and the rest of the text; a
    syntax error ([StopIteration] or [JSONDecodeError] in the library);
    the recursion limit reached; an integer literal over the cap; or the
    budget of a loop of this model used up, which no text brings about. *)
Inductive scanned (A : Type) :=
| POk (a : A) (rest : string)
| PErr
| PDepth
| PDigits
| PFuel.
Arguments PErr {A}.
Arguments PDepth {A}.
Arguments PDigits {A}.
Arguments PFuel {A}.

Definition pres := scanned pyval.

(** [int(digits)] refuses the literal. *)
Definition over_cap (cap : nat) (digits : string) : bool :=
  (0 <? cap) && (cap <? String.length digits).

Definition scan_number (cap : nat) (s : string) : pres :=
  let (neg, s1) :=
    match s with
    | String c r => if code c =? 45 then (true, r) else (false, s)
    | EmptyString => (false, s)
    end in
  match scan_int s1 with
  | None => PErr
  | Some (int_d, s2) =>
      let (frac_d, s3) := scan_frac s2 in
      let (ex, s4) := scan_exp s3 in
      let sign (z : Z) := if neg then (- z)%Z else z in
      match frac_d, ex with
      | EmptyString, None =>
          if over_cap cap int_d then PDigits
          else POk (PyInt (sign (digits_value 0 int_d))) s4
      | _, _ =>
          let m := sign (digits_value 0 (int_d ++ frac_d)) in
          let e := ((match ex with Some x => x | None => 0 end)
                    - Z.of_nat (String.length frac_d))%Z in
          POk (PyFloat m e) s4
      end
  end.

Definition expect (c : nat) (s : string) : option string :=
  match s with
  | String a r => if code a =? c then Some r else None
  | EmptyString => None
  end.

(** [JSONArray], entered at the first element: a value, then [,] or the
    closing bracket.  [n] bounds the number of elements. *)
Fixpoint array_items (scan : string -> pres) (n : nat) (s : string)
  : scanned (list pyval) :=
  match n with
  | O => PFuel
  | S k =>
      match scan s with
      | POk v r =>
          match skip_ws r with
          | String c r1 =>
              if code c =? 93 then POk [v] r1
              else if code c =? 44 then
                match array_items scan k (skip_ws r1) with
                | POk l r2 => POk (v :: l) r2
                | other => other
                end
              else PErr
          | EmptyString => PErr
          end
      | PErr => PErr
      | PDepth => PDepth
      | PDigits => PDigits
      | PFuel => PFuel
      end
  end.

Definition JSONArray (scan : string -> pres) (s : string) : pres :=
  match skip_ws s with
  | String c r =>
      if code c =? 93 then POk (PyList []) r
      else
        match array_items scan (S (String.length s)) (skip_ws s) with
        | POk l r2 => POk (PyList l) r2
        | PErr => PErr
        | PDepth => PDepth
        | PDigits => PDigits
        | PFuel => PFuel
        end
  | EmptyString => PErr
  end.

(** [JSONObject], entered at the first key: the pairs in the order read.
    [n] bounds the number of pairs. *)
Fixpoint object_pairs (scan : string -> pres) (n : nat) (s : string)
  : scanned (list (string * pyval)) :=
  match n with
  | O => PFuel
  | S k =>
      match expect 34 s with
      | None => PErr
      | Some s1 =>
          match scanstring None s1 with
          | None => PErr
          | Some (key, s2) =>
              match expect 58 (skip_ws s2) with
              | None => PErr
              | Some s3 =>
                  match scan (skip_ws s3) with
                  | POk v r =>
                      match skip_ws r with
                      | String c r1 =>
                          if code c =? 125 then POk [(key, v)] r1
                          else if code c =? 44 then
                            match object_pairs scan k (skip_ws r1) with
                            | POk l r2 => POk ((key, v) :: l) r2
                            | other => other
                            end
                          else PErr
                      | EmptyString => PErr
                      end
                  | PErr => PErr
                  | PDepth => PDepth
                  | PDigits => PDigits
                  | PFuel => PFuel
                  end
              end
          end
      end
  end.

(** The mapping built from the pairs: a repeated key keeps its first place
    and takes the last value. *)
Definition dict_of_pairs (l : list (string * pyval)) : pydict :=
  fold_left (fun d kv => Py.dict_set d (fst kv) (snd kv)) l [].

Definition JSONObject (scan : string -> pres) (s : string) : pres :=
  match skip_ws s with
  | String c r =>
      if code c =? 125 then POk (PyDict []) r
      else
        match object_pairs scan (S (String.length s)) (skip_ws s) with
        | POk l r2 => POk (PyDict (dict_of_pairs l)) r2
        | PErr => PErr
        | PDepth => PDepth
        | PDigits => PDigits
        | PFuel => PFuel
        end
  | EmptyString => PErr
  end.

Definition literal (word : string) (v : pyval) (s : string) : pres :=
  if String.prefix word s then POk v (drop (String.length word) s) else PErr.

(** [scan_once] at the head of [s], with [room] levels of recursion left:
    an array or an object takes one, and none is left to take at 0. *)
Fixpoint scan_once (cap room : nat) (s : string) {struct room} : pres :=
  match s with
  | EmptyString => PErr
  | String c r =>
      let n := code c in
      if n =? 34 then
        match scanstring None r with
        | Some (x, r1) => POk (PyStr x) r1
        | None => PErr
        end
      else if n =? 123 then
        match room with
        | O => PDepth
        | S k => JSONObject (scan_once cap k) r
        end
      else if n =? 91 then
        match room with
        | O => PDepth
        | S k => JSONArray (scan_once cap k) r
        end
      else if n =? 110 then literal "null" PyNone s
      else if n =? 116 then literal "true" (PyBool true) s
      else if n =? 102 then literal "false" (PyBool false) s
      else if n =? 78 then literal "NaN" (PyFloatConst NaN) s
      else if n =? 73 then literal "Infinity" (PyFloatConst PosInfinity) s
      else if (n =? 45) && String.prefix "-Infinity" s
      then literal "-Infinity" (PyFloatConst NegInfinity) s
      else scan_number cap s
  end.

(** [JSONDecoder.decode]: white space, one value, white space, end. *)
Definition decode (py : interpreter) (s : string) : pres :=
  match scan_once (int_max_str_digits py) (recursion_room py) (skip_ws s) with
  | POk v r =>
      match skip_ws r with
      | EmptyString => POk v EmptyString
      | _ => PErr
      end
  | other => other
  end.

(** The byte-order mark U+FEFF *)
Definition bom : string := chr 239 ++ chr 187 ++ chr 191.

(** [json.loads(s)] for a [str] argument.  The last arm is never taken
    (lemma [decode_has_budget]). *)
Definition loads (py : interpreter) (s : string) : result pyval :=
  if String.prefix bom s then Raise JSONDecodeError
  else
    match decode py s with
    | POk v _ => Ok v
    | PErr => Raise JSONDecodeError
    | PDepth => Raise RecursionError
    | PDigits => Raise ValueError
    | PFuel => Raise RecursionError
    end.

End Json.

(* ================================================================== *)
(** ** The structured output parser ([early_warning_system.py]) *)
(* ================================================================== *)

Definition fence_json : string := "```json".
Definition fence : string := "```".

(** [response_text.replace("```json", "").replace("```", "").strip()] *)
Definition cleaned (response_text : string) : string :=
  PyStr.strip (PyStr.replace fence EmptyString
                 (PyStr.replace fence_json EmptyString response_text)).

(** [parse_json_response]: only [json.JSONDecodeError] is caught, and
    answered with [None]; the [RecursionError] and the [ValueError] of the
    decoder go to the caller. *)
Definition parse_json_response (py : interpreter) (response_text : string)
  : result pyval :=
  match Json.loads py (cleaned response_text) with
  | Ok v => Ok v
  | Raise JSONDecodeError => Ok PyNone
  | Raise e => Raise e
  end.

(** The parser as the specification words it: the fence markers are taken
    off the two ends only, and a failure is a value of its own. *)
Inductive parsed :=
| Mapping (v : pyval)
| ParseError.

Definition strip_prefix (p s : string) : string :=
  if String.prefix p s then PyStr.drop (String.length p) s else s.

Definition strip_suffix (p s : string) : string :=
  PyStr.rev (strip_prefix (PyStr.rev p) (PyStr.rev s)).

Definition spec_cleaned (text : string) : string :=
  PyStr.strip (strip_suffix fence (strip_prefix fence (strip_prefix fence_json text))).

Definition spec_parse (py : interpreter) (text : string) : parsed :=
  match Json.loads py (spec_cleaned text) with
  | Ok v => Mapping v
  | Raise _ => ParseError
  end.

(* ================================================================== *)
(** ** Effects: exceptions, the outside world, the event trace *)
(* ================================================================== *)

Inductive stage := Filter | Analyze | Summarize | Report.

(** The lines written to the console; the interpolated values are kept as
    they are instead of being rendered. *)
Inductive line :=
(* early_warning_system.py *)
| StartingScan
| ApiFailed (e : exn)
| Processing (headline : pyval)
| Skipped (reason : option pyval)
| FilterError (e : exn)
| Relevant
| Safe (risk_type : option pyval)
| Alert (impact_level risk_type : pyval)
| AnalysisError (e : exn)
| SummaryError (e : exn)
(* main.py *)
| FetchingNews
| ApiError (e : exn)
| FilteringNews
| RelevantTitle (title : pyval)
| SkippedTitle (title : pyval)
| AnalyzingRisks
| WritingReport
| FinalEmail (body : string)
| NoRelevantNews.

Inductive event :=
| Completion (st : stage) (prompt : string) (reply : result string)
| Print (l : line)
| Email (to_email subject body : string).

Section Effects.

Variable World : Type.

(** The run of a computation: its result, the world it leaves, and the
    events it caused, oldest first. *)
Record run (A : Type) := Run { res : result A; world : World; trace : list event }.

Definition M (A : Type) := World -> run A.

Definition ret {A} (a : A) : M A := fun w => Run (Ok a) w [].

Definition raise {A} (e : exn) : M A := fun w => Run (Raise e) w [].

Definition bind {A B} (m : M A) (k : A -> M B) : M B :=
  fun w =>
    match m w with
    | Run (Ok a) w1 t1 =>
        match k a w1 with
        | Run r w2 t2 => Run r w2 (t1 ++ t2)%list
        end
    | Run (Raise e) w1 t1 => Run (Raise e) w1 t1
    end.

Definition lift {A} (r : result A) : M A :=
  match r with
  | Ok a => ret a
  | Raise e => raise e
  end.

Definition tell (ev : event) : M unit := fun w => Run (Ok tt) w [ev].

Definition print (l : line) : M unit := tell (Print l).

(** [print(f"...")] of a line whose text puts the values [shown], on a
    console that can write the text of the values [writable] selects.
    Values of the news client and values decoded from a completion may
    hold what the console's encoding refuses (a [\udXXX] escape decodes to
    a lone surrogate), and then nothing is written; the completions
    themselves and the texts of exceptions are taken to be writable. *)
Definition print_f (writable : pyval -> bool) (l : line) (shown : list pyval) : M unit :=
  if forallb writable shown then print l else raise UnicodeEncodeError.

(** [print(f"...{v[:n]}...")] *)
Definition print_sliced (writable : pyval -> bool) (n : nat) (l : line) (v : pyval)
  : M unit :=
  if Py.sliceable v then print_f writable l [Py.slice_to n v] else raise TypeError.

(** [try: m  except <class> as e: h e], for the exceptions [catches]
    selects. *)
Definition try_except {A} (catches : exn -> bool) (m : M A) (h : exn -> M A) : M A :=
  fun w =>
    match m w with
    | Run (Ok a) w1 t1 => Run (Ok a) w1 t1
    | Run (Raise e) w1 t1 =>
        if catches e
        then match h e w1 with
             | Run r w2 t2 => Run r w2 (t1 ++ t2)%list
             end
        else Run (Raise e) w1 t1
    end.

(** [except Exception] and the bare [except] *)
Definition try_except_Exception {A} := @try_except A is_Exception.
Definition try_except_all {A} := @try_except A (fun _ => true).

(** A call of an outside service, recorded by [log]. *)
Definition call {A} (f : World -> result A * World) (log : result A -> list event) : M A :=
  fun w => let (r, w') := f w in Run r w' (log r).

(** [for x in l: body x] *)
Fixpoint for_each {A} (body : A -> M unit) (l : list A) : M unit :=
  match l with
  | [] => ret tt
  | x :: r => bind (body x) (fun _ => for_each body r)
  end.

(** [for x in l: acc = body acc x] *)
Fixpoint fold_each {A B} (body : B -> A -> M B) (l : list A) (acc : B) : M B :=
  match l with
  | [] => ret acc
  | x :: r => bind (body acc x) (fun acc' => fold_each body r acc')
  end.

End Effects.

Arguments ret {World A} a.
Arguments raise {World A} e.
Arguments lift {World A} r.
Arguments tell {World} ev.
Arguments print {World} l.
Arguments print_f {World} writable l shown.
Arguments print_sliced {World} writable n l v.

Declare Scope eff_scope.
Delimit Scope eff_scope with eff.
Notation "x <- m ;; k" := (bind m (fun x => k))
  (at level 61, m at next level, right associativity) : eff_scope.
Notation "m ;;; k" := (bind m (fun _ => k))
  (at level 61, right associativity) : eff_scope.
Local Open Scope eff_scope.

(* ================================================================== *)
(** ** The boundary with the news service *)
(* ================================================================== *)

Definition article := pydict.

(** The reply of [get_top_headlines]: a mapping that may have an
    [articles] entry, a list of articles. *)
Record headlines := Headlines { articles_entry : option (list article) }.

(** [reply.get('articles', [])] *)
Definition get_articles (reply : headlines) : list article :=
  match articles_entry reply with
  | Some l => l
  | None => []
  end.

(** [article.get(k)] *)
Definition field (a : article) (k : string) : pyval :=
  match Py.dict_get a k with
  | Some v => v
  | None => PyNone
  end.

(** [article[k]] *)
Definition item (a : article) (k : string) : result pyval :=
  match Py.dict_get a k with
  | Some v => Ok v
  | None => Raise (KeyError k)
  end.

(* ================================================================== *)
(** ** The linear script ([early_warning_system.py]) *)
(* ================================================================== *)

Module Linear.

Import PyStr.

Definition filter_template : string :=
  nl ++
  "You are a Financial News Filter. Analyze the headline below." ++ nl ++
  "Determine if it is potentially related to 'Credit Risk', 'Market Risk', 'Macroeconomics', or 'Banking'." ++ nl ++
  "Ignore sports, entertainment, and general crimes." ++ nl ++
  nl ++
  "Headline: " ++ dq ++ "{headline}" ++ dq ++ nl ++
  nl ++
  "Return ONLY a JSON object strictly in this format:" ++ nl ++
  "{{" ++ dq ++ "is_relevant" ++ dq ++ ": true, " ++ dq ++ "reason" ++ dq ++ ": " ++ dq ++ "reason" ++ dq ++ "}}" ++ nl ++
  "or" ++ nl ++
  "{{" ++ dq ++ "is_relevant" ++ dq ++ ": false, " ++ dq ++ "reason" ++ dq ++ ": " ++ dq ++ "reason" ++ dq ++ "}}" ++ nl.

Definition analysis_template : string :=
  nl ++
  "You are a Senior Risk Analyst. Analyze this news for potential impact on a commercial bank." ++ nl ++
  nl ++
  "Headline: " ++ dq ++ "{headline}" ++ dq ++ nl ++
  "Content Snippet: " ++ dq ++ "{content}" ++ dq ++ nl ++
  nl ++
  "Analyze step-by-step:" ++ nl ++
  "1. Is this a Market Risk (interest rates, FX, stocks)?" ++ nl ++
  "2. Is this a Credit Risk (bankruptcy, debt crisis)?" ++ nl ++
  "3. Is the impact High or Medium?" ++ nl ++
  nl ++
  "Return ONLY a JSON object strictly in this format:" ++ nl ++
  "{{" ++ nl ++
  "  " ++ dq ++ "risk_type" ++ dq ++ ": " ++ dq ++ "Market Risk" ++ dq ++ " or " ++ dq ++ "Credit Risk" ++ dq ++ " or " ++ dq ++ "None" ++ dq ++ "," ++ nl ++
  "  " ++ dq ++ "impact_level" ++ dq ++ ": " ++ dq ++ "High" ++ dq ++ " or " ++ dq ++ "Medium" ++ dq ++ " or " ++ dq ++ "Low" ++ dq ++ "," ++ nl ++
  "  " ++ dq ++ "send_alert" ++ dq ++ ": true or false" ++ nl ++
  "}}" ++ nl ++
  "(Set 'send_alert' to true ONLY if impact is High or Medium)" ++ nl.

Definition summary_template : string :=
  nl ++
  "You are an AI Executive Assistant." ++ nl ++
  "Summarize the following financial news into a Korean briefing format." ++ nl ++
  nl ++
  "Headline: " ++ dq ++ "{headline}" ++ dq ++ nl ++
  "Content: " ++ dq ++ "{content}" ++ dq ++ nl ++
  nl ++
  "Output strictly in Korean(한국어) in this format:" ++ nl ++
  nl ++
  "**[긴급] {risk_type} 조기 경보**" ++ nl ++
  "* **헤드라인:** (Korean Translation)" ++ nl ++
  "* **핵심 요약:**" ++ nl ++
  "  - (Point 1)" ++ nl ++
  "  - (Point 2)" ++ nl ++
  "* **리스크 요인:** (One sentence summary of the threat)" ++ nl.

(** The mock data of [fetch_news] *)
Definition MOCK_DATA : list article :=
  [ [ ("title", PyStr "Central Bank announces surprise 0.5% interest rate hike due to inflation fears");
      ("description", PyStr "The monetary policy committee decided to raise rates immediately. Markets are tumbling.");
      ("url", PyStr "http://test-news.com/1");
      ("source", PyDict [("name", PyStr "Global Finance")]) ];
    [ ("title", PyStr "New iPhone 16 features leaked ahead of launch");
      ("description", PyStr "Apple's new phone will feature a better camera and AI capabilities.");
      ("url", PyStr "http://test-news.com/2");
      ("source", PyDict [("name", PyStr "Tech Daily")]) ];
    [ ("title", PyStr "Major Real Estate Developer files for bankruptcy protection");
      ("description", PyStr "One of the largest developers has defaulted on its $5B debt obligations.");
      ("url", PyStr "http://test-news.com/3");
      ("source", PyDict [("name", PyStr "Biz Insider")]) ] ].

Section LinearCollaborators.

Variable World : Type.
(** [llm.invoke] *)
Variable llm_invoke : string -> World -> result string * World.
(** [NewsApiClient(api_key=...).get_top_headlines(q=, language=, page_size=)] *)
Variable get_top_headlines : string -> string -> nat -> World -> result headlines * World.
(** [PromptTemplate.format]: the template and the named values *)
Variable format : string -> list (string * pyval) -> string.
(** The builtin [str], as an f-string applies it *)
Variable str : pyval -> string.
(** The limits the interpreter sets to [json.loads] *)
Variable py : interpreter.
(** The console: the values whose text [sys.stdout] can encode *)
Variable writable : pyval -> bool.

Definition invoke (st : stage) (prompt : string) : M World string :=
  call (llm_invoke prompt) (fun r => [Completion st prompt r]).

Definition fetch_news : M World (list article) :=
  early <-
    try_except_Exception
      (top_headlines <- call (get_top_headlines "economy" "en" 5) (fun _ => []) ;;
       let articles := get_articles top_headlines in
       match articles with
       | [] => ret None
       | _ => ret (Some articles)
       end)
      (fun e => print (ApiFailed e) ;;; ret None) ;;
  match early with
  | Some articles => ret articles
  | None => ret MOCK_DATA
  end.

(** The block of lines that stands for the e-mail, written whole or, when
    one of the values [shown] in the subject and the body cannot be
    written, not counted as sent. *)
Definition send_email_alert (subject body : string) (shown : list pyval)
  : M World unit :=
  if forallb writable shown
  then tell (Email "user@example.com" subject body)
  else raise UnicodeEncodeError.

(** Step 1; [false] stands for [continue]. *)
Definition filter_step (headline : pyval) : M World bool :=
  try_except_Exception
    (filter_res_raw <- invoke Filter (format filter_template [("headline", headline)]) ;;
     filter_data <- lift (parse_json_response py filter_res_raw) ;;
     if negb (Py.truthy filter_data) then
       print (Skipped None) ;;; ret false
     else
       is_relevant <- lift (Py.get filter_data "is_relevant") ;;
       if negb (Py.truthy is_relevant) then
         reason <- lift (Py.get filter_data "reason") ;;
         print_f writable (Skipped (Some reason)) [reason] ;;; ret false
       else ret true)
    (fun e => print (FilterError e) ;;; ret false).

(** Step 2; [None] stands for [continue], otherwise the [risk_type]. *)
Definition analysis_step (headline content : pyval) : M World (option pyval) :=
  try_except_Exception
    (analysis_res_raw <-
       invoke Analyze (format analysis_template [("headline", headline); ("content", content)]) ;;
     risk_data <- lift (parse_json_response py analysis_res_raw) ;;
     if negb (Py.truthy risk_data) then
       print (Safe None) ;;; ret None
     else
       send_alert <- lift (Py.get risk_data "send_alert") ;;
       if negb (Py.truthy send_alert) then
         risk_type <- lift (Py.get risk_data "risk_type") ;;
         print_f writable (Safe (Some risk_type)) [risk_type] ;;; ret None
       else
         risk_type <- lift (Py.get risk_data "risk_type") ;;
         impact_level <- lift (Py.get risk_data "impact_level") ;;
         print_f writable (Alert impact_level risk_type) [impact_level; risk_type] ;;;
         ret (Some risk_type))
    (fun e => print (AnalysisError e) ;;; ret None).

(** Step 3 *)
Definition summary_step (headline content risk_type url : pyval) : M World unit :=
  try_except_Exception
    (summary_res <-
       invoke Summarize
         (format summary_template
            [("headline", headline); ("content", content); ("risk_type", risk_type)]) ;;
     let final_email_body := summary_res ++ nl ++ nl ++ "[Original Source]: " ++ str url in
     send_email_alert ("[Risk Alert] " ++ str risk_type ++ " Detected") final_email_body
       [risk_type; url])
    (fun e => print (SummaryError e)).

(** The body of the loop over the articles.  The line announcing the
    article slices the headline outside every [try]. *)
Definition process_article (a : article) : M World unit :=
  let headline := field a "title" in
  let content := Py.or_ (field a "description") headline in
  let url := field a "url" in
  print_sliced writable 50 (Processing headline) headline ;;;
  go <- filter_step headline ;;
  if go then
    print Relevant ;;;
    alert <- analysis_step headline content ;;
    match alert with
    | Some risk_type => summary_step headline content risk_type url
    | None => ret tt
    end
  else ret tt.

Definition run_early_warning_system : M World unit :=
  print StartingScan ;;;
  articles <- fetch_news ;;
  for_each process_article articles.

End LinearCollaborators.

End Linear.

(* ================================================================== *)
(** ** The workflow ([main.py]) *)
(* ================================================================== *)

Module Workflow.

Import PyStr.

Definition filter_template : string :=
  "Check if this headline is related to 'Financial Risk', 'Banking', or 'Economy'." ++ nl ++
  "        Headline: " ++ dq ++ "{headline}" ++ dq ++ nl ++
  "        Return JSON: {{" ++ dq ++ "is_relevant" ++ dq ++ ": true/false}}".

Definition analysis_template : string :=
  "Analyze for Credit/Market Risk." ++ nl ++
  "        Headline: " ++ dq ++ "{headline}" ++ dq ++ nl ++
  "        Content: " ++ dq ++ "{content}" ++ dq ++ nl ++
  "        " ++ nl ++
  "        Return JSON format:" ++ nl ++
  "        {{" ++ nl ++
  "            " ++ dq ++ "risk_type" ++ dq ++ ": " ++ dq ++ "Market Risk/Credit Risk/None" ++ dq ++ "," ++ nl ++
  "            " ++ dq ++ "impact" ++ dq ++ ": " ++ dq ++ "High/Medium/Low" ++ dq ++ "," ++ nl ++
  "            " ++ dq ++ "summary" ++ dq ++ ": " ++ dq ++ "Short summary in Korean" ++ dq ++ nl ++
  "        }}" ++ nl ++
  "        ".

(** The mock data of [fetch_news_node] *)
Definition MOCK_DATA : list article :=
  [ [ ("title", PyStr "Central Bank hikes rates by 0.75%");
      ("description", PyStr "Inflation control measures...");
      ("url", PyStr "http://test.com/1") ];
    [ ("title", PyStr "New K-Pop star debut");
      ("description", PyStr "Entertainment news...");
      ("url", PyStr "http://test.com/2") ] ].

(** An entry of [analyzed_risks] *)
Record risk := Risk { original : article; analysis : string }.

(** [AgentState]; a channel no node has written yet is absent. *)
Record AgentState := State {
  raw_headlines : option (list article);
  relevant_news : option (list article);
  analyzed_risks : option (list risk);
  final_email_body : option string
}.

(** [state[k]] *)
Definition channel {A} (k : string) (c : option A) : result A :=
  match c with
  | Some x => Ok x
  | None => Raise (KeyError k)
  end.

(** The text searched for in the lower-cased completion *)
Definition relevant_marker : string := dq ++ "is_relevant" ++ dq ++ ": true".

(** The f-string of [report_node] *)
Definition writer_prompt (input_text : string) : string :=
  nl ++
  "    Based on the following risk analyses, write a cohesive email alert in Korean." ++ nl ++
  "    Format clearly with bullet points." ++ nl ++
  "    " ++ nl ++
  "    Analyses:" ++ nl ++
  "    " ++ input_text ++ nl ++
  "    ".

Inductive route := ToAnalyze | ToEnd.

Section WorkflowCollaborators.

Variable World : Type.
(** [llm.invoke] *)
Variable llm_invoke : string -> World -> result string * World.
(** [NewsApiClient(api_key=...).get_top_headlines(q=, language=, page_size=)] *)
Variable get_top_headlines : string -> string -> nat -> World -> result headlines * World.
(** [PromptTemplate.format]: the template and the named values *)
Variable format : string -> list (string * pyval) -> string.
(** The console: the values whose text [sys.stdout] can encode *)
Variable writable : pyval -> bool.

Definition invoke (st : stage) (prompt : string) : M World string :=
  call (llm_invoke prompt) (fun r => [Completion st prompt r]).

Definition fetch_news_node (state : AgentState) : M World (list article) :=
  print FetchingNews ;;;
  try_except_Exception
    (response <- call (get_top_headlines "economy" "en" 10) (fun _ => []) ;;
     ret (get_articles response))
    (fun e => print (ApiError e) ;;; ret MOCK_DATA).

(** [print(f"... {news['title'][:30]}...")] *)
Definition print_title (l : pyval -> line) (news : article) : M World unit :=
  title <- lift (item news "title") ;;
  print_sliced writable 30 (l title) title.

(** The body of the loop of [filter_news_node].  The article is appended
    before its line is printed, so an exception raised while printing
    leaves it in the list; every exception ends the iteration only. *)
Definition filter_one (relevant_news : list article) (news : article)
  : M World (list article) :=
  r <- try_except_all
         (title <- lift (item news "title") ;;
          res <- invoke Filter (format filter_template [("headline", title)]) ;;
          ret (Some res))
         (fun _ => ret None) ;;
  match r with
  | None => ret relevant_news
  | Some res =>
      if contains relevant_marker (lower res) then
        try_except_all (print_title RelevantTitle news) (fun _ => ret tt) ;;;
        ret (relevant_news ++ [news])%list
      else
        try_except_all (print_title SkippedTitle news) (fun _ => ret tt) ;;;
        ret relevant_news
  end.

Definition filter_news_node (state : AgentState) : M World (list article) :=
  print FilteringNews ;;;
  raw_news <- lift (channel "raw_headlines" (raw_headlines state)) ;;
  fold_each filter_one raw_news [].

(** The body of the loop of [analyze_risk_node]: no [try]. *)
Definition analyze_one (analyzed_risks : list risk) (news : article)
  : M World (list risk) :=
  title <- lift (item news "title") ;;
  let content := Py.or_ (field news "description") title in
  res <- invoke Analyze (format analysis_template [("headline", title); ("content", content)]) ;;
  if contains "High" res || contains "Medium" res
  then ret (analyzed_risks ++ [Risk news res])%list
  else ret analyzed_risks.

Definition analyze_risk_node (state : AgentState) : M World (list risk) :=
  print AnalyzingRisks ;;;
  relevant_news <- lift (channel "relevant_news" (relevant_news state)) ;;
  fold_each analyze_one relevant_news [].

Definition report_node (state : AgentState) : M World string :=
  print WritingReport ;;;
  risks <- lift (channel "analyzed_risks" (analyzed_risks state)) ;;
  match risks with
  | [] => ret "No significant risks detected."
  | _ =>
      let input_text := join nl (map analysis risks) in
      email_body <- invoke Report (writer_prompt input_text) ;;
      print (FinalEmail email_body) ;;;
      ret email_body
  end.

Definition check_relevance (state : AgentState) : M World route :=
  relevant_news <- lift (channel "relevant_news" (relevant_news state)) ;;
  match relevant_news with
  | [] => print NoRelevantNews ;;; ret ToEnd
  | _ => ret ToAnalyze
  end.

(** [app.invoke(state)]: the compiled graph.  The entry point is
    [fetch]; the edges are fetch -> filter, filter -> analyze or END as
    [check_relevance] says, analyze -> report, report -> END.  Each node's
    return value overwrites the channel it names. *)
Definition app_invoke (state : AgentState) : M World AgentState :=
  articles <- fetch_news_node state ;;
  let state := State (Some articles) (relevant_news state)
                     (analyzed_risks state) (final_email_body state) in
  relevant <- filter_news_node state ;;
  let state := State (raw_headlines state) (Some relevant)
                     (analyzed_risks state) (final_email_body state) in
  next <- check_relevance state ;;
  match next with
  | ToEnd => ret state
  | ToAnalyze =>
      risks <- analyze_risk_node state ;;
      let state := State (raw_headlines state) (relevant_news state)
                         (Some risks) (final_email_body state) in
      body <- report_node state ;;
      ret (State (raw_headlines state) (relevant_news state)
                 (analyzed_risks state) (Some body))
  end.

(** The state the script starts from: [{"raw_headlines": []}] *)
Definition initial_state : AgentState := State (Some []) None None None.

End WorkflowCollaborators.

End Workflow.

(* ================================================================== *)
(** ** Reading a trace *)
(* ================================================================== *)

(** The completion calls, in order: stage and prompt. *)
Definition calls (t : list event) : list (stage * string) :=
  flat_map (fun ev => match ev with
                      | Completion st p _ => [(st, p)]
                      | _ => []
                      end) t.

(** The e-mails handed to the delivery sink: subject and body. *)
Definition emails (t : list event) : list (string * string) :=
  flat_map (fun ev => match ev with
                      | Email _ subject body => [(subject, body)]
                      | _ => []
                      end) t.

(** The completion calls with what came back: stage and reply. *)
Definition replies (t : list event) : list (stage * result string) :=
  flat_map (fun ev => match ev with
                      | Completion st _ r => [(st, r)]
                      | _ => []
                      end) t.

Definition is_no_relevant_news (ev : event) : bool :=
  match ev with
  | Print NoRelevantNews => true
  | _ => false
  end.

Definition is_final_email (ev : event) : bool :=
  match ev with
  | Print (FinalEmail _) => true
  | _ => false
  end.

Definition stage_eqb (a b : stage) : bool :=
  match a, b with
  | Filter, Filter | Analyze, Analyze | Summarize, Summarize | Report, Report => true
  | _, _ => false
  end.

(** The completion calls made for a given stage. *)
Definition calls_of (st : stage) (t : list event) : list string :=
  map snd (filter (fun c => stage_eqb (fst c) st) (calls t)).

Definition is_mapping (v : pyval) : bool :=
  match v with
  | PyDict _ => true
  | _ => false
  end.

(** No back-tick occurs in [s]. *)
Fixpoint tick_free (s : string) : bool :=
  match s with
  | EmptyString => true
  | String c r => negb (PyStr.code c =? 96) && tick_free r
  end.

(** A text cut into pieces: plain texts, and the two markers. *)
Inductive piece :=
| Plain (a : string)
| FenceJson
| Fence.

Definition piece_text (p : piece) : string :=
  match p with
  | Plain a => a
  | FenceJson => fence_json
  | Fence => fence
  end.

(** The text the pieces make, and the text of the plain pieces alone. *)
Fixpoint assemble (l : list piece) : string :=
  match l with
  | [] => EmptyString
  | p :: r => piece_text p ++ assemble r
  end.

Fixpoint plain (l : list piece) : string :=
  match l with
  | [] => EmptyString
  | Plain a :: r => a ++ plain r
  | _ :: r => plain r
  end.

Fixpoint without_json (l : list piece) : list piece :=
  match l with
  | [] => []
  | FenceJson :: r => without_json r
  | p :: r => p :: without_json r
  end.

(** The pieces are what a reader sees: a plain text holds no back-tick,
    and what follows a [Fence] does not begin with [json], which would
    make it a [FenceJson]. *)
Fixpoint well_cut (l : list piece) : bool :=
  match l with
  | [] => true
  | Plain a :: r => tick_free a && well_cut r
  | FenceJson :: r => well_cut r
  | Fence :: r => negb (String.prefix "json" (assemble r)) && well_cut r
  end.

(** Limits every interpreter is as wide as, without room and with room
    for one container. *)
Definition flat_limits : interpreter := Interpreter 0 1.
Definition one_level : interpreter := Interpreter 1 1.

(* ================================================================== *)
(** ** Test doubles for the collaborators *)
(* ================================================================== *)

Module Double.

Import PyStr.

(** The world of a test: what the news client answers, and the replies
    the completion client gives, call after call. *)
Record world := World { news : result headlines; script : list (result string) }.

Definition llm_invoke (prompt : string) (w : world) : result string * world :=
  match script w with
  | r :: rest => (r, World (news w) rest)
  | [] => (Raise (External true "no reply left"), w)
  end.

Definition get_top_headlines (q language : string) (page_size : nat) (w : world)
  : result headlines * world :=
  (news w, w).

(** The interpreter as it starts: the recursion limit of 1000 leaves 993
    levels where the script calls the parser, and the cap on the digits of
    an integer is 4300. *)
Definition py : interpreter := Interpreter 993 4300.

(** A console that encodes UTF-8 and refuses what cannot be encoded *)
Definition writable (v : pyval) : bool := Py.printable v.

(** [str] on the values the tests render: strings, [None], truth values,
    integers and the float constants.  The text of a float, a list or a
    mapping is not reproduced, and no test depends on it. *)
Definition str (v : pyval) : string :=
  match v with
  | PyStr s => s
  | PyNone => "None"
  | PyBool true => "True"
  | PyBool false => "False"
  | PyInt z => NilZero.string_of_int (Z.to_int z)
  | PyFloatConst NaN => "nan"
  | PyFloatConst PosInfinity => "inf"
  | PyFloatConst NegInfinity => "-inf"
  | _ => "<value>"
  end.

(** [template.format] with the named values [args], read from left to right: a doubled brace
    gives one brace, and [{name}] gives the text of the value of that name.
    [name] is the name being read inside a pair of braces.  The templates
    of the two programs hold no brace of another kind and name only values
    that are given. *)
Fixpoint format_from (args : list (string * pyval)) (name : option string) (t : string)
  : string :=
  match t with
  | EmptyString => EmptyString
  | String c r =>
      match name with
      | Some acc =>
          if code c =? 125
          then str (field args acc) ++ format_from args None r
          else format_from args (Some (acc ++ String c EmptyString)) r
      | None =>
          if code c =? 123 then
            match r with
            | String d r' =>
                if code d =? 123 then String c (format_from args None r')
                else format_from args (Some EmptyString) r
            | EmptyString => EmptyString
            end
          else if code c =? 125 then
            match r with
            | String d r' =>
                if code d =? 125 then String c (format_from args None r')
                else String c (format_from args None r)
            | EmptyString => String c EmptyString
            end
          else String c (format_from args None r)
      end
  end.

Definition format (template : string) (args : list (string * pyval)) : string :=
  format_from args None template.

Definition crash : exn := External true "model crashed".
Definition offline : exn := External true "connection refused".

Definition one_article : article :=
  [ ("title", PyStr "Central Bank hikes rates by 0.75%");
    ("description", PyStr "Inflation control measures");
    ("url", PyStr "http://test.com/1") ].

Definition other_article : article :=
  [ ("title", PyStr "New K-Pop star debut");
    ("description", PyStr "Entertainment news");
    ("url", PyStr "http://test.com/2") ].

Definition relevant_reply : string := q "{'is_relevant': true, 'reason': 'rates'}".
Definition irrelevant_reply : string := q "{'is_relevant': false, 'reason': 'entertainment'}".
Definition low_but_alert_reply : string :=
  q "{'risk_type': 'Market Risk', 'impact_level': 'Low', 'send_alert': true}".
Definition high_no_alert_reply : string :=
  q "{'risk_type': 'Market Risk', 'impact_level': 'High', 'send_alert': false}".
Definition high_alert_reply : string :=
  q "{'risk_type': 'Market Risk', 'impact_level': 'High', 'send_alert': true}".
Definition nested_reply : string :=
  q "{'prior': {'is_relevant': true}, 'is_relevant': false}".
Definition prose_reply : string := "High time to panic, said nobody.".
Definition fenced_inside_reply : string := q "{'is_relevant': ```true```}".
Definition fenced_reply : string :=
  "```json" ++ nl ++ q "{'is_relevant': true}" ++ nl ++ "```".

Definition mapping_low : pydict :=
  [("risk_type", PyStr "Market Risk"); ("impact_level", PyStr "Low");
   ("send_alert", PyBool true)].

Definition mapping_nested : pydict :=
  [("prior", PyDict [("is_relevant", PyBool true)]); ("is_relevant", PyBool false)].

(** The worlds of the tests: the news service is down unless said
    otherwise, and then the mock data are used. *)
Definition w_low_alert : world :=
  World (Raise offline) [Ok relevant_reply; Ok low_but_alert_reply; Ok "brief"].

Definition w_prose : world :=
  World (Ok (Headlines (Some [one_article])))
        [Ok relevant_reply; Ok prose_reply; Ok "mail"].

Definition w_nested : world :=
  World (Ok (Headlines (Some [one_article])))
        [Ok nested_reply; Ok high_alert_reply; Ok "mail"].

Definition w_crash : world :=
  World (Raise offline)
        [Ok relevant_reply; Ok relevant_reply; Raise crash; Ok high_alert_reply; Ok "mail"].

Definition w_crash_linear : world :=
  World (Raise offline)
        [Ok relevant_reply; Raise crash;
         Ok relevant_reply; Ok high_alert_reply; Ok "brief";
         Ok irrelevant_reply].

Definition w_none_relevant : world :=
  World (Raise offline) [Ok irrelevant_reply; Ok irrelevant_reply].

Definition w_empty_reply : world := World (Ok (Headlines (Some []))) [].

Definition state_of (relevant : list article) : Workflow.AgentState :=
  Workflow.State (Some relevant) (Some relevant) None None.

Definition state_without_risks : Workflow.AgentState :=
  Workflow.State (Some []) (Some [one_article]) (Some []) None.

(** A completion client that is down, an article without a headline, one
    whose headline is a number, and the state the workflow ends in on
    [w_prose]. *)
Definition llm_down (prompt : string) (w : world) : result string * world :=
  (Raise crash, w).

Definition untitled_article : article :=
  [ ("description", PyStr "No headline"); ("url", PyStr "http://test.com/3") ].

Definition numbered_article : article :=
  [ ("title", PyInt 5); ("url", PyStr "http://test.com/4") ].

Definition w_untitled : world :=
  World (Ok (Headlines (Some [untitled_article; one_article]))) [Ok relevant_reply].

Definition s_prose : Workflow.AgentState :=
  Workflow.State (Some [one_article]) (Some [one_article])
    (Some [Workflow.Risk one_article prose_reply]) (Some "mail").

(** Completions that bring the limits and the console into play: an
    integer of 4301 digits, 994 lists one inside the other, and mappings
    with a value that is a lone surrogate, read from its escape. *)
Definition long_integer : string := copies 4301 "1".

Definition deep_list : string := copies 994 "[" ++ copies 994 "]".

Fixpoint nested (n : nat) : pyval :=
  match n with
  | O => PyList []
  | S k => PyList [nested k]
  end.

Definition lone_surrogate : string := Json.utf8 55357.

Definition surrogate_reason_reply : string :=
  q "{'is_relevant': false, 'reason': '\ud83d'}".

Definition surrogate_risk_reply : string :=
  q "{'risk_type': '\ud83d', 'impact_level': 'High', 'send_alert': true}".

Definition mapping_relevant : pydict :=
  [("is_relevant", PyBool true); ("reason", PyStr "rates")].

Definition mapping_irrelevant : pydict :=
  [("is_relevant", PyBool false); ("reason", PyStr "entertainment")].

Definition mapping_high_no_alert : pydict :=
  [("risk_type", PyStr "Market Risk"); ("impact_level", PyStr "High");
   ("send_alert", PyBool false)].

Definition mapping_surrogate_reason : pydict :=
  [("is_relevant", PyBool false); ("reason", PyStr lone_surrogate)].

Definition mapping_surrogate_risk : pydict :=
  [("risk_type", PyStr lone_surrogate); ("impact_level", PyStr "High");
   ("send_alert", PyBool true)].

(** An article whose headline holds a lone surrogate, and a reply of the
    news service that leads with it. *)
Definition surrogate_article : article :=
  [ ("title", PyStr ("Rates " ++ lone_surrogate));
    ("url", PyStr "http://test.com/5") ].

Definition w_surrogate : world :=
  World (Ok (Headlines (Some [surrogate_article; one_article]))) [Ok relevant_reply].

(** The worlds in which the completion client has the replies [l] left
    and the news service is down. *)
Definition replies_left (l : list (result string)) : world := World (Raise offline) l.

(** The two programs run against the doubles. *)
Definition linear_run (w : world) : run world unit :=
  Linear.run_early_warning_system llm_invoke get_top_headlines format str py writable w.

Definition linear_article (a : article) (w : world) : run world unit :=
  Linear.process_article llm_invoke format str py writable a w.

Definition workflow_run (w : world) : run world Workflow.AgentState :=
  Workflow.app_invoke llm_invoke get_top_headlines format writable Workflow.initial_state w.

End Double.

(* ================================================================== *)
(** ** The two programs with their collaborators, and what is said of
    their runs *)
(* ================================================================== *)

(** What the Filter node may write or ask. *)
Definition filter_stage_event (ev : event) : bool :=
  match ev with
  | Completion Filter _ _ => true
  | Print FilteringNews | Print (RelevantTitle _) | Print (SkippedTitle _) => true
  | _ => false
  end.

(** What the Fetch node may write. *)
Definition fetch_stage_event (ev : event) : bool :=
  match ev with
  | Print FetchingNews | Print (ApiError _) => true
  | _ => false
  end.

(** A completion call of the stage [st] *)
Definition is_call (st : stage) (ev : event) : bool :=
  match ev with
  | Completion st' _ _ => stage_eqb st' st
  | _ => false
  end.

(** The titles of a list of articles *)
Definition titles (l : list article) : list pyval :=
  map (fun a => field a "title") l.

(** [subseq l k]: [l] is [k] with some elements left out, the others in
    their order. *)
Inductive subseq {A : Type} : list A -> list A -> Prop :=
| subseq_nil : subseq [] []
| subseq_skip (x : A) (l k : list A) : subseq l k -> subseq l (x :: k)
| subseq_keep (x : A) (l k : list A) : subseq l k -> subseq (x :: l) (x :: k).

(** The stages of the completion calls of a trace, in order. *)
Definition stages (t : list event) : list stage := map fst (calls t).

(** What the Analyze node may write or ask. *)
Definition analyze_stage_event (ev : event) : bool :=
  match ev with
  | Completion Analyze _ _ => true
  | Print AnalyzingRisks => true
  | _ => false
  end.

(** [cap_wider c1 c2]: the cap [c2] on digits refuses no literal the cap
    [c1] accepts (0 stands for no cap). *)
Definition cap_wider (c1 c2 : nat) : Prop := c2 = 0 \/ (0 < c1 /\ c1 <= c2).

(** [wider p q]: the limits [q] are at least as wide as the limits [p]. *)
Definition wider (p q : interpreter) : Prop :=
  recursion_room p <= recursion_room q /\
  cap_wider (int_max_str_digits p) (int_max_str_digits q).

(** Limits as wide as both *)
Definition join_limits (p q : interpreter) : interpreter :=
  Interpreter (Nat.max (recursion_room p) (recursion_room q))
    (match int_max_str_digits p, int_max_str_digits q with
     | O, _ | _, O => O
     | a, b => Nat.max a b
     end).

Unset Implicit Arguments.

(** Split the conjunctions of a goal, and nothing else. *)
Ltac conjuncts := repeat match goal with |- _ /\ _ => split end.

Section Pipelines.

Variable World : Type.
(** [llm.invoke] *)
Variable llm_invoke : string -> World -> result string * World.
(** [NewsApiClient(api_key=...).get_top_headlines(q=, language=, page_size=)] *)
Variable get_top_headlines : string -> string -> nat -> World -> result headlines * World.
(** [PromptTemplate.format]: the template and the named values *)
Variable format : string -> list (string * pyval) -> string.
(** The builtin [str], as an f-string applies it *)
Variable str : pyval -> string.
(** The limits the interpreter sets to [json.loads] *)
Variable py : interpreter.
(** The console: the values whose text [sys.stdout] can encode *)
Variable writable : pyval -> bool.

(** The prompts of the linear script for an article *)
Definition filter_prompt (a : article) : string :=
  format Linear.filter_template [("headline", field a "title")].

Definition analysis_prompt (a : article) : string :=
  format Linear.analysis_template
    [("headline", field a "title");
     ("content", Py.or_ (field a "description") (field a "title"))].

Definition summary_prompt (a : article) (risk_type : pyval) : string :=
  format Linear.summary_template
    [("headline", field a "title");
     ("content", Py.or_ (field a "description") (field a "title"));
     ("risk_type", risk_type)].

(** The completion calls an article can cause, in the order of the
    stages. *)
Definition stage_calls (a : article) (risk_type : pyval) : list (stage * string) :=
  [(Filter, filter_prompt a); (Analyze, analysis_prompt a);
   (Summarize, summary_prompt a risk_type)].

(** The linear script: the body of its loop, the loop, the retrieval
    step and the whole run *)
Definition process := Linear.process_article llm_invoke format str py writable.

Definition loop := for_each process.

(** The line announcing the article can be written: the headline can be
    sliced, and the console can write its first fifty characters. *)
Definition announced (a : article) : Prop :=
  Py.sliceable (field a "title") = true /\
  writable (Py.slice_to 50 (field a "title")) = true.

(** The calls of one article are an initial part of Filter, Analyze,
    Summarize. *)
Definition in_stage_order (a : article) (cs : list (stage * string)) : Prop :=
  exists risk_type n, cs = firstn n (stage_calls a risk_type).

Definition fetch := Linear.fetch_news get_top_headlines.

Definition run_script :=
  Linear.run_early_warning_system llm_invoke get_top_headlines format str py writable.

(** The articles the retrieval step hands to the loop *)
Definition fetched (w : World) : list article :=
  match res (fetch w) with
  | Ok l => l
  | Raise _ => []
  end.

(** The prompts of the workflow *)
Definition wf_filter_prompt (title : pyval) : string :=
  format Workflow.filter_template [("headline", title)].

Definition wf_analysis_prompt (news : article) (title : pyval) : string :=
  format Workflow.analysis_template
    [("headline", title); ("content", Py.or_ (field news "description") title)].

(** The workflow: the bodies of its loops, its nodes and the graph *)
Definition filter_one := Workflow.filter_one llm_invoke format writable.

Definition analyze_one := Workflow.analyze_one llm_invoke format.

Definition fetch_node := Workflow.fetch_news_node get_top_headlines.

Definition filter_node := Workflow.filter_news_node llm_invoke format writable.

Definition analyze_node := Workflow.analyze_risk_node llm_invoke format.

Definition report_node := Workflow.report_node llm_invoke.

Definition app_invoke := Workflow.app_invoke llm_invoke get_top_headlines format writable.

Definition filter_loop := fold_each filter_one.

Definition analyze_loop := fold_each analyze_one.

(** The survivors of the Filter loop: what was there, and the articles
    whose completion showed the marker. *)
Definition passed_marker (t : list event) (news : article) : Prop :=
  exists title reply,
    item news "title" = Ok title /\
    In (Completion Filter (wf_filter_prompt title) (Ok reply)) t /\
    PyStr.contains Workflow.relevant_marker (PyStr.lower reply) = true.

(** The run up to the conditional edge: [fetch], then [filter]. *)
Definition filter_stage (st : Workflow.AgentState) : M World (list article) :=
  bind (fetch_node st)
       (fun articles =>
          filter_node (Workflow.State (Some articles) (Workflow.relevant_news st)
                         (Workflow.analyzed_risks st) (Workflow.final_email_body st))).

(* ================================================================== *)
(** * Properties *)
(* ================================================================== *)

(** ** The decoder consumes its input and never runs out of budget *)

Lemma prefix_drop (p s : string) :
  String.prefix p s = true ->
  String.length (PyStr.drop (String.length p) s) + String.length p = String.length s.
Proof.
  revert s; induction p as [|a p IH]; intros s H; simpl.
  - lia.
  - destruct s as [|b s]; simpl in H; [discriminate|].
    destruct (ascii_dec a b); [|discriminate].
    simpl. specialize (IH s H). lia.
Qed.

Lemma skip_ws_length (s : string) :
  String.length (Json.skip_ws s) <= String.length s.
Proof.
  induction s as [|c s IH]; simpl; [lia|].
  destruct (Json.is_ws c); simpl; lia.
Qed.

Lemma emit_some pre k x r :
  Json.emit pre k = Some (x, r) -> exists y, k = Some (y, r).
Proof.
  destruct k as [[y r']|]; simpl; intros H; [|discriminate].
  inversion H; subst. eauto.
Qed.

Lemma scanstring_length (s : string) :
  forall pend x r, Json.scanstring pend s = Some (x, r) ->
                   String.length r < String.length s.
Proof.
  remember (String.length s) as n eqn:Hn.
  revert s Hn. induction n as [n IH] using lt_wf_ind. intros s Hn pend x r H.
  destruct s as [|c s]; simpl in H; [discriminate|].
  simpl in Hn.
  destruct (PyStr.code c =? 34).
  { inversion H; subst. simpl. lia. }
  destruct (PyStr.code c =? 92).
  { destruct s as [|e s1]; [discriminate|].
    destruct (PyStr.code e =? 117).
    - destruct s1 as [|h1 [|h2 [|h3 [|h4 r2]]]]; try discriminate.
      destruct (Json.hex4 h1 h2 h3 h4); [|discriminate].
      assert (Hr : forall p' y, Json.scanstring p' r2 = Some (y, r) ->
                                String.length r < String.length r2).
      { intros p' y Hy. eapply (IH (String.length r2)); eauto. simpl in Hn. lia. }
      simpl in Hn |- *.
      destruct pend.
      + destruct (Json.is_low n0); [|destruct (Json.is_high n0)];
          apply emit_some in H; destruct H as [y Hy]; apply Hr in Hy; lia.
      + destruct (Json.is_high n0).
        * apply Hr in H; lia.
        * apply emit_some in H; destruct H as [y Hy]; apply Hr in Hy; lia.
    - destruct (Json.simple_escape e); [|discriminate].
      apply emit_some in H. destruct H as [y Hy].
      eapply (IH (String.length s1)) in Hy; eauto; simpl in *; lia. }
  destruct (PyStr.code c <? 32); [discriminate|].
  apply emit_some in H. destruct H as [y Hy].
  eapply (IH (String.length s)) in Hy; eauto; simpl; lia.
Qed.

Lemma take_digits_length (s : string) :
  forall d r, Json.take_digits s = (d, r) -> String.length r <= String.length s.
Proof.
  induction s as [|c s IH]; simpl; intros d r H.
  - inversion H; subst; simpl; lia.
  - destruct (Json.is_digit c).
    + destruct (Json.take_digits s) as [d' r'] eqn:E. inversion H; subst.
      specialize (IH _ _ eq_refl). lia.
    + inversion H; subst. simpl; lia.
Qed.

Lemma scan_int_length s d r :
  Json.scan_int s = Some (d, r) -> String.length r < String.length s.
Proof.
  destruct s as [|c s]; unfold Json.scan_int; [discriminate|].
  destruct (PyStr.code c =? 48).
  - intros H; inversion H; subst; simpl; lia.
  - destruct (Json.is_digit c) eqn:Hd; [|discriminate].
    intros H. injection H as H.
    cbn [Json.take_digits] in H. rewrite Hd in H.
    destruct (Json.take_digits s) as [d' r'] eqn:E. inversion H; subst.
    apply take_digits_length in E. simpl; lia.
Qed.

Lemma scan_frac_length s d r :
  Json.scan_frac s = (d, r) -> String.length r <= String.length s.
Proof.
  destruct s as [|c s]; simpl.
  - intros H; inversion H; subst; simpl; lia.
  - destruct (PyStr.code c =? 46).
    + destruct (Json.take_digits s) as [d' r'] eqn:E.
      apply take_digits_length in E.
      destruct d'; intros H; inversion H; subst; simpl; lia.
    + intros H; inversion H; subst; simpl; lia.
Qed.


Lemma scan_exp_length s x r :
  Json.scan_exp s = (x, r) -> String.length r <= String.length s.
Proof.
  destruct s as [|c s]; unfold Json.scan_exp.
  - intros H; inversion H; subst; simpl; lia.
  - destruct ((PyStr.code c =? 101) || (PyStr.code c =? 69));
      [|intros H; inversion H; subst; simpl; lia].
    destruct s as [|g s']; [|destruct (PyStr.code g =? 45); [|destruct (PyStr.code g =? 43)]];
      intros H;
      match type of H with
      | context [Json.take_digits ?t] =>
          destruct (Json.take_digits t) as [d' r'] eqn:E;
          apply take_digits_length in E;
          destruct d'; inversion H; subst; simpl in *; lia
      end.
Qed.

Lemma take_digits_sum (s : string) :
  forall d r, Json.take_digits s = (d, r) ->
              String.length d + String.length r = String.length s.
Proof.
  induction s as [|c s IH]; simpl; intros d r H.
  - inversion H; subst; reflexivity.
  - destruct (Json.is_digit c).
    + destruct (Json.take_digits s) as [d' r'] eqn:E. inversion H; subst.
      specialize (IH _ _ eq_refl). simpl. lia.
    + inversion H; subst. reflexivity.
Qed.

Lemma scan_int_sum s d r :
  Json.scan_int s = Some (d, r) -> String.length d + String.length r = String.length s.
Proof.
  destruct s as [|c s]; unfold Json.scan_int; [discriminate|].
  destruct (PyStr.code c =? 48).
  - intros H; inversion H; subst; reflexivity.
  - destruct (Json.is_digit c) eqn:Hd; [|discriminate].
    intros H. injection H as H. exact (take_digits_sum (String c s) _ _ H).
Qed.

(** The parts of a number: the text after the sign, the digits of the
    integer part, and what follows them. *)
Lemma scan_number_parts cap s :
  exists s1, String.length s1 <= String.length s /\
    match Json.scan_int s1 with
    | None => Json.scan_number cap s = Json.PErr
    | Some (int_d, s2) =>
        String.length int_d + String.length s2 = String.length s1 /\
        0 < String.length int_d /\
        exists s4, String.length s4 <= String.length s2 /\
          (Json.scan_number cap s = Json.PDigits /\ Json.over_cap cap int_d = true \/
           exists v, Json.scan_number cap s = Json.POk v s4 /\
                     (Json.over_cap cap int_d = false \/
                      forall cap', Json.scan_number cap' s = Json.POk v s4))
    end.
Proof.
  unfold Json.scan_number.
  set (sg := match s with
             | String c r0 => if PyStr.code c =? 45 then (true, r0) else (false, s)
             | EmptyString => (false, s)
             end).
  assert (Hsg : String.length (snd sg) <= String.length s).
  { subst sg. destruct s as [|c s']; simpl; [lia|].
    destruct (PyStr.code c =? 45); simpl; lia. }
  destruct sg as [neg s1]. simpl in Hsg. exists s1. split; [exact Hsg|].
  destruct (Json.scan_int s1) as [[int_d s2]|] eqn:E1; [|reflexivity].
  pose proof (scan_int_sum _ _ _ E1) as Hsum.
  pose proof (scan_int_length _ _ _ E1) as Hlt.
  split; [exact Hsum|]. split; [lia|].
  destruct (Json.scan_frac s2) as [frac_d s3] eqn:E2.
  apply scan_frac_length in E2.
  destruct (Json.scan_exp s3) as [ex s4] eqn:E3.
  apply scan_exp_length in E3.
  exists s4. split; [lia|].
  destruct frac_d; destruct ex;
    try (right; eexists; split; [reflexivity|right; intros cap'; reflexivity]).
  destruct (Json.over_cap cap int_d) eqn:Ho.
  - left. split; reflexivity.
  - right. eexists. split; [reflexivity|left; reflexivity].
Qed.

Lemma scan_number_length cap s v r :
  Json.scan_number cap s = Json.POk v r -> String.length r < String.length s.
Proof.
  intros H. destruct (scan_number_parts cap s) as [s1 [Hs1 Hp]].
  destruct (Json.scan_int s1) as [[int_d s2]|]; [|congruence].
  destruct Hp as [Hsum [Hpos [s4 [Hs4 [[Hd _]|[v' [Hv _]]]]]]]; [congruence|].
  rewrite Hv in H. inversion H; subst. lia.
Qed.

Lemma scan_number_digits cap s :
  Json.scan_number cap s = Json.PDigits -> 0 < cap /\ cap < String.length s.
Proof.
  intros H. destruct (scan_number_parts cap s) as [s1 [Hs1 Hp]].
  destruct (Json.scan_int s1) as [[int_d s2]|]; [|congruence].
  destruct Hp as [Hsum [Hpos [s4 [Hs4 [[_ Ho]|[v' [Hv _]]]]]]]; [|congruence].
  unfold Json.over_cap in Ho. apply andb_true_iff in Ho. destruct Ho as [H0 H1].
  apply Nat.ltb_lt in H0. apply Nat.ltb_lt in H1. lia.
Qed.

Lemma scan_number_never cap s :
  Json.scan_number cap s <> Json.PFuel /\ Json.scan_number cap s <> Json.PDepth.
Proof.
  destruct (scan_number_parts cap s) as [s1 [Hs1 Hp]].
  destruct (Json.scan_int s1) as [[int_d s2]|]; [|split; congruence].
  destruct Hp as [Hsum [Hpos [s4 [Hs4 [[Hd _]|[v' [Hv _]]]]]]]; split; congruence.
Qed.

(** A wider cap refuses no number a narrower one accepts. *)
Lemma scan_number_grows cap1 cap2 s :
  cap_wider cap1 cap2 ->
  (forall v r, Json.scan_number cap1 s = Json.POk v r ->
               Json.scan_number cap2 s = Json.POk v r) /\
  (Json.scan_number cap1 s = Json.PErr -> Json.scan_number cap2 s = Json.PErr).
Proof.
  intros Hw.
  destruct (scan_number_parts cap1 s) as [s1 [Hs1 Hp]].
  destruct (scan_number_parts cap2 s) as [s1' [Hs1' Hp']].
  assert (Hover : forall d, Json.over_cap cap1 d = false -> Json.over_cap cap2 d = false).
  { intros d H. unfold Json.over_cap in *.
    apply andb_false_iff in H. apply andb_false_iff.
    destruct Hw as [->|[H0 H1]]; [left; reflexivity|].
    destruct H as [H|H].
    - apply Nat.ltb_ge in H. lia.
    - apply Nat.ltb_ge in H. right. apply Nat.ltb_ge. lia. }
  revert Hp Hp'. unfold Json.scan_number.
  set (sg := match s with
             | String c r0 => if PyStr.code c =? 45 then (true, r0) else (false, s)
             | EmptyString => (false, s)
             end).
  destruct sg as [ng t1]. intros _ _.
  destruct (Json.scan_int t1) as [[int_d s2]|]; [|split; intros; assumption].
  destruct (Json.scan_frac s2) as [frac_d s3].
  destruct (Json.scan_exp s3) as [ex s4].
  destruct frac_d; destruct ex; try (split; intros; assumption).
  destruct (Json.over_cap cap1 int_d) eqn:Ho.
  - split; intros; discriminate.
  - rewrite (Hover _ Ho). split; intros; assumption.
Qed.

Lemma literal_length w v s v' r :
  0 < String.length w -> Json.literal w v s = Json.POk v' r ->
  String.length r < String.length s.
Proof.
  unfold Json.literal. intros Hw.
  destruct (String.prefix w s) eqn:E; [|discriminate].
  intros H; inversion H; subst. apply prefix_drop in E. lia.
Qed.

Lemma expect_length c s r :
  Json.expect c s = Some r -> String.length s = S (String.length r).
Proof.
  destruct s as [|a s]; simpl; [discriminate|].
  destruct (PyStr.code a =? c); [|discriminate].
  intros H; inversion H; subst; reflexivity.
Qed.

(** The loops of the containers, over a value scanner that consumes what
    it reads. *)
Section Containers.

Variable scan : string -> Json.pres.
Hypothesis scan_consumes :
  forall s v r, scan s = Json.POk v r -> String.length r < String.length s.

Lemma array_items_length n :
  forall s l r, Json.array_items scan n s = Json.POk l r ->
                String.length r < String.length s.
Proof.
  induction n as [|n IH]; simpl; intros s l r H; [discriminate|].
  destruct (scan s) as [v1 r1| | | |] eqn:E; try discriminate.
  apply scan_consumes in E.
  pose proof (skip_ws_length r1) as Hw.
  destruct (Json.skip_ws r1) as [|c r2]; [discriminate|]. simpl in Hw.
  destruct (PyStr.code c =? 93).
  { inversion H; subst. lia. }
  destruct (PyStr.code c =? 44); [|discriminate].
  pose proof (skip_ws_length r2) as Hw2.
  destruct (Json.array_items scan n (Json.skip_ws r2)) as [l2 r3| | | |] eqn:E2;
    try discriminate.
  apply IH in E2. inversion H; subst; lia.
Qed.

Lemma object_pairs_length n :
  forall s l r, Json.object_pairs scan n s = Json.POk l r ->
                String.length r < String.length s.
Proof.
  induction n as [|n IH]; simpl; intros s l r H; [discriminate|].
  destruct (Json.expect 34 s) as [s1|] eqn:E1; [|discriminate].
  apply expect_length in E1.
  destruct (Json.scanstring None s1) as [[key s2]|] eqn:E2; [|discriminate].
  apply scanstring_length in E2.
  pose proof (skip_ws_length s2) as W2.
  destruct (Json.expect 58 (Json.skip_ws s2)) as [s3|] eqn:E3; [|discriminate].
  apply expect_length in E3.
  pose proof (skip_ws_length s3) as W3.
  destruct (scan (Json.skip_ws s3)) as [v1 r1| | | |] eqn:E; try discriminate.
  apply scan_consumes in E.
  pose proof (skip_ws_length r1) as Hw.
  destruct (Json.skip_ws r1) as [|c r2]; [discriminate|]. simpl in Hw.
  destruct (PyStr.code c =? 125).
  { inversion H; subst. lia. }
  destruct (PyStr.code c =? 44); [|discriminate].
  pose proof (skip_ws_length r2) as Hw2.
  destruct (Json.object_pairs scan n (Json.skip_ws r2)) as [l2 r3| | | |] eqn:E4;
    try discriminate.
  apply IH in E4. inversion H; subst; lia.
Qed.

(** The budget of the loops is never used up. *)
Hypothesis scan_budget : forall s, scan s <> Json.PFuel.

Lemma array_items_budget n :
  forall s, String.length s < n -> Json.array_items scan n s <> Json.PFuel.
Proof.
  induction n as [|n IH]; simpl; intros s Hn; [lia|].
  pose proof (scan_budget s) as Hs.
  destruct (scan s) as [v1 r1| | | |] eqn:E; try congruence.
  apply scan_consumes in E.
  pose proof (skip_ws_length r1) as Hw.
  destruct (Json.skip_ws r1) as [|c r2]; [congruence|]. simpl in Hw.
  destruct (PyStr.code c =? 93); [congruence|].
  destruct (PyStr.code c =? 44); [|congruence].
  pose proof (skip_ws_length r2) as Hw2.
  assert (Hrec : Json.array_items scan n (Json.skip_ws r2) <> Json.PFuel)
    by (apply IH; lia).
  destruct (Json.array_items scan n (Json.skip_ws r2)) as [l2 r3| | | |];
    congruence.
Qed.

Lemma object_pairs_budget n :
  forall s, String.length s < n -> Json.object_pairs scan n s <> Json.PFuel.
Proof.
  induction n as [|n IH]; simpl; intros s Hn; [lia|].
  destruct (Json.expect 34 s) as [s1|] eqn:E1; [|congruence].
  apply expect_length in E1.
  destruct (Json.scanstring None s1) as [[key s2]|] eqn:E2; [|congruence].
  apply scanstring_length in E2.
  pose proof (skip_ws_length s2) as W2.
  destruct (Json.expect 58 (Json.skip_ws s2)) as [s3|] eqn:E3; [|congruence].
  apply expect_length in E3.
  pose proof (skip_ws_length s3) as W3.
  pose proof (scan_budget (Json.skip_ws s3)) as Hs.
  destruct (scan (Json.skip_ws s3)) as [v1 r1| | | |] eqn:E; try congruence.
  apply scan_consumes in E.
  pose proof (skip_ws_length r1) as Hw.
  destruct (Json.skip_ws r1) as [|c r2]; [congruence|]. simpl in Hw.
  destruct (PyStr.code c =? 125); [congruence|].
  destruct (PyStr.code c =? 44); [|congruence].
  pose proof (skip_ws_length r2) as Hw2.
  assert (Hrec : Json.object_pairs scan n (Json.skip_ws r2) <> Json.PFuel)
    by (apply IH; lia).
  destruct (Json.object_pairs scan n (Json.skip_ws r2)) as [l2 r3| | | |];
    congruence.
Qed.

(** A limit met inside a container was met by the scan of a value, on a
    text no longer than the container's. *)
Variables Qd Qg : nat -> Prop.
Hypothesis Qd_up : forall a b, Qd a -> a <= b -> Qd b.
Hypothesis Qg_up : forall a b, Qg a -> a <= b -> Qg b.
Hypothesis scan_depth : forall s, scan s = Json.PDepth -> Qd (String.length s).
Hypothesis scan_digits : forall s, scan s = Json.PDigits -> Qg (String.length s).

Lemma array_items_limits n :
  forall s,
    (Json.array_items scan n s = Json.PDepth -> Qd (String.length s)) /\
    (Json.array_items scan n s = Json.PDigits -> Qg (String.length s)).
Proof.
  induction n as [|n IH]; simpl; intros s; [split; discriminate|].
  pose proof (scan_depth s) as Hd. pose proof (scan_digits s) as Hg.
  destruct (scan s) as [v1 r1| | | |] eqn:E;
    try (split; intros H; try discriminate; auto; fail).
  apply scan_consumes in E.
  pose proof (skip_ws_length r1) as Hw.
  destruct (Json.skip_ws r1) as [|c r2]; [split; discriminate|]. simpl in Hw.
  destruct (PyStr.code c =? 93); [split; discriminate|].
  destruct (PyStr.code c =? 44); [|split; discriminate].
  pose proof (skip_ws_length r2) as Hw2.
  destruct (IH (Json.skip_ws r2)) as [IHd IHg].
  destruct (Json.array_items scan n (Json.skip_ws r2)) as [l2 r3| | | |];
    split; intros H; try discriminate.
  - apply (Qd_up (String.length (Json.skip_ws r2))); [apply IHd; reflexivity|lia].
  - apply (Qg_up (String.length (Json.skip_ws r2))); [apply IHg; reflexivity|lia].
Qed.

Lemma object_pairs_limits n :
  forall s,
    (Json.object_pairs scan n s = Json.PDepth -> Qd (String.length s)) /\
    (Json.object_pairs scan n s = Json.PDigits -> Qg (String.length s)).
Proof.
  induction n as [|n IH]; simpl; intros s; [split; discriminate|].
  destruct (Json.expect 34 s) as [s1|] eqn:E1; [|split; discriminate].
  apply expect_length in E1.
  destruct (Json.scanstring None s1) as [[key s2]|] eqn:E2; [|split; discriminate].
  apply scanstring_length in E2.
  pose proof (skip_ws_length s2) as W2.
  destruct (Json.expect 58 (Json.skip_ws s2)) as [s3|] eqn:E3; [|split; discriminate].
  apply expect_length in E3.
  pose proof (skip_ws_length s3) as W3.
  pose proof (scan_depth (Json.skip_ws s3)) as Hd.
  pose proof (scan_digits (Json.skip_ws s3)) as Hg.
  destruct (scan (Json.skip_ws s3)) as [v1 r1| | | |] eqn:E;
    try (split; intros H; try discriminate; fail).
  - apply scan_consumes in E.
    pose proof (skip_ws_length r1) as Hw.
    destruct (Json.skip_ws r1) as [|c r2]; [split; discriminate|]. simpl in Hw.
    destruct (PyStr.code c =? 125); [split; discriminate|].
    destruct (PyStr.code c =? 44); [|split; discriminate].
    pose proof (skip_ws_length r2) as Hw2.
    destruct (IH (Json.skip_ws r2)) as [IHd IHg].
    destruct (Json.object_pairs scan n (Json.skip_ws r2)) as [l2 r3| | | |];
      split; intros H; try discriminate.
    + apply (Qd_up (String.length (Json.skip_ws r2))); [apply IHd; reflexivity|lia].
    + apply (Qg_up (String.length (Json.skip_ws r2))); [apply IHg; reflexivity|lia].
  - split; intros H; [|discriminate].
    apply (Qd_up (String.length (Json.skip_ws s3))); [apply Hd; reflexivity|lia].
  - split; intros H; [discriminate|].
    apply (Qg_up (String.length (Json.skip_ws s3))); [apply Hg; reflexivity|lia].
Qed.

End Containers.

(** What a value scanner reads or refuses, a second one reads or refuses
    alike: so do the loops of the containers. *)
Section Agreement.

Variables scan1 scan2 : string -> Json.pres.
Hypothesis agree_ok :
  forall s v r, scan1 s = Json.POk v r -> scan2 s = Json.POk v r.
Hypothesis agree_err : forall s, scan1 s = Json.PErr -> scan2 s = Json.PErr.

Lemma array_items_agree n :
  forall s,
    (forall l r, Json.array_items scan1 n s = Json.POk l r ->
                 Json.array_items scan2 n s = Json.POk l r) /\
    (Json.array_items scan1 n s = Json.PErr -> Json.array_items scan2 n s = Json.PErr).
Proof.
  induction n as [|n IH]; simpl; intros s; [split; intros; discriminate|].
  pose proof (agree_ok s) as Hok. pose proof (agree_err s) as Herr.
  destruct (scan1 s) as [v1 r1| | | |] eqn:E;
    try (split; intros; discriminate).
  - rewrite (Hok _ _ eq_refl).
    destruct (Json.skip_ws r1) as [|c r2]; [split; intros; assumption|].
    destruct (PyStr.code c =? 93); [split; intros; assumption|].
    destruct (PyStr.code c =? 44); [|split; intros; assumption].
    destruct (IH (Json.skip_ws r2)) as [IHok IHerr].
    destruct (Json.array_items scan1 n (Json.skip_ws r2)) as [l2 r3| | | |];
      try (split; intros; discriminate).
    + rewrite (IHok _ _ eq_refl). split; intros; assumption.
    + rewrite (IHerr eq_refl). split; intros; assumption.
  - rewrite (Herr eq_refl). split; intros; assumption.
Qed.

Lemma object_pairs_agree n :
  forall s,
    (forall l r, Json.object_pairs scan1 n s = Json.POk l r ->
                 Json.object_pairs scan2 n s = Json.POk l r) /\
    (Json.object_pairs scan1 n s = Json.PErr -> Json.object_pairs scan2 n s = Json.PErr).
Proof.
  induction n as [|n IH]; simpl; intros s; [split; intros; discriminate|].
  destruct (Json.expect 34 s) as [s1|]; [|split; intros; assumption].
  destruct (Json.scanstring None s1) as [[key s2]|]; [|split; intros; assumption].
  destruct (Json.expect 58 (Json.skip_ws s2)) as [s3|]; [|split; intros; assumption].
  pose proof (agree_ok (Json.skip_ws s3)) as Hok.
  pose proof (agree_err (Json.skip_ws s3)) as Herr.
  destruct (scan1 (Json.skip_ws s3)) as [v1 r1| | | |] eqn:E;
    try (split; intros; discriminate).
  - rewrite (Hok _ _ eq_refl).
    destruct (Json.skip_ws r1) as [|c r2]; [split; intros; assumption|].
    destruct (PyStr.code c =? 125); [split; intros; assumption|].
    destruct (PyStr.code c =? 44); [|split; intros; assumption].
    destruct (IH (Json.skip_ws r2)) as [IHok IHerr].
    destruct (Json.object_pairs scan1 n (Json.skip_ws r2)) as [l2 r3| | | |];
      try (split; intros; discriminate).
    + rewrite (IHok _ _ eq_refl). split; intros; assumption.
    + rewrite (IHerr eq_refl). split; intros; assumption.
  - rewrite (Herr eq_refl). split; intros; assumption.
Qed.

End Agreement.

Lemma scan_once_consumes cap room :
  forall s v r, Json.scan_once cap room s = Json.POk v r ->
                String.length r < String.length s.
Proof.
  induction room as [|k IH]; intros s v r H;
    (destruct s as [|c s]; simpl in H; [discriminate|]);
    (destruct (PyStr.code c =? 34);
     [ destruct (Json.scanstring None s) as [[x r1]|] eqn:E; [|discriminate];
       apply scanstring_length in E; inversion H; subst; simpl; lia |]).
  - destruct (PyStr.code c =? 123); [discriminate|].
    destruct (PyStr.code c =? 91); [discriminate|].
    repeat match type of H with
           | (if ?c then _ else _) = _ =>
               destruct c; [eapply literal_length; [|exact H]; simpl; lia|]
           end.
    apply scan_number_length in H. exact H.
  - destruct (PyStr.code c =? 123).
    { unfold Json.JSONObject in H.
      pose proof (skip_ws_length s) as Hw.
      destruct (Json.skip_ws s) as [|c1 r1] eqn:Es; [discriminate|]. simpl in Hw.
      destruct (PyStr.code c1 =? 125).
      - inversion H; subst. simpl; lia.
      - destruct (Json.object_pairs (Json.scan_once cap k) (S (String.length s))
                    (String c1 r1)) as [l r2| | | |] eqn:E; try discriminate.
        apply (object_pairs_length _ IH) in E. inversion H; subst. simpl in *; lia. }
    destruct (PyStr.code c =? 91).
    { unfold Json.JSONArray in H.
      pose proof (skip_ws_length s) as Hw.
      destruct (Json.skip_ws s) as [|c1 r1] eqn:Es; [discriminate|]. simpl in Hw.
      destruct (PyStr.code c1 =? 93).
      - inversion H; subst. simpl; lia.
      - destruct (Json.array_items (Json.scan_once cap k) (S (String.length s))
                    (String c1 r1)) as [l r2| | | |] eqn:E; try discriminate.
        apply (array_items_length _ IH) in E. inversion H; subst. simpl in *; lia. }
    repeat match type of H with
           | (if ?c then _ else _) = _ =>
               destruct c; [eapply literal_length; [|exact H]; simpl; lia|]
           end.
    apply scan_number_length in H. exact H.
Qed.

Ltac scalar_cases :=
  unfold Json.literal;
  repeat match goal with
         | |- context [if ?c then _ else _] => destruct c
         | |- context [match Json.scanstring ?p ?s with _ => _ end] =>
             destruct (Json.scanstring p s) as [[? ?]|]
         end.

(** The budget of the loops is never used up. *)
Lemma scan_once_budget cap room :
  forall s, Json.scan_once cap room s <> Json.PFuel.
Proof.
  induction room as [|k IH]; intros s;
    (destruct s as [|c s]; simpl; [congruence|]);
    (destruct (PyStr.code c =? 34);
     [destruct (Json.scanstring None s) as [[x r1]|]; congruence|]).
  - destruct (PyStr.code c =? 123); [congruence|].
    destruct (PyStr.code c =? 91); [congruence|].
    scalar_cases; try congruence; apply scan_number_never.
  - destruct (PyStr.code c =? 123).
    { unfold Json.JSONObject.
      pose proof (skip_ws_length s) as Hw.
      destruct (Json.skip_ws s) as [|c1 r1] eqn:Es; [congruence|].
      destruct (PyStr.code c1 =? 125); [congruence|].
      assert (Hp : Json.object_pairs (Json.scan_once cap k) (S (String.length s))
                     (String c1 r1) <> Json.PFuel).
      { apply (object_pairs_budget _ (scan_once_consumes cap k) IH); lia. }
      destruct (Json.object_pairs (Json.scan_once cap k) (S (String.length s))
                  (String c1 r1)) as [l r2| | | |]; congruence. }
    destruct (PyStr.code c =? 91).
    { unfold Json.JSONArray.
      pose proof (skip_ws_length s) as Hw.
      destruct (Json.skip_ws s) as [|c1 r1] eqn:Es; [congruence|].
      destruct (PyStr.code c1 =? 93); [congruence|].
      assert (Hp : Json.array_items (Json.scan_once cap k) (S (String.length s))
                     (String c1 r1) <> Json.PFuel).
      { apply (array_items_budget _ (scan_once_consumes cap k) IH); lia. }
      destruct (Json.array_items (Json.scan_once cap k) (S (String.length s))
                  (String c1 r1)) as [l r2| | | |]; congruence. }
    scalar_cases; try congruence; apply scan_number_never.
Qed.

(** The recursion limit is met only by a text longer than the room, and
    the cap on digits only by a text longer than the cap. *)
Lemma scan_once_limits cap room :
  forall s,
    (Json.scan_once cap room s = Json.PDepth -> room < String.length s) /\
    (Json.scan_once cap room s = Json.PDigits -> 0 < cap /\ cap < String.length s).
Proof.
  assert (Hscalar : forall c s,
             (PyStr.code c =? 34) = false ->
             (PyStr.code c =? 123) = false -> (PyStr.code c =? 91) = false ->
             forall o,
               (if PyStr.code c =? 110 then Json.literal "null" PyNone (String c s)
                else if PyStr.code c =? 116 then Json.literal "true" (PyBool true) (String c s)
                else if PyStr.code c =? 102 then Json.literal "false" (PyBool false) (String c s)
                else if PyStr.code c =? 78 then Json.literal "NaN" (PyFloatConst NaN) (String c s)
                else if PyStr.code c =? 73
                then Json.literal "Infinity" (PyFloatConst PosInfinity) (String c s)
                else if (PyStr.code c =? 45) && String.prefix "-Infinity" (String c s)
                then Json.literal "-Infinity" (PyFloatConst NegInfinity) (String c s)
                else Json.scan_number cap (String c s)) = o ->
               o <> Json.PDepth /\
               (o = Json.PDigits -> 0 < cap /\ cap < String.length (String c s))).
  { intros c s _ _ _ o Ho. subst o. unfold Json.literal.
    repeat match goal with
           | |- context [if ?c then _ else _] => destruct c
           end; try (split; [congruence|discriminate]).
    split; [apply scan_number_never|apply scan_number_digits]. }
  induction room as [|k IH]; intros s;
    (destruct s as [|c s]; [split; discriminate|]); cbn [Json.scan_once];
    cbv zeta;
    (destruct (PyStr.code c =? 34) eqn:Eq;
     [destruct (Json.scanstring None s) as [[x r1]|]; split; discriminate|]).
  - destruct (PyStr.code c =? 123) eqn:Eo; [split; [simpl; lia|discriminate]|].
    destruct (PyStr.code c =? 91) eqn:Ea; [split; [simpl; lia|discriminate]|].
    destruct (Hscalar c s Eq Eo Ea _ eq_refl) as [H1 H2].
    split; [intros H; contradiction|exact H2].
  - assert (Qd_up : forall a b, k < a -> a <= b -> k < b) by (intros; lia).
    assert (Qg_up : forall a b, 0 < cap /\ cap < a -> a <= b -> 0 < cap /\ cap < b)
      by (intros; lia).
    destruct (PyStr.code c =? 123) eqn:Eo.
    { unfold Json.JSONObject.
      pose proof (skip_ws_length s) as Hw.
      destruct (Json.skip_ws s) as [|c1 r1] eqn:Es; [split; discriminate|].
      destruct (PyStr.code c1 =? 125); [split; discriminate|].
      destruct (object_pairs_limits _ (scan_once_consumes cap k)
                  (fun n => k < n) (fun n => 0 < cap /\ cap < n) Qd_up Qg_up
                  (fun s0 => proj1 (IH s0)) (fun s0 => proj2 (IH s0))
                  (S (String.length s)) (String c1 r1)) as [Hd Hg].
      destruct (Json.object_pairs (Json.scan_once cap k) (S (String.length s))
                  (String c1 r1)) as [l r2| | | |]; split; intros H; try discriminate.
      - specialize (Hd eq_refl). simpl in *. lia.
      - specialize (Hg eq_refl). simpl in *. lia. }
    destruct (PyStr.code c =? 91) eqn:Ea.
    { unfold Json.JSONArray.
      pose proof (skip_ws_length s) as Hw.
      destruct (Json.skip_ws s) as [|c1 r1] eqn:Es; [split; discriminate|].
      destruct (PyStr.code c1 =? 93); [split; discriminate|].
      destruct (array_items_limits _ (scan_once_consumes cap k)
                  (fun n => k < n) (fun n => 0 < cap /\ cap < n) Qd_up Qg_up
                  (fun s0 => proj1 (IH s0)) (fun s0 => proj2 (IH s0))
                  (S (String.length s)) (String c1 r1)) as [Hd Hg].
      destruct (Json.array_items (Json.scan_once cap k) (S (String.length s))
                  (String c1 r1)) as [l r2| | | |]; split; intros H; try discriminate.
      - specialize (Hd eq_refl). simpl in *. lia.
      - specialize (Hg eq_refl). simpl in *. lia. }
    destruct (Hscalar c s Eq Eo Ea _ eq_refl) as [H1 H2].
    split; [intros H; contradiction|exact H2].
Qed.

(** Wider limits read what narrower ones read, and refuse the same
    texts as ill-formed. *)
Lemma scan_once_grows cap1 cap2 :
  cap_wider cap1 cap2 ->
  forall room1 room2, room1 <= room2 ->
  forall s,
    (forall v r, Json.scan_once cap1 room1 s = Json.POk v r ->
                 Json.scan_once cap2 room2 s = Json.POk v r) /\
    (Json.scan_once cap1 room1 s = Json.PErr -> Json.scan_once cap2 room2 s = Json.PErr).
Proof.
  intros Hw.
  induction room1 as [|k1 IH]; intros room2 Hle s.
  - destruct s as [|c s]; [destruct room2; split; intros; assumption|].
    destruct room2 as [|k2]; cbn [Json.scan_once]; cbv zeta;
      (destruct (PyStr.code c =? 34); [split; intros; assumption|]);
      (destruct (PyStr.code c =? 123); [split; intros; discriminate|]);
      (destruct (PyStr.code c =? 91); [split; intros; discriminate|]);
      repeat match goal with
             | |- context [if ?c then _ else _] =>
                 destruct c; [split; intros; assumption|]
             end;
      apply (scan_number_grows cap1 cap2 _ Hw).
  - destruct room2 as [|k2]; [lia|].
    assert (Hk : k1 <= k2) by lia.
    destruct s as [|c s]; [split; intros; assumption|].
    cbn [Json.scan_once]; cbv zeta.
    destruct (PyStr.code c =? 34); [split; intros; assumption|].
    destruct (PyStr.code c =? 123).
    { unfold Json.JSONObject.
      destruct (Json.skip_ws s) as [|c1 r1] eqn:Es; [split; intros; assumption|].
      destruct (PyStr.code c1 =? 125); [split; intros; assumption|].
      destruct (object_pairs_agree (Json.scan_once cap1 k1) (Json.scan_once cap2 k2)
                  (fun s0 => proj1 (IH k2 Hk s0)) (fun s0 => proj2 (IH k2 Hk s0))
                  (S (String.length s)) (String c1 r1)) as [Hok Herr].
      destruct (Json.object_pairs (Json.scan_once cap1 k1) (S (String.length s))
                  (String c1 r1)) as [l r2| | | |]; try (split; intros; discriminate).
      - rewrite (Hok _ _ eq_refl). split; intros; assumption.
      - rewrite (Herr eq_refl). split; intros; assumption. }
    destruct (PyStr.code c =? 91).
    { unfold Json.JSONArray.
      destruct (Json.skip_ws s) as [|c1 r1] eqn:Es; [split; intros; assumption|].
      destruct (PyStr.code c1 =? 93); [split; intros; assumption|].
      destruct (array_items_agree (Json.scan_once cap1 k1) (Json.scan_once cap2 k2)
                  (fun s0 => proj1 (IH k2 Hk s0)) (fun s0 => proj2 (IH k2 Hk s0))
                  (S (String.length s)) (String c1 r1)) as [Hok Herr].
      destruct (Json.array_items (Json.scan_once cap1 k1) (S (String.length s))
                  (String c1 r1)) as [l r2| | | |]; try (split; intros; discriminate).
      - rewrite (Hok _ _ eq_refl). split; intros; assumption.
      - rewrite (Herr eq_refl). split; intros; assumption. }
    repeat match goal with
           | |- context [if ?c then _ else _] =>
               destruct c; [split; intros; assumption|]
           end.
    apply (scan_number_grows cap1 cap2 _ Hw).
Qed.

(** ** [json.loads] *)

(** What [json.loads] raises: [JSONDecodeError]; [RecursionError], on a
    text longer than the room left; [ValueError], on a text longer than
    the cap on digits. *)
Lemma loads_raises (p : interpreter) (s : string) (e : exn) :
  Json.loads p s = Raise e ->
  e = JSONDecodeError \/
  (e = RecursionError /\ recursion_room p < String.length s) \/
  (e = ValueError /\ 0 < int_max_str_digits p /\ int_max_str_digits p < String.length s).
Proof.
  unfold Json.loads, Json.decode.
  destruct (String.prefix Json.bom s); [intros H; left; congruence|].
  pose proof (scan_once_budget (int_max_str_digits p) (recursion_room p) (Json.skip_ws s))
    as Hb.
  destruct (scan_once_limits (int_max_str_digits p) (recursion_room p) (Json.skip_ws s))
    as [Hd Hg].
  pose proof (skip_ws_length s) as Hw.
  destruct (Json.scan_once (int_max_str_digits p) (recursion_room p) (Json.skip_ws s))
    as [v r| | | |]; intros H.
  - destruct (Json.skip_ws r); [discriminate|]. left. congruence.
  - left. congruence.
  - right. left. specialize (Hd eq_refl). split; [congruence|lia].
  - right. right. specialize (Hg eq_refl). split; [congruence|lia].
  - exfalso. apply Hb. reflexivity.
Qed.

Lemma loads_grows (p q : interpreter) (s : string) :
  wider p q ->
  (forall v, Json.loads p s = Ok v -> Json.loads q s = Ok v) /\
  (Json.loads p s = Raise JSONDecodeError -> Json.loads q s = Raise JSONDecodeError).
Proof.
  intros [Hroom Hcap]. unfold Json.loads, Json.decode.
  destruct (String.prefix Json.bom s); [split; intros; assumption|].
  destruct (scan_once_grows (int_max_str_digits p) (int_max_str_digits q) Hcap
              (recursion_room p) (recursion_room q) Hroom (Json.skip_ws s)) as [Hok Herr].
  destruct (Json.scan_once (int_max_str_digits p) (recursion_room p) (Json.skip_ws s))
    as [v r| | | |]; try (split; intros; discriminate).
  - rewrite (Hok _ _ eq_refl). split; intros; assumption.
  - rewrite (Herr eq_refl). split; intros; assumption.
Qed.

Lemma wider_join (p q : interpreter) : wider p (join_limits p q) /\ wider q (join_limits p q).
Proof.
  unfold wider, join_limits, cap_wider. simpl.
  destruct (int_max_str_digits p) as [|a]; simpl.
  - split; (split; [lia|left; reflexivity]).
  - destruct (int_max_str_digits q) as [|b]; simpl.
    + split; (split; [lia|left; reflexivity]).
    + split; (split; [lia|right; lia]).
Qed.

(** A text that is a JSON document under some limits is one under all:
    under other limits the decoder gives the same value, or meets a limit. *)
Lemma loads_document (p0 p : interpreter) (s : string) (v : pyval) :
  Json.loads p0 s = Ok v ->
  Json.loads p s = Ok v \/
  (Json.loads p s = Raise RecursionError /\ recursion_room p < String.length s) \/
  (Json.loads p s = Raise ValueError /\
   0 < int_max_str_digits p /\ int_max_str_digits p < String.length s).
Proof.
  intros H0.
  destruct (wider_join p0 p) as [W0 W].
  pose proof (proj1 (loads_grows p0 _ s W0) v H0) as Hq.
  destruct (Json.loads p s) as [v'|e] eqn:E.
  - left. pose proof (proj1 (loads_grows p _ s W) v' E) as Hq'. congruence.
  - destruct (loads_raises p s e E) as [->|[[-> Hr]|[-> Hc]]].
    + pose proof (proj2 (loads_grows p _ s W) E). congruence.
    + right. left. split; [reflexivity|exact Hr].
    + right. right. split; [reflexivity|exact Hc].
Qed.

(** ** The parser *)

(** What [parse_json_response] lets through to its caller. *)
Lemma parse_raises (p : interpreter) (s : string) (e : exn) :
  parse_json_response p s = Raise e ->
  (e = RecursionError /\ recursion_room p < String.length (cleaned s)) \/
  (e = ValueError /\
   0 < int_max_str_digits p /\ int_max_str_digits p < String.length (cleaned s)).
Proof.
  unfold parse_json_response.
  destruct (Json.loads p (cleaned s)) as [v|e0] eqn:E; [discriminate|].
  destruct (loads_raises p _ e0 E) as [->|[[-> Hr]|[-> Hc]]]; intros H.
  - discriminate.
  - left. split; [congruence|exact Hr].
  - right. split; [congruence|exact Hc].
Qed.

Lemma parse_raises_Exception (p : interpreter) (s : string) (e : exn) :
  parse_json_response p s = Raise e -> is_Exception e = true.
Proof.
  intros H. destruct (parse_raises p s e H) as [[-> _]|[-> _]]; reflexivity.
Qed.

Lemma tick_free_head (c : ascii) (s : string) :
  tick_free (String c s) = true -> c <> "`"%char /\ tick_free s = true.
Proof.
  simpl. intros H. apply andb_true_iff in H. destruct H as [Hc Hs].
  split; [|exact Hs].
  intros ->. discriminate.
Qed.

(** A marker that begins with a back-tick does not begin at a character
    that is none. *)
Lemma prefix_tick_head (old : string) (c : ascii) (s : string) :
  c <> "`"%char -> String.prefix (String "`"%char old) (String c s) = false.
Proof.
  intros Hc. cbn [String.prefix]. destruct (ascii_dec "`"%char c); [congruence|reflexivity].
Qed.

Lemma replace_passes_tick_free (old new a t : string) :
  tick_free a = true ->
  PyStr.replace_from (String "`"%char old) new 0 (a ++ t) =
  a ++ PyStr.replace_from (String "`"%char old) new 0 t.
Proof.
  induction a as [|c a IH]; intros H; [reflexivity|].
  apply tick_free_head in H. destruct H as [Hc Ha].
  change (String c a ++ t) with (String c (a ++ t)).
  cbn [PyStr.replace_from].
  rewrite (prefix_tick_head old c (a ++ t) Hc).
  rewrite (IH Ha). reflexivity.
Qed.

Lemma replace_keeps_tick_free (old new a : string) :
  tick_free a = true ->
  PyStr.replace_from (String "`"%char old) new 0 a = a.
Proof.
  induction a as [|c a IH]; intros H; [reflexivity|].
  apply tick_free_head in H. destruct H as [Hc Ha].
  cbn [PyStr.replace_from].
  rewrite (prefix_tick_head old c a Hc), (IH Ha). reflexivity.
Qed.

Lemma app_assoc_str (a b c : string) : (a ++ b) ++ c = a ++ b ++ c.
Proof. induction a as [|x a IH]; simpl; [reflexivity|]. rewrite IH. reflexivity. Qed.

Lemma prefix_app (p t : string) : String.prefix p (p ++ t) = true.
Proof.
  induction p as [|c p IH]; [destruct t; reflexivity|].
  change (String c p ++ t) with (String c (p ++ t)).
  cbn [String.prefix]. destruct (ascii_dec c c); [exact IH|congruence].
Qed.

Lemma replace_skips (old new p t : string) :
  PyStr.replace_from old new (String.length p) (p ++ t) =
  PyStr.replace_from old new 0 t.
Proof.
  induction p as [|c p IH]; [reflexivity|]. exact IH.
Qed.

Lemma replace_at_marker (c : ascii) (p new t : string) :
  PyStr.replace_from (String c p) new 0 (String c p ++ t) =
  new ++ PyStr.replace_from (String c p) new 0 t.
Proof.
  change (String c p ++ t) with (String c (p ++ t)).
  cbn [PyStr.replace_from].
  change (String c (p ++ t)) with (String c p ++ t).
  rewrite prefix_app.
  change (String.length (String c p) - 1) with (String.length p - 0).
  rewrite Nat.sub_0_r, replace_skips. reflexivity.
Qed.

(** The first replacement takes the opening marker away and leaves a
    closing marker that no [json] follows. *)
Lemma replace_fence_json (a b c : string) :
  tick_free a = true -> tick_free b = true -> tick_free c = true ->
  String.prefix "json" c = false ->
  PyStr.replace fence_json EmptyString (a ++ fence_json ++ b ++ fence ++ c) =
  a ++ b ++ fence ++ c.
Proof.
  intros Ha Hb Hc Hj. unfold PyStr.replace, fence_json.
  rewrite (replace_passes_tick_free _ _ a _ Ha). f_equal.
  rewrite replace_at_marker.
  change (EmptyString ++ ?x) with x.
  rewrite (replace_passes_tick_free _ _ b _ Hb). f_equal.
  unfold fence.
  change ("```" ++ c) with (String "`" (String "`" (String "`" c)))%char.
  cbn [PyStr.replace_from].
  assert (H3 : String.prefix "```json" (String "`" (String "`" (String "`" c)))%char = false).
  { exact Hj. }
  assert (H2 : String.prefix "```json" (String "`" (String "`" c))%char = false).
  { destruct c as [|x c]; [reflexivity|].
    apply tick_free_head in Hc. destruct Hc as [Hx _].
    change (String.prefix "```json" (String "`" (String "`" (String x c)))%char)
      with (String.prefix "`json" (String x c)).
    apply prefix_tick_head. exact Hx. }
  assert (H1 : String.prefix "```json" (String "`" c)%char = false).
  { destruct c as [|x c]; [reflexivity|].
    apply tick_free_head in Hc. destruct Hc as [Hx _].
    change (String.prefix "```json" (String "`" (String x c))%char)
      with (String.prefix "``json" (String x c)).
    apply prefix_tick_head. exact Hx. }
  rewrite H3, H2, H1.
  rewrite (replace_keeps_tick_free _ _ c Hc). reflexivity.
Qed.

Lemma replace_fence (a b c : string) :
  tick_free a = true -> tick_free b = true -> tick_free c = true ->
  PyStr.replace fence EmptyString (a ++ b ++ fence ++ c) = a ++ b ++ c.
Proof.
  intros Ha Hb Hc. unfold PyStr.replace, fence.
  rewrite (replace_passes_tick_free _ _ a _ Ha). f_equal.
  rewrite (replace_passes_tick_free _ _ b _ Hb). f_equal.
  rewrite replace_at_marker.
  change (EmptyString ++ ?x) with x.
  apply (replace_keeps_tick_free _ _ c Hc).
Qed.

(** Markers standing anywhere between texts free of back-ticks are taken
    away, and the rest is trimmed. *)
Lemma cleaned_removes_markers (a b c : string) :
  tick_free a = true -> tick_free b = true -> tick_free c = true ->
  String.prefix "json" c = false ->
  cleaned (a ++ fence_json ++ b ++ fence ++ c) = PyStr.strip (a ++ b ++ c).
Proof.
  intros Ha Hb Hc Hj. unfold cleaned.
  rewrite (replace_fence_json a b c Ha Hb Hc Hj).
  rewrite (replace_fence a b c Ha Hb Hc). reflexivity.
Qed.

(** ** Markers wherever they stand *)

Lemma prefix_split (p s : string) :
  String.prefix p s = true -> s = p ++ PyStr.drop (String.length p) s.
Proof.
  revert s; induction p as [|a p IH]; intros s H; [reflexivity|].
  destruct s as [|b s]; [discriminate|].
  cbn [String.prefix] in H. destruct (ascii_dec a b) as [->|]; [|discriminate].
  simpl. rewrite <- (IH s H). reflexivity.
Qed.

Lemma replace_no_marker (old new : string) (c : ascii) (r : string) :
  String.prefix old (String c r) = false ->
  PyStr.replace_from old new 0 (String c r) = String c (PyStr.replace_from old new 0 r).
Proof. intros H. cbn [PyStr.replace_from]. rewrite H. reflexivity. Qed.

(** What a well-cut text begins with: nothing, a character that is no
    back-tick, or three back-ticks. *)
Lemma assemble_head (l : list piece) :
  well_cut l = true ->
  assemble l = EmptyString \/
  (exists c t, assemble l = String c t /\ c <> "`"%char) \/
  (exists t, assemble l = fence ++ t).
Proof.
  induction l as [|p l IH]; intros H; [left; reflexivity|].
  destruct p as [a| |]; simpl in H.
  - apply andb_true_iff in H. destruct H as [Ha Hl].
    destruct a as [|c a]; [exact (IH Hl)|].
    apply tick_free_head in Ha. destruct Ha as [Hc _].
    right. left. exists c, (a ++ assemble l). split; [reflexivity|exact Hc].
  - right. right. exists ("json" ++ assemble l). reflexivity.
  - right. right. exists (assemble l). reflexivity.
Qed.

Lemma no_json_after_ticks (t : string) :
  t = EmptyString \/
  (exists c t', t = String c t' /\ c <> "`"%char) \/
  (exists t', t = fence ++ t') ->
  String.prefix "`json" t = false /\ String.prefix "``json" t = false.
Proof.
  intros [->|[[c [t' [-> Hc]]]|[t' ->]]].
  - split; reflexivity.
  - split; apply prefix_tick_head; exact Hc.
  - split; reflexivity.
Qed.

(** The first replacement takes every [FenceJson] away. *)
Lemma replace_fence_json_pieces (l : list piece) :
  well_cut l = true ->
  PyStr.replace fence_json EmptyString (assemble l) = assemble (without_json l).
Proof.
  unfold PyStr.replace, fence_json.
  induction l as [|p l IH]; intros H; [reflexivity|].
  destruct p as [a| |]; simpl in H.
  - apply andb_true_iff in H. destruct H as [Ha Hl].
    cbn [assemble piece_text without_json].
    rewrite (replace_passes_tick_free _ _ a _ Ha), (IH Hl). reflexivity.
  - cbn [assemble piece_text without_json]. unfold fence_json.
    rewrite replace_at_marker. exact (IH H).
  - apply andb_true_iff in H. destruct H as [Hj Hl].
    apply negb_true_iff in Hj.
    destruct (no_json_after_ticks _ (assemble_head l Hl)) as [H1 H2].
    cbn [assemble piece_text without_json]. unfold fence.
    change ("```" ++ assemble l)
      with (String "`" (String "`" (String "`" (assemble l))))%char.
    rewrite replace_no_marker by exact Hj.
    rewrite replace_no_marker by exact H1.
    rewrite replace_no_marker by exact H2.
    rewrite (IH Hl). reflexivity.
Qed.

Lemma well_cut_without_json (l : list piece) :
  well_cut l = true ->
  forallb (fun p => match p with Plain a => tick_free a | FenceJson => false | Fence => true end)
          (without_json l) = true /\
  plain (without_json l) = plain l.
Proof.
  induction l as [|p l IH]; intros H; [split; reflexivity|].
  destruct p as [a| |]; simpl in H |- *.
  - apply andb_true_iff in H. destruct H as [Ha Hl].
    destruct (IH Hl) as [H1 H2]. rewrite Ha, H1, H2. split; reflexivity.
  - exact (IH H).
  - apply andb_true_iff in H. destruct H as [_ Hl]. exact (IH Hl).
Qed.

(** The second replacement takes every [Fence] away. *)
Lemma replace_fence_pieces (l : list piece) :
  forallb (fun p => match p with Plain a => tick_free a | FenceJson => false | Fence => true end)
          l = true ->
  PyStr.replace fence EmptyString (assemble l) = plain l.
Proof.
  unfold PyStr.replace, fence.
  induction l as [|p l IH]; intros H; [reflexivity|].
  simpl in H. apply andb_true_iff in H. destruct H as [Hp Hl].
  destruct p as [a| |]; [| discriminate |].
  - cbn [assemble piece_text plain].
    rewrite (replace_passes_tick_free _ _ a _ Hp), (IH Hl). reflexivity.
  - cbn [assemble piece_text plain]. unfold fence.
    rewrite replace_at_marker. exact (IH Hl).
Qed.

(** Cleaning a well-cut text leaves its plain pieces, trimmed. *)
Lemma cleaned_pieces (l : list piece) :
  well_cut l = true -> cleaned (assemble l) = PyStr.strip (plain l).
Proof.
  intros H. unfold cleaned.
  rewrite (replace_fence_json_pieces l H).
  destruct (well_cut_without_json l H) as [H1 H2].
  rewrite (replace_fence_pieces _ H1), H2. reflexivity.
Qed.

(** ** No marker is left *)

Lemma prefix_cons_same (c : ascii) (p s : string) :
  String.prefix (String c p) (String c s) = String.prefix p s.
Proof. cbn [String.prefix]. destruct (ascii_dec c c); [reflexivity|congruence]. Qed.

Lemma prefix_cons_diff (c d : ascii) (p s : string) :
  c <> d -> String.prefix (String c p) (String d s) = false.
Proof.
  intros H. cbn [String.prefix]. destruct (ascii_dec c d); [congruence|reflexivity].
Qed.

Lemma replace_fence_head1 (r : string) :
  String.prefix "`" r = false ->
  String.prefix "`" (PyStr.replace_from fence EmptyString 0 r) = false.
Proof.
  destruct r as [|c r]; intros H; [reflexivity|].
  destruct (ascii_dec "`"%char c) as [<-|Hc].
  - rewrite prefix_cons_same in H. destruct r; discriminate.
  - unfold fence. rewrite replace_no_marker by (apply prefix_cons_diff; exact Hc).
    apply prefix_cons_diff. exact Hc.
Qed.

Lemma replace_fence_head2 (r : string) :
  String.prefix "``" r = false ->
  String.prefix "``" (PyStr.replace_from fence EmptyString 0 r) = false.
Proof.
  destruct r as [|c r]; intros H; [reflexivity|].
  destruct (ascii_dec "`"%char c) as [<-|Hc].
  - rewrite prefix_cons_same in H.
    assert (Hf : String.prefix fence (String "`"%char r) = false).
    { unfold fence. rewrite prefix_cons_same.
      destruct r as [|c1 r1]; [reflexivity|].
      destruct (ascii_dec "`"%char c1) as [<-|Hc1].
      - rewrite prefix_cons_same in H. destruct r1; discriminate.
      - apply prefix_cons_diff. exact Hc1. }
    rewrite (replace_no_marker _ _ _ _ Hf), prefix_cons_same.
    exact (replace_fence_head1 r H).
  - unfold fence. rewrite replace_no_marker by (apply prefix_cons_diff; exact Hc).
    apply prefix_cons_diff. exact Hc.
Qed.

Lemma replace_fence_head3 (s : string) :
  String.prefix fence s = false ->
  String.prefix fence (PyStr.replace_from fence EmptyString 0 s) = false.
Proof.
  destruct s as [|c r]; intros H; [reflexivity|].
  rewrite (replace_no_marker _ _ _ _ H).
  destruct (ascii_dec "`"%char c) as [<-|Hc].
  - unfold fence in *. rewrite prefix_cons_same in H |- *.
    exact (replace_fence_head2 r H).
  - unfold fence. apply prefix_cons_diff. exact Hc.
Qed.

Lemma replace_fence_clean (s : string) :
  PyStr.contains fence (PyStr.replace fence EmptyString s) = false.
Proof.
  unfold PyStr.replace.
  remember (String.length s) as n eqn:Hn.
  revert s Hn. induction n as [n IH] using lt_wf_ind. intros s Hn.
  destruct s as [|c r]; [reflexivity|].
  destruct (String.prefix fence (String c r)) eqn:Hp.
  - pose proof (prefix_split _ _ Hp) as Hs.
    pose proof (prefix_drop _ _ Hp) as Hl.
    rewrite Hs. unfold fence at 2 3. rewrite replace_at_marker.
    change (EmptyString ++ ?x) with x.
    apply (IH (String.length (PyStr.drop (String.length fence) (String c r)))).
    + rewrite Hn. unfold fence in Hl |- *. simpl String.length in Hl |- *. lia.
    + reflexivity.
  - pose proof (replace_fence_head3 _ Hp) as Hh.
    rewrite (replace_no_marker _ _ _ _ Hp) in Hh |- *.
    cbn [PyStr.contains]. fold (PyStr.contains fence).
    rewrite Hh. simpl orb.
    apply (IH (String.length r)); [simpl in Hn; lia|reflexivity].
Qed.

(** Trimming keeps a part of the text. *)
Lemma strip_from_suffix (test : string -> nat) (s : string) :
  forall k, exists p, s = p ++ PyStr.strip_from test k s.
Proof.
  induction s as [|c s IH]; intros k; [exists EmptyString; reflexivity|].
  destruct k as [|k]; simpl.
  - destruct (test (String c s)) as [|j].
    + exists EmptyString. reflexivity.
    + destruct (IH j) as [p Hp]. exists (String c p). simpl. rewrite <- Hp. reflexivity.
  - destruct (IH k) as [p Hp]. exists (String c p). simpl. rewrite <- Hp. reflexivity.
Qed.

Lemma app_nil_r_str (a : string) : a ++ EmptyString = a.
Proof. induction a as [|c a IH]; simpl; [reflexivity|]. rewrite IH. reflexivity. Qed.

Lemma rev_append_app (a b acc : string) :
  PyStr.rev_append (a ++ b) acc = PyStr.rev_append b (PyStr.rev_append a acc).
Proof. revert acc; induction a as [|c a IH]; intros acc; simpl; [reflexivity|apply IH]. Qed.

Lemma rev_append_acc (a acc : string) :
  PyStr.rev_append a acc = PyStr.rev_append a EmptyString ++ acc.
Proof.
  revert acc; induction a as [|c a IH]; intros acc; simpl; [reflexivity|].
  rewrite (IH (String c acc)), (IH (String c EmptyString)), app_assoc_str. reflexivity.
Qed.

Lemma rev_append_rev (a b c : string) :
  PyStr.rev_append (PyStr.rev_append a b) c = PyStr.rev_append b (a ++ c).
Proof.
  revert b c; induction a as [|x a IH]; intros b c; simpl; [reflexivity|].
  rewrite IH. reflexivity.
Qed.

Lemma strip_infix (s : string) : exists a b, s = a ++ PyStr.strip s ++ b.
Proof.
  unfold PyStr.strip, PyStr.lstrip, PyStr.rstrip, PyStr.rev.
  destruct (strip_from_suffix PyStr.ws_len s 0) as [a Ha].
  set (m := PyStr.strip_from PyStr.ws_len 0 s) in *.
  destruct (strip_from_suffix PyStr.ws_len_rev (PyStr.rev_append m EmptyString) 0)
    as [p Hp].
  set (x := PyStr.strip_from PyStr.ws_len_rev 0 (PyStr.rev_append m EmptyString)) in *.
  exists a, (PyStr.rev_append p EmptyString).
  rewrite Ha at 1. f_equal.
  assert (Hm : m = PyStr.rev_append (PyStr.rev_append m EmptyString) EmptyString).
  { rewrite rev_append_rev. simpl. rewrite app_nil_r_str. reflexivity. }
  rewrite Hm at 1. rewrite Hp at 1.
  rewrite rev_append_app. apply rev_append_acc.
Qed.

Lemma prefix_app_l (p a b : string) :
  String.prefix p a = true -> String.prefix p (a ++ b) = true.
Proof.
  revert a; induction p as [|c p IH]; intros a H; [destruct (a ++ b); reflexivity|].
  destruct a as [|x a]; [discriminate|].
  change (String x a ++ b) with (String x (a ++ b)).
  cbn [String.prefix] in H |- *. destruct (ascii_dec c x); [|discriminate].
  exact (IH a H).
Qed.

Lemma contains_infix (p a t b : string) :
  PyStr.contains p (a ++ t ++ b) = false -> PyStr.contains p t = false.
Proof.
  intros H.
  assert (H1 : PyStr.contains p (t ++ b) = false).
  { clear -H. induction a as [|c a IH]; [exact H|].
    apply IH. change (String c a ++ t ++ b) with (String c (a ++ t ++ b)) in H.
    cbn [PyStr.contains] in H. apply orb_false_iff in H. exact (proj2 H). }
  clear H. induction t as [|c t IH].
  - cbn [PyStr.contains]. rewrite orb_false_r.
    destruct (String.prefix p EmptyString) eqn:E; [|reflexivity].
    apply (prefix_app_l _ _ b) in E.
    destruct (EmptyString ++ b) eqn:Eb; cbn [PyStr.contains] in H1;
      apply orb_false_iff in H1; destruct H1 as [H1 _]; congruence.
  - change (String c t ++ b) with (String c (t ++ b)) in H1.
    cbn [PyStr.contains] in H1 |- *. apply orb_false_iff in H1. destruct H1 as [Hp Hc].
    rewrite (IH Hc), orb_false_r.
    destruct (String.prefix p (String c t)) eqn:E; [|reflexivity].
    apply (prefix_app_l _ _ b) in E.
    change (String c t ++ b) with (String c (t ++ b)) in E. congruence.
Qed.

(** The text handed to the decoder holds no marker. *)
Lemma cleaned_holds_no_marker (s : string) : PyStr.contains fence (cleaned s) = false.
Proof.
  unfold cleaned.
  destruct (strip_infix (PyStr.replace fence EmptyString
                           (PyStr.replace fence_json EmptyString s))) as [a [b H]].
  pose proof (replace_fence_clean (PyStr.replace fence_json EmptyString s)) as Hc.
  rewrite H in Hc. exact (contains_infix _ _ _ _ Hc).
Qed.

(** ** Limits and the parser *)

Lemma wider_flat (q : interpreter) : wider flat_limits q.
Proof.
  unfold wider, flat_limits, cap_wider. simpl. split; [lia|].
  destruct (int_max_str_digits q); [left; reflexivity|right; lia].
Qed.

Lemma wider_one_level (q : interpreter) : 0 < recursion_room q -> wider one_level q.
Proof.
  unfold wider, one_level, cap_wider. simpl. intros H. split; [lia|].
  destruct (int_max_str_digits q); [left; reflexivity|right; lia].
Qed.

(** What the parser returns under some limits it returns under wider
    ones. *)
Lemma parse_grows (p q : interpreter) (s : string) (v : pyval) :
  wider p q -> parse_json_response p s = Ok v -> parse_json_response q s = Ok v.
Proof.
  intros W. unfold parse_json_response.
  destruct (loads_grows p q (cleaned s) W) as [Hok Herr].
  destruct (Json.loads p (cleaned s)) as [v'|e] eqn:E.
  - rewrite (Hok v' eq_refl). trivial.
  - destruct e; try discriminate. rewrite (Herr eq_refl). trivial.
Qed.

(** A text that is a JSON document, cleaned, is parsed to its value unless
    a limit of the interpreter is met. *)
Lemma parse_document (p0 p : interpreter) (s : string) (v : pyval) :
  Json.loads p0 (cleaned s) = Ok v ->
  parse_json_response p s = Ok v \/
  (parse_json_response p s = Raise RecursionError /\
   recursion_room p < String.length (cleaned s)) \/
  (parse_json_response p s = Raise ValueError /\
   0 < int_max_str_digits p /\ int_max_str_digits p < String.length (cleaned s)).
Proof.
  intros H0. unfold parse_json_response.
  destruct (loads_document p0 p (cleaned s) v H0) as [->|[[-> Hr]|[-> Hc]]].
  - left. reflexivity.
  - right. left. split; [reflexivity|exact Hr].
  - right. right. split; [reflexivity|exact Hc].
Qed.

(** ** The linear script, article by article *)

Lemma calls_app (t1 t2 : list event) : calls (t1 ++ t2) = (calls t1 ++ calls t2)%list.
Proof. apply flat_map_app. Qed.

Lemma emails_app (t1 t2 : list event) : emails (t1 ++ t2) = (emails t1 ++ emails t2)%list.
Proof. apply flat_map_app. Qed.

Local Opaque Linear.filter_template Linear.analysis_template Linear.summary_template.
Local Opaque parse_json_response Py.truthy Py.get Py.sliceable Py.or_ field.
Local Opaque Py.slice_to.

Ltac unfold_linear :=
  unfold process, Linear.process_article, Linear.filter_step, Linear.analysis_step,
    Linear.summary_step, Linear.send_email_alert, Linear.invoke,
    try_except_Exception, try_except, print_sliced, print_f,
    bind, call, lift, print, tell, ret, raise.

Lemma get_raises (v : pyval) (k : string) (e : exn) :
  Py.get v k = Raise e -> e = AttributeError.
Proof.
  Local Transparent Py.get.
  destruct v; simpl; intros H; congruence.
  Local Opaque Py.get.
Qed.

Lemma get_of_mapping (d : pydict) (k : string) :
  Py.get (PyDict d) k = Ok (field d k).
Proof. reflexivity. Qed.

Lemma get_mapping (v : pyval) (k : string) (x : pyval) :
  Py.get v k = Ok x -> exists d, v = PyDict d /\ x = field d k.
Proof.
  Local Transparent Py.get field.
  destruct v; simpl; intros H; try discriminate.
  inversion H; subst. exists d. split; reflexivity.
  Local Opaque Py.get field.
Qed.

Lemma get_of_non_mapping (v : pyval) (k : string) :
  is_mapping v = false -> Py.get v k = Raise AttributeError.
Proof.
  Local Transparent Py.get.
  destruct v; simpl; intros H; try reflexivity. discriminate.
  Local Opaque Py.get.
Qed.

(** An empty mapping is false, and all its entries are [None]. *)
Lemma falsy_mapping_entry (d : pydict) (k : string) :
  Py.truthy (PyDict d) = false -> Py.truthy (field d k) = false.
Proof.
  Local Transparent Py.truthy field.
  destruct d; simpl; [reflexivity|discriminate].
  Local Opaque Py.truthy field.
Qed.

Ltac falsy_mapping :=
  match goal with
  | H : Py.truthy (PyDict ?d) = false, H2 : Py.truthy (field ?d ?k) = true |- _ =>
      rewrite (falsy_mapping_entry d k H) in H2; discriminate
  end.

Ltac mapping_raises :=
  match goal with
  | H : Py.get (PyDict ?d) ?k = Raise _ |- _ =>
      rewrite (get_of_mapping d k) in H; discriminate
  end.

(** One step through a run: the next outside call, parse or test is
    decided. *)
Ltac step :=
  match goal with
  | H : is_Exception ?e = true |- context [is_Exception ?e] => rewrite H
  | |- context [llm_invoke ?p ?w] => destruct (llm_invoke p w) as [[?|?] ?] eqn:?
  | |- context [parse_json_response ?p ?x] =>
      let Hp := fresh "Hparse" in
      let He := fresh "Hexc" in
      let e := fresh "e" in
      destruct (parse_json_response p x) as [?|e] eqn:Hp;
      [ | pose proof (parse_raises_Exception _ _ _ Hp) as He ]
  | |- context [Py.get (PyDict ?d) ?k] => rewrite (get_of_mapping d k)
  | |- context [Py.get ?x ?k] =>
      let Hg := fresh "Hget" in
      let e := fresh "e" in
      let d := fresh "d" in
      destruct (Py.get x k) as [?|e] eqn:Hg;
      [ destruct (get_mapping _ _ _ Hg) as [d [? ?]]; subst; clear Hg
      | pose proof (get_raises _ _ _ Hg); subst e ]
  | |- context [Py.truthy ?x] => destruct (Py.truthy x) eqn:?
  | |- context [is_Exception ?e] => destruct (is_Exception e) eqn:?
  | |- context [Py.sliceable ?x] => destruct (Py.sliceable x) eqn:?
  | |- context [writable ?x] => destruct (writable x) eqn:?
  end; cbn.

Lemma process_article_calls (a : article) (w : World) :
  exists risk_type n,
    calls (trace (process a w)) = firstn n (stage_calls a risk_type).
Proof.
  unfold_linear.
  unfold stage_calls, filter_prompt, analysis_prompt, summary_prompt.
  repeat step.
  all: first [ exists PyNone, 0; reflexivity
             | exists PyNone, 1; reflexivity
             | exists PyNone, 2; reflexivity
             | eexists; exists 3; reflexivity ].
Qed.

Ltac in_solve := simpl; repeat (first [left; reflexivity | right]).

Ltac in_cases H :=
  simpl in H; repeat (destruct H as [H|H]);
  try contradiction; try discriminate; try (inversion H; subst; clear H).

(** An article reaches Analyze only through an open Filter gate. *)
Lemma analyze_needs_relevant (a : article) (w : World) (p : string) (rep : result string) :
  In (Completion Analyze p rep) (trace (process a w)) ->
  exists reply d,
    In (Completion Filter (filter_prompt a) (Ok reply)) (trace (process a w)) /\
    parse_json_response py reply = Ok (PyDict d) /\
    Py.truthy (field d "is_relevant") = true.
Proof.
  unfold_linear. unfold filter_prompt.
  repeat step; intros H; in_cases H.
  all: eexists; eexists; split; [in_solve|split; eassumption].
Qed.


(** No alert without a parsed analysis whose [send_alert] is true. *)
Lemma alert_needs_send_alert (a : article) (w : World) (subject body : string) :
  In (subject, body) (emails (trace (process a w))) ->
  exists reply d,
    In (Completion Analyze (analysis_prompt a) (Ok reply)) (trace (process a w)) /\
    parse_json_response py reply = Ok (PyDict d) /\
    Py.truthy (field d "send_alert") = true.
Proof.
  unfold_linear. unfold analysis_prompt.
  repeat step; intros H; in_cases H.
  all: eexists; eexists; split; [in_solve|split; eassumption].
Qed.

(** Every article that is announced is put to the Filter stage, once. *)
Lemma process_article_filter_call (a : article) (w : World) :
  announced a ->
  calls_of Filter (trace (process a w)) = [filter_prompt a].
Proof.
  unfold_linear. unfold filter_prompt. intros [Hs Hp]. rewrite Hs. cbn.
  rewrite Hp. cbn.
  repeat step; reflexivity.
Qed.

(** An exception of the completion client ends the article, not the loop. *)
Lemma process_article_returns (a : article) (w : World) :
  announced a ->
  (forall p w0 e w1, llm_invoke p w0 = (Raise e, w1) -> is_Exception e = true) ->
  res (process a w) = Ok tt.
Proof.
  unfold_linear. intros [Hs Hp] Hllm. rewrite Hs. cbn. rewrite Hp. cbn.
  repeat step; try reflexivity.
  all: match goal with
       | Hc : llm_invoke _ _ = (Raise ?e, _), Hf : is_Exception ?e = false |- _ =>
           rewrite (Hllm _ _ _ _ Hc) in Hf; discriminate
       end.
Qed.

Lemma loop_cons (a : article) (l : list article) (w : World) :
  loop (a :: l) w =
  match process a w with
  | Run (Ok _) w1 t1 =>
      match loop l w1 with
      | Run r w2 t2 => Run r w2 (t1 ++ t2)%list
      end
  | Run (Raise e) w1 t1 => Run (Raise e) w1 t1
  end.
Proof. reflexivity. Qed.

Lemma calls_of_app (st : stage) (t1 t2 : list event) :
  calls_of st (t1 ++ t2) = (calls_of st t1 ++ calls_of st t2)%list.
Proof.
  unfold calls_of. rewrite calls_app, filter_app, map_app. reflexivity.
Qed.

(** Fault isolation in the linear script. *)
Lemma loop_isolates_faults (l : list article) :
  Forall announced l ->
  (forall p w0 e w1, llm_invoke p w0 = (Raise e, w1) -> is_Exception e = true) ->
  forall w, res (loop l w) = Ok tt /\
            calls_of Filter (trace (loop l w)) = map filter_prompt l.
Proof.
  intros Hall Hllm. induction Hall as [|a l Ha Hl IH]; intros w.
  - split; reflexivity.
  - rewrite loop_cons.
    pose proof (process_article_returns a w Ha Hllm) as Hr.
    pose proof (process_article_filter_call a w Ha) as Hc.
    destruct (process a w) as [[[]|e] w1 t1]; simpl in Hr, Hc; [|discriminate].
    destruct (IH w1) as [IH1 IH2].
    destruct (loop l w1) as [r w2 t2]; simpl in *.
    split; [exact IH1|].
    rewrite calls_of_app, Hc, IH2. reflexivity.
Qed.

Lemma loop_in_order (l : list article) :
  forall w, exists per : list (list (stage * string)),
    calls (trace (loop l w)) = List.concat per /\
    List.length per <= List.length l /\
    (res (loop l w) = Ok tt -> List.length per = List.length l) /\
    Forall2 in_stage_order (firstn (List.length per) l) per.
Proof.
  induction l as [|a l IH]; intros w.
  - exists []. repeat split; constructor.
  - rewrite loop_cons.
    pose proof (process_article_calls a w) as Ha.
    destruct (process a w) as [[[]|e] w1 t1]; simpl in Ha.
    + destruct (IH w1) as [per [Hc [Hlen [Hok Hall]]]].
      destruct (loop l w1) as [r w2 t2]; simpl in *.
      exists (calls t1 :: per). simpl.
      rewrite calls_app, Hc. repeat split.
      * lia.
      * intros Hr. rewrite (Hok Hr). reflexivity.
      * constructor; assumption.
    + exists [calls t1]. simpl. rewrite app_nil_r. repeat split.
      * lia.
      * discriminate.
      * constructor; [exact Ha|constructor].
Qed.

Lemma fetch_news_quiet (w : World) : calls (trace (fetch w)) = [].
Proof.
  unfold fetch, Linear.fetch_news, try_except_Exception, try_except, bind, call,
    print, tell, ret.
  destruct (get_top_headlines "economy" "en" 5 w) as [[reply|e] w1]; cbn.
  - destruct (get_articles reply); reflexivity.
  - destruct (is_Exception e); reflexivity.
Qed.

(** ** The workflow, node by node *)

Local Opaque Workflow.filter_template Workflow.analysis_template
  Workflow.relevant_marker Workflow.writer_prompt.
Local Opaque item PyStr.contains PyStr.lower PyStr.join.

Lemma forallb_filter_nil (P Q : event -> bool) (t : list event) :
  forallb P t = true ->
  (forall ev, P ev = true -> Q ev = false) ->
  filter Q t = [].
Proof.
  intros H HPQ. induction t as [|ev t IH]; [reflexivity|].
  simpl in H. apply andb_true_iff in H. destruct H as [Hev Ht].
  simpl. rewrite (HPQ ev Hev). apply IH. exact Ht.
Qed.

Lemma forallb_weaken (P Q : event -> bool) (t : list event) :
  (forall ev, P ev = true -> Q ev = true) ->
  forallb P t = true -> forallb Q t = true.
Proof.
  intros HPQ. induction t as [|ev t IH]; [reflexivity|].
  simpl. intros H. apply andb_true_iff in H. destruct H as [Hev Ht].
  rewrite (HPQ ev Hev), (IH Ht). reflexivity.
Qed.

Lemma calls_of_nil (st : stage) (t : list event) :
  filter (is_call st) t = [] -> calls_of st t = [].
Proof.
  unfold calls_of. induction t as [|ev t IH]; [reflexivity|].
  simpl. destruct ev as [st' p r| |]; simpl; try exact IH.
  destruct (stage_eqb st' st); [discriminate|exact IH].
Qed.

Ltac unfold_workflow :=
  unfold filter_one, analyze_one, Workflow.filter_one, Workflow.analyze_one,
    Workflow.print_title, Workflow.invoke,
    try_except_all, try_except_Exception, try_except, print_sliced, print_f,
    bind, call, lift, print, tell, ret, raise.

Ltac wstep :=
  match goal with
  | |- context [item ?n ?k] => destruct (item n k) as [?|?] eqn:?
  | |- context [llm_invoke ?p ?w] => destruct (llm_invoke p w) as [[?|?] ?] eqn:?
  | |- context [PyStr.contains ?p ?s] => destruct (PyStr.contains p s) eqn:?
  | |- context [Py.sliceable ?x] => destruct (Py.sliceable x) eqn:?
  | |- context [writable ?x] => destruct (writable x) eqn:?
  end; cbn.

(** One turn of the Filter loop: it returns, it only speaks to the Filter
    stage, and it appends the article exactly when the lower-cased
    completion contains the marker. *)
Lemma filter_one_spec (acc : list article) (news : article) (w : World) :
  exists l,
    res (filter_one acc news w) = Ok l /\
    forallb filter_stage_event (trace (filter_one acc news w)) = true /\
    (l = acc \/
     (l = (acc ++ [news])%list /\
      exists title reply,
        item news "title" = Ok title /\
        In (Completion Filter (wf_filter_prompt title) (Ok reply))
           (trace (filter_one acc news w)) /\
        PyStr.contains Workflow.relevant_marker (PyStr.lower reply) = true)).
Proof.
  unfold_workflow. unfold wf_filter_prompt.
  repeat wstep.
  all: eexists; split; [reflexivity|split; [reflexivity|]].
  all: first [ left; reflexivity
             | right; split; [reflexivity|];
               eexists; eexists; split; [reflexivity|split; [|eassumption]];
               simpl; repeat (first [left; reflexivity | right]) ].
Qed.

Lemma fold_each_cons {A B : Type} (body : B -> A -> M World B)
      (x : A) (l : list A) (acc : B) (w : World) :
  fold_each body (x :: l) acc w =
  match body acc x w with
  | Run (Ok acc') w1 t1 =>
      match fold_each body l acc' w1 with
      | Run r w2 t2 => Run r w2 (t1 ++ t2)%list
      end
  | Run (Raise e) w1 t1 => Run (Raise e) w1 t1
  end.
Proof. reflexivity. Qed.

Lemma passed_marker_mono (t1 t2 t : list event) (news : article) :
  passed_marker t news -> passed_marker (t1 ++ t ++ t2) news.
Proof.
  intros [title [reply [H1 [H2 H3]]]]. exists title, reply.
  repeat split; try assumption.
  apply in_or_app. right. apply in_or_app. left. exact H2.
Qed.

Lemma filter_loop_spec (raw : list article) :
  forall (acc : list article) (w : World),
  exists l,
    res (filter_loop raw acc w) = Ok l /\
    forallb filter_stage_event (trace (filter_loop raw acc w)) = true /\
    forall news, In news l ->
      In news acc \/
      (In news raw /\ passed_marker (trace (filter_loop raw acc w)) news).
Proof.
  induction raw as [|x raw IH]; intros acc w.
  - exists acc. repeat split. intros news H. left. exact H.
  - unfold filter_loop. rewrite fold_each_cons. fold filter_loop.
    destruct (filter_one_spec acc x w) as [l1 [Hr [Hq Hl]]].
    destruct (filter_one acc x w) as [r1 w1 t1]; simpl in Hr, Hq, Hl. subst r1.
    destruct (IH l1 w1) as [l2 [Hr2 [Hq2 Hl2]]].
    destruct (filter_loop raw l1 w1) as [r2 w2 t2]; simpl in *. subst r2.
    exists l2. split; [reflexivity|]. split.
    { rewrite forallb_app, Hq, Hq2. reflexivity. }
    intros news Hn. destruct (Hl2 news Hn) as [Hin|[Hin Hp]].
    + destruct Hl as [->|[-> Hp]]; [left; exact Hin|].
      apply in_app_or in Hin. destruct Hin as [Hin|[<-|[]]]; [left; exact Hin|].
      right. split; [left; reflexivity|].
      apply (passed_marker_mono [] t2 t1). exact Hp.
    + right. split; [right; exact Hin|].
      rewrite <- (app_nil_r t2). apply (passed_marker_mono t1 [] t2). exact Hp.
Qed.

(** One turn of the Analyze loop keeps an article exactly when the
    completion contains [High] or [Medium]; an exception goes through. *)
Lemma analyze_one_spec (acc : list Workflow.risk) (news : article) (w : World) :
  match res (analyze_one acc news w) with
  | Ok l =>
      exists title reply,
        item news "title" = Ok title /\
        trace (analyze_one acc news w) =
          [Completion Analyze (wf_analysis_prompt news title) (Ok reply)] /\
        l = if PyStr.contains "High" reply || PyStr.contains "Medium" reply
            then (acc ++ [Workflow.Risk news reply])%list else acc
  | Raise e =>
      (item news "title" = Raise e /\ trace (analyze_one acc news w) = []) \/
      exists title,
        item news "title" = Ok title /\
        trace (analyze_one acc news w) =
          [Completion Analyze (wf_analysis_prompt news title) (Raise e)]
  end.
Proof.
  unfold_workflow. unfold wf_analysis_prompt.
  destruct (item news "title") as [title|e] eqn:Ht; cbn; [|left; split; reflexivity].
  destruct (llm_invoke _ w) as [[reply|e] w1] eqn:Hc; cbn.
  - destruct (PyStr.contains "High" reply || PyStr.contains "Medium" reply) eqn:E; cbn;
      exists title, reply; rewrite E; repeat split; reflexivity.
  - right. exists title. split; reflexivity.
Qed.

(** One turn of each loop, when the completion client answers. *)
Lemma filter_one_reply (acc : list article) (news : article) (w w1 : World)
      (title : pyval) (reply : string) :
  item news "title" = Ok title ->
  llm_invoke (wf_filter_prompt title) w = (Ok reply, w1) ->
  res (filter_one acc news w) =
  Ok (if PyStr.contains Workflow.relevant_marker (PyStr.lower reply)
      then (acc ++ [news])%list else acc).
Proof.
  intros Ht Hc. unfold_workflow. unfold wf_filter_prompt in Hc.
  rewrite Ht. cbn. rewrite Hc. cbn.
  destruct (PyStr.contains Workflow.relevant_marker (PyStr.lower reply)); cbn;
    destruct (Py.sliceable title); cbn; try reflexivity;
    destruct (writable (Py.slice_to 30 title)); reflexivity.
Qed.

Lemma analyze_one_reply (acc : list Workflow.risk) (news : article) (w w1 : World)
      (title : pyval) (reply : string) :
  item news "title" = Ok title ->
  llm_invoke (wf_analysis_prompt news title) w = (Ok reply, w1) ->
  analyze_one acc news w =
  Run (Ok (if PyStr.contains "High" reply || PyStr.contains "Medium" reply
           then (acc ++ [Workflow.Risk news reply])%list else acc))
      w1 [Completion Analyze (wf_analysis_prompt news title) (Ok reply)].
Proof.
  intros Ht Hc. unfold_workflow. unfold wf_analysis_prompt in *.
  rewrite Ht. cbn. rewrite Hc. cbn.
  destruct (PyStr.contains "High" reply || PyStr.contains "Medium" reply); reflexivity.
Qed.

(** Every Analyze call is made for an article of [relevant_news]. *)
Lemma analyze_loop_provenance (relevant : list article) :
  forall (acc : list Workflow.risk) (w : World) (p : string) (rep : result string),
    In (Completion Analyze p rep) (trace (analyze_loop relevant acc w)) ->
    exists news title,
      In news relevant /\ item news "title" = Ok title /\
      p = wf_analysis_prompt news title.
Proof.
  induction relevant as [|x relevant IH]; intros acc w p rep H.
  - destruct H.
  - unfold analyze_loop in H. rewrite fold_each_cons in H. fold analyze_loop in H.
    pose proof (analyze_one_spec acc x w) as Hx.
    destruct (analyze_one acc x w) as [[l1|e] w1 t1]; simpl in Hx.
    + destruct Hx as [title [reply [Ht [-> _]]]].
      specialize (IH l1 w1 p rep).
      destruct (analyze_loop relevant l1 w1) as [r2 w2 t2]; simpl in *.
      destruct H as [H|H].
      * inversion H; subst. exists x, title.
        split; [left; reflexivity|split; [exact Ht|reflexivity]].
      * destruct (IH H) as [news [title' [Hin [Ht' Hp]]]].
        exists news, title'. split; [right; exact Hin|split; assumption].
    + simpl in H. destruct Hx as [[_ Htr]|[title [Ht Htr]]].
      * rewrite Htr in H. destruct H.
      * rewrite Htr in H. destruct H as [H|[]]. inversion H; subst.
        exists x, title. split; [left; reflexivity|split; [exact Ht|reflexivity]].
Qed.

(** Every entry of [analyzed_risks] holds a completion that contains
    [High] or [Medium]. *)
Lemma analyze_loop_entries (relevant : list article) :
  forall (acc : list Workflow.risk) (w : World) (l : list Workflow.risk),
    res (analyze_loop relevant acc w) = Ok l ->
    forall r, In r l ->
      In r acc \/
      (In (Workflow.original r) relevant /\
       PyStr.contains "High" (Workflow.analysis r) ||
       PyStr.contains "Medium" (Workflow.analysis r) = true).
Proof.
  induction relevant as [|x relevant IH]; intros acc w l H r Hr.
  - inversion H; subst. left. exact Hr.
  - unfold analyze_loop in H. rewrite fold_each_cons in H. fold analyze_loop in H.
    pose proof (analyze_one_spec acc x w) as Hx.
    destruct (analyze_one acc x w) as [[l1|e] w1 t1]; simpl in Hx; [|discriminate].
    destruct Hx as [title [reply [Ht [_ Hl1]]]].
    specialize (IH l1 w1 l).
    destruct (analyze_loop relevant l1 w1) as [r2 w2 t2]; simpl in *.
    destruct (IH H r Hr) as [Hin|[Hin Hc]].
    + destruct (PyStr.contains "High" reply || PyStr.contains "Medium" reply) eqn:E;
        subst l1; [|left; exact Hin].
      apply in_app_or in Hin. destruct Hin as [Hin|[<-|[]]]; [left; exact Hin|].
      right. simpl. split; [left; reflexivity|exact E].
    + right. split; [right; exact Hin|exact Hc].
Qed.

(** With nothing in [analyzed_risks] the report is the fixed text, and the
    completion client is not asked. *)
Lemma report_node_nothing (st : Workflow.AgentState) (w : World) :
  Workflow.analyzed_risks st = Some [] ->
  report_node st w = Run (Ok "No significant risks detected.") w [Print WritingReport].
Proof.
  intros H. unfold report_node, Workflow.report_node, bind, lift, print, tell, ret.
  rewrite H. reflexivity.
Qed.

Lemma fetch_node_quiet (st : Workflow.AgentState) (w : World) :
  forallb fetch_stage_event (trace (fetch_node st w)) = true.
Proof.
  unfold fetch_node, Workflow.fetch_news_node, try_except_Exception, try_except,
    bind, call, print, tell, ret.
  destruct (get_top_headlines "economy" "en" 10 w) as [[reply|e] w1]; cbn;
    [reflexivity|].
  destruct (is_Exception e); reflexivity.
Qed.

Lemma filter_node_spec (st : Workflow.AgentState) (raw : list article) (w : World) :
  Workflow.raw_headlines st = Some raw ->
  exists l,
    res (filter_node st w) = Ok l /\
    forallb filter_stage_event (trace (filter_node st w)) = true /\
    forall news, In news l ->
      In news raw /\ passed_marker (trace (filter_node st w)) news.
Proof.
  intros H. unfold filter_node, Workflow.filter_news_node, bind, lift, print, tell, ret.
  rewrite H. cbn. fold filter_one. fold filter_loop.
  destruct (filter_loop_spec raw [] w) as [l [Hr [Hq Hl]]].
  destruct (filter_loop raw [] w) as [r w1 t]; simpl in *. subst r.
  exists l. split; [reflexivity|]. split; [exact Hq|].
  intros news Hn. destruct (Hl news Hn) as [[]|[Hin Hp]].
  split; [exact Hin|].
  apply (passed_marker_mono [Print FilteringNews] [] t) in Hp.
  rewrite app_nil_r in Hp. exact Hp.
Qed.

(** When the Filter stage lets nothing through, the run ends at the
    conditional edge with one line on the console. *)
Lemma app_invoke_no_survivor (st : Workflow.AgentState) (w : World) :
  res (filter_stage st w) = Ok [] ->
  exists s',
    res (app_invoke st w) = Ok s' /\
    Workflow.relevant_news s' = Some [] /\
    Workflow.analyzed_risks s' = Workflow.analyzed_risks st /\
    Workflow.final_email_body s' = Workflow.final_email_body st /\
    trace (app_invoke st w) = (trace (filter_stage st w) ++ [Print NoRelevantNews])%list.
Proof.
  unfold app_invoke, Workflow.app_invoke, filter_stage, fetch_node, filter_node, bind.
  destruct (Workflow.fetch_news_node get_top_headlines st w) as [[arts|e] w1 t1];
    cbv beta iota; [|discriminate].
  destruct (Workflow.filter_news_node llm_invoke format writable _ w1) as [[l|e] w2 t2];
    cbv beta iota; [|discriminate].
  intros H. inversion H; subst. cbn.
  eexists. repeat split. rewrite app_assoc. reflexivity.
Qed.

Lemma filter_stage_quiet (st : Workflow.AgentState) (w : World) :
  forallb (fun ev => fetch_stage_event ev || filter_stage_event ev)
          (trace (filter_stage st w)) = true.
Proof.
  unfold filter_stage, bind.
  pose proof (fetch_node_quiet st w) as H1.
  destruct (fetch_node st w) as [[arts|e] w1 t1]; simpl in H1.
  - destruct (filter_node_spec
                (Workflow.State (Some arts) (Workflow.relevant_news st)
                   (Workflow.analyzed_risks st) (Workflow.final_email_body st))
                arts w1 eq_refl) as [l [_ [H2 _]]].
    destruct (filter_node _ w1) as [r w2 t2]; simpl in *.
    rewrite forallb_app. apply andb_true_iff. split.
    + eapply forallb_weaken; [|exact H1]. intros ev ->. reflexivity.
    + eapply forallb_weaken; [|exact H2]. intros ev ->. apply orb_true_r.
  - simpl. eapply forallb_weaken; [|exact H1]. intros ev ->. reflexivity.
Qed.

Lemma analyze_node_provenance (st : Workflow.AgentState) (relevant : list article)
      (w : World) (p : string) (rep : result string) :
  Workflow.relevant_news st = Some relevant ->
  In (Completion Analyze p rep) (trace (analyze_node st w)) ->
  exists news title,
    In news relevant /\ item news "title" = Ok title /\
    p = wf_analysis_prompt news title.
Proof.
  intros H. unfold analyze_node, Workflow.analyze_risk_node, bind, lift, print, tell, ret.
  rewrite H. unfold Workflow.channel. cbv beta iota.
  pose proof (analyze_loop_provenance relevant [] w p rep) as Hl.
  unfold analyze_loop, analyze_one in Hl.
  destruct (fold_each (Workflow.analyze_one llm_invoke format) relevant [] w)
    as [r w1 t]; simpl in *.
  intros [Hin|Hin]; [discriminate|]. exact (Hl Hin).
Qed.

Lemma analyze_node_entries (st : Workflow.AgentState) (relevant : list article)
      (w : World) (l : list Workflow.risk) :
  Workflow.relevant_news st = Some relevant ->
  res (analyze_node st w) = Ok l ->
  forall r, In r l ->
    In (Workflow.original r) relevant /\
    PyStr.contains "High" (Workflow.analysis r) ||
    PyStr.contains "Medium" (Workflow.analysis r) = true.
Proof.
  intros H. unfold analyze_node, Workflow.analyze_risk_node, bind, lift, print, tell, ret.
  rewrite H. unfold Workflow.channel. cbv beta iota.
  pose proof (analyze_loop_entries relevant [] w l) as Hl.
  unfold analyze_loop, analyze_one in Hl.
  destruct (fold_each (Workflow.analyze_one llm_invoke format) relevant [] w)
    as [r w1 t]; simpl in *.
  intros Hr x Hx. destruct (Hl Hr x Hx) as [[]|Hgood]. exact Hgood.
Qed.

(** A reply of the news service is passed on as it is; the mock data
    stand in for an exception only. *)
Lemma fetch_node_reply (st : Workflow.AgentState) (w w1 : World) (reply : headlines) :
  get_top_headlines "economy" "en" 10 w = (Ok reply, w1) ->
  fetch_node st w = Run (Ok (get_articles reply)) w1 [Print FetchingNews].
Proof.
  intros H. unfold fetch_node, Workflow.fetch_news_node, try_except_Exception,
    try_except, bind, call, print, tell, ret.
  rewrite H. reflexivity.
Qed.

Lemma fetch_node_failure (st : Workflow.AgentState) (w w1 : World) (e : exn) :
  is_Exception e = true ->
  get_top_headlines "economy" "en" 10 w = (Raise e, w1) ->
  fetch_node st w = Run (Ok Workflow.MOCK_DATA) w1 [Print FetchingNews; Print (ApiError e)].
Proof.
  intros He H. unfold fetch_node, Workflow.fetch_news_node, try_except_Exception,
    try_except, bind, call, print, tell, ret.
  rewrite H. cbv beta iota. rewrite He. reflexivity.
Qed.

Lemma app_invoke_no_articles (st : Workflow.AgentState) (w w1 : World) (reply : headlines) :
  get_top_headlines "economy" "en" 10 w = (Ok reply, w1) ->
  get_articles reply = [] ->
  app_invoke st w =
  Run (Ok (Workflow.State (Some []) (Some []) (Workflow.analyzed_risks st)
             (Workflow.final_email_body st)))
      w1 [Print FetchingNews; Print FilteringNews; Print NoRelevantNews].
Proof.
  intros H Hnil. unfold app_invoke, Workflow.app_invoke.
  pose proof (fetch_node_reply st w w1 reply H) as Hf. rewrite Hnil in Hf.
  unfold fetch_node in Hf. unfold bind at 1. rewrite Hf. reflexivity.
Qed.

(** ** The retrieval boundary of the linear script *)

Lemma fetch_failure (w w1 : World) (e : exn) :
  is_Exception e = true ->
  get_top_headlines "economy" "en" 5 w = (Raise e, w1) ->
  fetch w = Run (Ok Linear.MOCK_DATA) w1 [Print (ApiFailed e)].
Proof.
  intros He H. unfold fetch, Linear.fetch_news, try_except_Exception, try_except,
    bind, call, print, tell, ret.
  rewrite H. cbv beta iota. rewrite He. reflexivity.
Qed.

Lemma fetch_reply (w w1 : World) (reply : headlines) :
  get_top_headlines "economy" "en" 5 w = (Ok reply, w1) ->
  fetch w = Run (Ok (match get_articles reply with
                     | [] => Linear.MOCK_DATA
                     | l => l
                     end)) w1 [].
Proof.
  intros H. unfold fetch, Linear.fetch_news, try_except_Exception, try_except,
    bind, call, print, tell, ret.
  rewrite H. cbv beta iota. destruct (get_articles reply); reflexivity.
Qed.

(** ** The claims *)

(** C1, as amended.  The Analyze gate of the linear script reads the
    [send_alert] entry alone: when the analysis completion parses to a
    mapping whose [send_alert] is true, and the console can write the
    mapping's [impact_level] and [risk_type] for the alert line, the
    Summarize stage is called with the mapping's [risk_type]; and if that
    call returns, and the console can write the article's [url], exactly
    one alert is sent, whatever the mapping's [impact_level] is. *)
Theorem send_alert_alone_opens_the_gate
        (a : article) (w : World) (reply : string) (d : pydict) :
  In (Completion Analyze (analysis_prompt a) (Ok reply)) (trace (process a w)) ->
  parse_json_response py reply = Ok (PyDict d) ->
  Py.truthy (field d "send_alert") = true ->
  writable (field d "impact_level") = true ->
  writable (field d "risk_type") = true ->
  exists rep,
    In (Completion Summarize (summary_prompt a (field d "risk_type")) rep)
       (trace (process a w)) /\
    forall body, rep = Ok body ->
      writable (field a "url") = true ->
      emails (trace (process a w)) =
      [("[Risk Alert] " ++ str (field d "risk_type") ++ " Detected",
        body ++ PyStr.nl ++ PyStr.nl ++ "[Original Source]: " ++ str (field a "url"))].
Proof.
  unfold_linear. unfold analysis_prompt, summary_prompt.
  repeat step; intros H Hp Ht Hi Hr; in_cases H.
  all: try match goal with
       | Hq : parse_json_response py _ = Ok ?u |- _ =>
           assert (Hdd : u = PyDict d) by congruence; subst u
       end.
  all: try match goal with
       | Hq : parse_json_response py _ = Ok (PyDict ?dd) |- _ =>
           assert (Hdd : dd = d) by congruence; subst dd
       end.
  all: try congruence.
  all: try falsy_mapping.
  all: try mapping_raises.
  all: eexists; split; [in_solve|].
  all: intros body Hb Hu; inversion Hb; subst; try congruence; reflexivity.
Qed.

(** C2, as amended.  In the linear script an alert is sent for an article
    only if its analysis completion parsed to a mapping whose [send_alert]
    is true (so none is sent when parsing fails); in the workflow a turn
    of the Analyze loop keeps the article exactly when the raw completion
    contains [High] or [Medium], so that every entry of [analyzed_risks]
    holds such a completion, and with no entry the report is the fixed
    text and no completion is asked for. *)
Theorem no_alert_without_send_alert_or_marker :
  (forall (a : article) (w : World) (subject body : string),
      In (subject, body) (emails (trace (process a w))) ->
      exists reply d,
        In (Completion Analyze (analysis_prompt a) (Ok reply)) (trace (process a w)) /\
        parse_json_response py reply = Ok (PyDict d) /\
        Py.truthy (field d "send_alert") = true) /\
  (forall (acc : list Workflow.risk) (news : article) (w w1 : World)
          (title : pyval) (reply : string),
      item news "title" = Ok title ->
      llm_invoke (wf_analysis_prompt news title) w = (Ok reply, w1) ->
      analyze_one acc news w =
      Run (Ok (if PyStr.contains "High" reply || PyStr.contains "Medium" reply
               then (acc ++ [Workflow.Risk news reply])%list else acc))
          w1 [Completion Analyze (wf_analysis_prompt news title) (Ok reply)]) /\
  (forall (st : Workflow.AgentState) (relevant : list article) (w : World)
          (l : list Workflow.risk),
      Workflow.relevant_news st = Some relevant ->
      res (analyze_node st w) = Ok l ->
      forall r, In r l ->
        In (Workflow.original r) relevant /\
        PyStr.contains "High" (Workflow.analysis r) ||
        PyStr.contains "Medium" (Workflow.analysis r) = true) /\
  (forall (st : Workflow.AgentState) (w : World),
      Workflow.analyzed_risks st = Some [] ->
      report_node st w =
      Run (Ok "No significant risks detected.") w [Print WritingReport]).
Proof.
  split; [|split; [|split]].
  - exact alert_needs_send_alert.
  - exact analyze_one_reply.
  - exact analyze_node_entries.
  - exact report_node_nothing.
Qed.

(** C3.  When the Filter stage of the workflow accepts no article, the run
    ends at the conditional edge: to what [fetch] and [filter] did, the
    line [NoRelevantNews] is added, written that once; no Analyze,
    Summarize or Report completion is asked for, no
    e-mail is composed, and the channels [analyzed_risks] and
    [final_email_body] stay as they were. *)
Theorem no_survivor_short_circuit (st : Workflow.AgentState) (w : World) :
  res (filter_stage st w) = Ok [] ->
  exists s',
    res (app_invoke st w) = Ok s' /\
    Workflow.relevant_news s' = Some [] /\
    Workflow.analyzed_risks s' = Workflow.analyzed_risks st /\
    Workflow.final_email_body s' = Workflow.final_email_body st /\
    trace (app_invoke st w) = (trace (filter_stage st w) ++ [Print NoRelevantNews])%list /\
    List.length (filter is_no_relevant_news (trace (app_invoke st w))) = 1 /\
    calls_of Analyze (trace (app_invoke st w)) = [] /\
    calls_of Summarize (trace (app_invoke st w)) = [] /\
    calls_of Report (trace (app_invoke st w)) = [] /\
    filter is_final_email (trace (app_invoke st w)) = [].
Proof.
  intros H.
  destruct (app_invoke_no_survivor st w H) as [s' [Hr [Hn [Ha [Hb Ht]]]]].
  exists s'. rewrite Ht.
  pose proof (filter_stage_quiet st w) as Hq.
  assert (Hnil : forall Q : event -> bool,
             (forall ev, fetch_stage_event ev || filter_stage_event ev = true ->
                         Q ev = false) ->
             filter Q (trace (filter_stage st w)) = []).
  { intros Q HQ. eapply forallb_filter_nil; [exact Hq|exact HQ]. }
  assert (Hcalls : forall s0, s0 <> Filter ->
             calls_of s0 (trace (filter_stage st w) ++ [Print NoRelevantNews]) = []).
  { intros s0 Hs0. apply calls_of_nil. rewrite filter_app, app_nil_r.
    apply Hnil. intros [s1 p r|[]|]; simpl; try discriminate; try reflexivity.
    destruct s1; simpl; try discriminate. destruct s0; try reflexivity. congruence. }
  do 4 (split; [assumption|]). split; [reflexivity|].
  split; [|split; [|split; [|split]]].
  - rewrite filter_app, Hnil; [reflexivity|].
    intros [s1 p r|[]|]; simpl; try discriminate; reflexivity.
  - apply Hcalls. discriminate.
  - apply Hcalls. discriminate.
  - apply Hcalls. discriminate.
  - rewrite filter_app, app_nil_r. apply Hnil.
    intros [s1 p r|[]|]; simpl; try discriminate; reflexivity.
Qed.

(** C4, as amended.  In the linear script an Analyze completion is asked
    for an article only after its Filter completion parsed to a mapping
    whose [is_relevant] is true.  In the workflow the Filter gate is
    textual: a turn of the Filter loop keeps the article exactly when the
    lower-cased completion contains the marker, so that the articles
    written to [relevant_news] are articles with such a completion, and
    the Analyze node asks only for articles of [relevant_news]. *)
Theorem filter_gates :
  (forall (a : article) (w : World) (p : string) (rep : result string),
      In (Completion Analyze p rep) (trace (process a w)) ->
      exists reply d,
        In (Completion Filter (filter_prompt a) (Ok reply)) (trace (process a w)) /\
        parse_json_response py reply = Ok (PyDict d) /\
        Py.truthy (field d "is_relevant") = true) /\
  (forall (acc : list article) (news : article) (w w1 : World)
          (title : pyval) (reply : string),
      item news "title" = Ok title ->
      llm_invoke (wf_filter_prompt title) w = (Ok reply, w1) ->
      res (filter_one acc news w) =
      Ok (if PyStr.contains Workflow.relevant_marker (PyStr.lower reply)
          then (acc ++ [news])%list else acc)) /\
  (forall (st : Workflow.AgentState) (raw : list article) (w : World),
      Workflow.raw_headlines st = Some raw ->
      exists l,
        res (filter_node st w) = Ok l /\
        forall news, In news l ->
          In news raw /\ passed_marker (trace (filter_node st w)) news) /\
  (forall (st : Workflow.AgentState) (relevant : list article) (w : World)
          (p : string) (rep : result string),
      Workflow.relevant_news st = Some relevant ->
      In (Completion Analyze p rep) (trace (analyze_node st w)) ->
      exists news title,
        In news relevant /\ item news "title" = Ok title /\
        p = wf_analysis_prompt news title).
Proof.
  split; [|split; [|split]].
  - exact analyze_needs_relevant.
  - exact filter_one_reply.
  - intros st raw w H.
    destruct (filter_node_spec st raw w H) as [l [Hr [_ Hl]]].
    exists l. split; assumption.
  - intros st relevant w p rep. exact (analyze_node_provenance st relevant w p rep).
Qed.

(** C6, as amended.  [parse_json_response] cleans the text, decodes it
    and answers a decode failure with [None].  It lets two exceptions of
    the decoder through, and only on a text longer than the limit that
    was met: [RecursionError] when the recursion limit is reached, and
    [ValueError] when an integer literal has more digits than the cap.
    Cleaning takes the markers away wherever they stand, not only at the
    two ends: no marker is left in the text handed to the decoder, and a
    text cut into plain pieces and markers is left with its plain pieces,
    trimmed.  The decoder is the one of the standard library, which also
    accepts [NaN]. *)
Theorem parser_removes_markers_and_catches_decode_errors :
  (forall s e,
      parse_json_response py s = Raise e ->
      (e = RecursionError /\ recursion_room py < String.length (cleaned s)) \/
      (e = ValueError /\
       0 < int_max_str_digits py /\ int_max_str_digits py < String.length (cleaned s))) /\
  (forall s, PyStr.contains fence (cleaned s) = false) /\
  (forall l, well_cut l = true -> cleaned (assemble l) = PyStr.strip (plain l)) /\
  parse_json_response py EmptyString = Ok PyNone /\
  parse_json_response py "not json" = Ok PyNone /\
  (0 < recursion_room py ->
   parse_json_response py Double.fenced_reply =
   Ok (PyDict [("is_relevant", PyBool true)])) /\
  parse_json_response py "NaN" = Ok (PyFloatConst NaN).
Proof.
  split; [exact (parse_raises py)|].
  split; [exact cleaned_holds_no_marker|].
  split; [exact cleaned_pieces|].
  split; [|split; [|split]].
  - apply (parse_grows flat_limits py _ _ (wider_flat py)). vm_compute. reflexivity.
  - apply (parse_grows flat_limits py _ _ (wider_flat py)). vm_compute. reflexivity.
  - intros H. apply (parse_grows one_level py _ _ (wider_one_level py H)).
    vm_compute. reflexivity.
  - apply (parse_grows flat_limits py _ _ (wider_flat py)). vm_compute. reflexivity.
Qed.

(** C7.  When the call of the news service raises an exception, both
    programs go on with their mock data: three articles in the linear
    script, two in the workflow, each list opening with a central-bank
    rate rise and followed by a piece on a telephone or a pop star. *)
Theorem retrieval_failure_falls_back :
  (forall (w w1 : World) (e : exn),
      is_Exception e = true ->
      get_top_headlines "economy" "en" 5 w = (Raise e, w1) ->
      fetch w = Run (Ok Linear.MOCK_DATA) w1 [Print (ApiFailed e)]) /\
  (forall (st : Workflow.AgentState) (w w1 : World) (e : exn),
      is_Exception e = true ->
      get_top_headlines "economy" "en" 10 w = (Raise e, w1) ->
      fetch_node st w =
      Run (Ok Workflow.MOCK_DATA) w1 [Print FetchingNews; Print (ApiError e)]) /\
  2 <= List.length Linear.MOCK_DATA /\
  2 <= List.length Workflow.MOCK_DATA /\
  titles Linear.MOCK_DATA =
    [PyStr "Central Bank announces surprise 0.5% interest rate hike due to inflation fears";
     PyStr "New iPhone 16 features leaked ahead of launch";
     PyStr "Major Real Estate Developer files for bankruptcy protection"] /\
  titles Workflow.MOCK_DATA =
    [PyStr "Central Bank hikes rates by 0.75%"; PyStr "New K-Pop star debut"].
Proof.
  split; [exact fetch_failure|].
  split; [exact fetch_node_failure|].
  conjuncts; try reflexivity; simpl; lia.
Qed.

(** C8.  The completion calls of a run of the linear script are those of
    its articles, one article after the other in the order retrieved; the
    calls of an article are an initial part of Filter, Analyze, Summarize,
    so no stage is asked twice and none out of order. *)
Theorem linear_stage_order (w : World) :
  exists per : list (list (stage * string)),
    calls (trace (run_script w)) = List.concat per /\
    List.length per <= List.length (fetched w) /\
    (res (run_script w) = Ok tt -> List.length per = List.length (fetched w)) /\
    Forall2 in_stage_order (firstn (List.length per) (fetched w)) per.
Proof.
  unfold run_script, Linear.run_early_warning_system, fetched.
  pose proof (fetch_news_quiet w) as Hq.
  unfold fetch in *. unfold bind, print, tell.
  destruct (Linear.fetch_news get_top_headlines w) as [[l|e] w1 t1]; simpl in Hq.
  - cbv beta iota.
    destruct (loop_in_order l w1) as [per [Hc [Hlen [Hok Hall]]]].
    unfold loop, process in *.
    destruct (for_each (Linear.process_article llm_invoke format str py writable) l w1)
      as [r w2 t2]; simpl in *.
    exists per. rewrite calls_app, Hq, Hc. repeat split; assumption.
  - exists []. simpl. rewrite Hq. repeat split; constructor.
Qed.

(** C9, as amended.  A text that, cleaned, is a JSON document for a value
    that is no mapping is parsed to that value, on which [get] raises
    [AttributeError], unless a limit of the interpreter is met: then the
    parser raises [RecursionError] or [ValueError], and the text is longer
    than the limit.  A list between markers, a truth value between white
    space and [null] come back as they are, and [null] comes back as the
    [None] of a failed parse. *)
Theorem non_mapping_values_pass_within_limits :
  (forall p0 s v,
      Json.loads p0 (cleaned s) = Ok v -> is_mapping v = false ->
      (parse_json_response py s = Ok v /\
       forall k, Py.get v k = Raise AttributeError) \/
      (parse_json_response py s = Raise RecursionError /\
       recursion_room py < String.length (cleaned s)) \/
      (parse_json_response py s = Raise ValueError /\
       0 < int_max_str_digits py /\ int_max_str_digits py < String.length (cleaned s))) /\
  (0 < recursion_room py ->
   parse_json_response py (fence_json ++ PyStr.nl ++ "[1, 2]" ++ PyStr.nl ++ fence) =
   Ok (PyList [PyInt 1; PyInt 2])) /\
  parse_json_response py (" true" ++ PyStr.nl) = Ok (PyBool true) /\
  parse_json_response py "null" = Ok PyNone /\
  parse_json_response py "null" = parse_json_response py "not json".
Proof.
  split.
  { intros p0 s v H Hm.
    destruct (parse_document p0 py s v H) as [Hv|[Hr|Hc]].
    - left. split; [exact Hv|]. intros k. apply get_of_non_mapping. exact Hm.
    - right. left. exact Hr.
    - right. right. exact Hc. }
  assert (Hnull : parse_json_response py "null" = Ok PyNone).
  { apply (parse_grows flat_limits py _ _ (wider_flat py)). vm_compute. reflexivity. }
  split; [|split; [|split]].
  - intros H. apply (parse_grows one_level py _ _ (wider_one_level py H)).
    vm_compute. reflexivity.
  - apply (parse_grows flat_limits py _ _ (wider_flat py)). vm_compute. reflexivity.
  - exact Hnull.
  - rewrite Hnull. symmetry.
    apply (parse_grows flat_limits py _ _ (wider_flat py)). vm_compute. reflexivity.
Qed.

(** C10.  The workflow passes a successful reply on as it is, so a reply
    without articles leaves [raw_headlines] empty and the run ends at the
    no-relevant-news branch; the linear script puts its mock data in the
    place of an empty reply. *)
Theorem empty_reply_fallback_differs :
  (forall (st : Workflow.AgentState) (w w1 : World) (reply : headlines),
      get_top_headlines "economy" "en" 10 w = (Ok reply, w1) ->
      fetch_node st w = Run (Ok (get_articles reply)) w1 [Print FetchingNews]) /\
  (forall (st : Workflow.AgentState) (w w1 : World) (reply : headlines),
      get_top_headlines "economy" "en" 10 w = (Ok reply, w1) ->
      get_articles reply = [] ->
      app_invoke st w =
      Run (Ok (Workflow.State (Some []) (Some []) (Workflow.analyzed_risks st)
                 (Workflow.final_email_body st)))
          w1 [Print FetchingNews; Print FilteringNews; Print NoRelevantNews]) /\
  (forall (w w1 : World) (reply : headlines),
      get_top_headlines "economy" "en" 5 w = (Ok reply, w1) ->
      get_articles reply = [] ->
      fetch w = Run (Ok Linear.MOCK_DATA) w1 []).
Proof.
  split; [exact fetch_node_reply|].
  split; [exact app_invoke_no_articles|].
  intros w w1 reply H Hnil. rewrite (fetch_reply w w1 reply H), Hnil. reflexivity.
Qed.

(** ** Further properties of the linear script *)

Lemma truthy_entry_truthy_mapping (d : pydict) (k : string) :
  Py.truthy (field d k) = true -> Py.truthy (PyDict d) = true.
Proof.
  intros H. destruct (Py.truthy (PyDict d)) eqn:E; [reflexivity|].
  rewrite (falsy_mapping_entry d k E) in H. discriminate.
Qed.

(** Walk through a run along the equations at hand. *)
Ltac walk :=
  repeat (first [ progress (rewrite ?get_of_mapping)
                | match goal with
                  | H : ?x = _ |- context [?x] => rewrite H
                  end ]; cbn).

(** X1.  When every article is announced (its headline can be sliced and
    the console can write the headline's first fifty characters) and the
    completion client raises nothing but instances of [Exception], the
    loop of the linear script returns normally, and it has put every
    article to the Filter stage, in order, whatever happened to the
    articles before it: a completion that failed, one the decoder gave up
    on, a line the console refused. *)
Theorem linear_loop_survives_completion_failures (l : list article) (w : World) :
  Forall announced l ->
  (forall p w0 e w1, llm_invoke p w0 = (Raise e, w1) -> is_Exception e = true) ->
  res (loop l w) = Ok tt /\
  calls_of Filter (trace (loop l w)) = map filter_prompt l.
Proof.
  intros Hall Hllm. exact (loop_isolates_faults l Hall Hllm w).
Qed.

Lemma process_article_one_email (a : article) (w : World) :
  List.length (emails (trace (process a w))) <= 1.
Proof.
  unfold_linear. repeat step; simpl; lia.
Qed.

Lemma loop_emails (l : list article) :
  forall w, List.length (emails (trace (loop l w))) <= List.length l.
Proof.
  induction l as [|a l IH]; intros w; [simpl; lia|].
  rewrite loop_cons.
  pose proof (process_article_one_email a w) as Ha.
  destruct (process a w) as [[[]|e] w1 t1]; simpl in Ha.
  - specialize (IH w1). destruct (loop l w1) as [r w2 t2]; simpl in *.
    rewrite emails_app, length_app. lia.
  - simpl. lia.
Qed.

(** X2.  A run of the linear script sends at most one alert per article
    retrieved. *)
Theorem at_most_one_alert_per_article (w : World) :
  List.length (emails (trace (run_script w))) <= List.length (fetched w).
Proof.
  unfold run_script, Linear.run_early_warning_system, fetched.
  assert (Hq : emails (trace (fetch w)) = []).
  { unfold fetch, Linear.fetch_news, try_except_Exception, try_except, bind, call,
      print, tell, ret.
    destruct (get_top_headlines "economy" "en" 5 w) as [[reply|e] w1]; cbn.
    - destruct (get_articles reply); reflexivity.
    - destruct (is_Exception e); reflexivity. }
  unfold fetch in *. unfold bind, print, tell.
  destruct (Linear.fetch_news get_top_headlines w) as [[l|e] w1 t1]; simpl in Hq.
  - cbv beta iota. pose proof (loop_emails l w1) as Hl. unfold loop, process in Hl.
    destruct (for_each (Linear.process_article llm_invoke format str py writable) l w1)
      as [r w2 t2]; simpl in *.
    rewrite emails_app, Hq. exact Hl.
  - simpl. rewrite Hq. simpl. lia.
Qed.

(** X3.  Every alert of the linear script is made of the parsed analysis,
    the summary and the article: its subject names the [risk_type] of the
    mapping the Analyze completion parsed to, and its body is the
    Summarize completion followed by the article's [url]. *)
Theorem alert_is_built_from_analysis_and_summary
        (a : article) (w : World) (subject body : string) :
  In (subject, body) (emails (trace (process a w))) ->
  exists reply d summary,
    In (Completion Analyze (analysis_prompt a) (Ok reply)) (trace (process a w)) /\
    parse_json_response py reply = Ok (PyDict d) /\
    In (Completion Summarize (summary_prompt a (field d "risk_type")) (Ok summary))
       (trace (process a w)) /\
    subject = "[Risk Alert] " ++ str (field d "risk_type") ++ " Detected" /\
    body = summary ++ PyStr.nl ++ PyStr.nl ++ "[Original Source]: " ++ str (field a "url").
Proof.
  unfold_linear. unfold analysis_prompt, summary_prompt.
  repeat step; intros H; in_cases H.
  eexists; eexists; eexists.
  split; [in_solve|]. split; [eassumption|]. split; [in_solve|].
  split; reflexivity.
Qed.

Lemma field_missing (a : article) (k : string) :
  Py.dict_get a k = None -> field a k = PyNone.
Proof.
  Local Transparent field.
  unfold field. intros ->. reflexivity.
  Local Opaque field.
Qed.

(** X4.  An article without a [title] stops the linear script: slicing the
    missing headline raises [TypeError] outside every [try], before any
    completion is asked for, and the articles after it are not processed. *)
Theorem missing_title_stops_the_script (a : article) (l : list article) (w : World) :
  Py.dict_get a "title" = None ->
  process a w = Run (Raise TypeError) w [] /\
  loop (a :: l) w = Run (Raise TypeError) w [].
Proof.
  intros H. apply field_missing in H.
  assert (Hp : process a w = Run (Raise TypeError) w []).
  { unfold_linear. rewrite H. reflexivity. }
  split; [exact Hp|]. rewrite loop_cons, Hp. reflexivity.
Qed.

(** X5.  The ways the Filter step of the linear script turns an announced
    article down, once the completion is there.  A completion the decoder
    gives up on (a limit of the interpreter is met) gives the error line of
    that exception; one that parses to a false value (the [None] of a
    failed parse, an empty mapping or list, zero) gives the [Parse Error]
    line; one that parses to a true value that is no mapping gives the
    error line of an [AttributeError]; a mapping without a true
    [is_relevant] gives the skip line with the mapping's [reason], or, when
    the console cannot write the reason, the error line of a
    [UnicodeEncodeError].  Each time the run of the article is these three
    events and no more. *)
Theorem filter_step_rejections
        (a : article) (w w1 : World) (reply : string) :
  announced a ->
  llm_invoke (filter_prompt a) w = (Ok reply, w1) ->
  let ends_with (l : line) :=
    process a w =
    Run (Ok tt) w1 [Print (Processing (field a "title"));
                    Completion Filter (filter_prompt a) (Ok reply);
                    Print l] in
  (forall e, parse_json_response py reply = Raise e -> ends_with (FilterError e)) /\
  (forall v, parse_json_response py reply = Ok v ->
             Py.truthy v = false -> ends_with (Skipped None)) /\
  (forall v, parse_json_response py reply = Ok v ->
             Py.truthy v = true -> is_mapping v = false ->
             ends_with (FilterError AttributeError)) /\
  (forall d, parse_json_response py reply = Ok (PyDict d) ->
             Py.truthy (PyDict d) = true ->
             Py.truthy (field d "is_relevant") = false ->
             ends_with (if writable (field d "reason")
                        then Skipped (Some (field d "reason"))
                        else FilterError UnicodeEncodeError)).
Proof.
  intros [Hs Hw] Hc. unfold filter_prompt in *. cbv zeta.
  split; [|split; [|split]].
  - intros e Hp. pose proof (parse_raises_Exception _ _ _ Hp) as He.
    unfold_linear. walk. reflexivity.
  - intros v Hp Ht. unfold_linear. walk. reflexivity.
  - intros v Hp Ht Hm. pose proof (get_of_non_mapping v "is_relevant" Hm) as Hg.
    unfold_linear. walk. reflexivity.
  - intros d Hp Ht Hr. unfold_linear. walk.
    destruct (writable (field d "reason")); reflexivity.
Qed.

(** X6.  The same for the Analyze step, after a Filter completion that
    parsed to a mapping with a true [is_relevant]: a completion the decoder
    gives up on gives the error line of that exception, a false value the
    safe line without a risk type, a true value that is no mapping the
    error line of an [AttributeError], a mapping without a true
    [send_alert] the safe line with the mapping's [risk_type], and a
    mapping with a true [send_alert] whose [impact_level] or [risk_type]
    the console cannot write the error line of a [UnicodeEncodeError],
    which also stands for a safe line the console cannot write.  No
    Summarize completion is asked for and nothing is sent. *)
Theorem analysis_step_rejections
        (a : article) (w w1 w2 : World) (reply1 reply2 : string) (d1 : pydict) :
  announced a ->
  llm_invoke (filter_prompt a) w = (Ok reply1, w1) ->
  parse_json_response py reply1 = Ok (PyDict d1) ->
  Py.truthy (field d1 "is_relevant") = true ->
  llm_invoke (analysis_prompt a) w1 = (Ok reply2, w2) ->
  let ends_with (l : line) :=
    process a w =
    Run (Ok tt) w2 [Print (Processing (field a "title"));
                    Completion Filter (filter_prompt a) (Ok reply1);
                    Print Relevant;
                    Completion Analyze (analysis_prompt a) (Ok reply2);
                    Print l] in
  (forall e, parse_json_response py reply2 = Raise e -> ends_with (AnalysisError e)) /\
  (forall v, parse_json_response py reply2 = Ok v ->
             Py.truthy v = false -> ends_with (Safe None)) /\
  (forall v, parse_json_response py reply2 = Ok v ->
             Py.truthy v = true -> is_mapping v = false ->
             ends_with (AnalysisError AttributeError)) /\
  (forall d, parse_json_response py reply2 = Ok (PyDict d) ->
             Py.truthy (PyDict d) = true ->
             Py.truthy (field d "send_alert") = false ->
             ends_with (if writable (field d "risk_type")
                        then Safe (Some (field d "risk_type"))
                        else AnalysisError UnicodeEncodeError)) /\
  (forall d, parse_json_response py reply2 = Ok (PyDict d) ->
             Py.truthy (field d "send_alert") = true ->
             writable (field d "impact_level") && writable (field d "risk_type") = false ->
             ends_with (AnalysisError UnicodeEncodeError)).
Proof.
  intros [Hs Hw] Hc1 Hp1 Hr Hc2. unfold filter_prompt, analysis_prompt in *. cbv zeta.
  pose proof (truthy_entry_truthy_mapping d1 "is_relevant" Hr) as Hd1.
  split; [|split; [|split; [|split]]].
  - intros e Hp. pose proof (parse_raises_Exception _ _ _ Hp) as He.
    unfold_linear. walk. reflexivity.
  - intros v Hp Ht. unfold_linear. walk. reflexivity.
  - intros v Hp Ht Hm. pose proof (get_of_non_mapping v "send_alert" Hm) as Hg.
    unfold_linear. walk. reflexivity.
  - intros d Hp Ht Ha. unfold_linear. walk.
    destruct (writable (field d "risk_type")); reflexivity.
  - intros d Hp Ha Hx.
    pose proof (truthy_entry_truthy_mapping d "send_alert" Ha) as Hd.
    unfold_linear. walk.
    destruct (writable (field d "impact_level")); cbn in Hx |- *;
      [rewrite Hx|]; reflexivity.
Qed.


(** What [fetch_news] returns and what it lets through. *)
Lemma fetch_outcome (w : World) :
  match res (fetch w) with
  | Ok l =>
      l <> [] /\
      (l = Linear.MOCK_DATA \/
       exists reply w1,
         get_top_headlines "economy" "en" 5 w = (Ok reply, w1) /\ l = get_articles reply)
  | Raise e =>
      is_Exception e = false /\
      exists w1, get_top_headlines "economy" "en" 5 w = (Raise e, w1)
  end.
Proof.
  unfold fetch, Linear.fetch_news, try_except_Exception, try_except, bind, call,
    print, tell, ret.
  destruct (get_top_headlines "economy" "en" 5 w) as [[reply|e] w1] eqn:E; cbn.
  - destruct (get_articles reply) as [|x l] eqn:El; cbn.
    + split; [discriminate|left; reflexivity].
    + split; [discriminate|]. right. exists reply, w1. split; [reflexivity|].
      symmetry. exact El.
  - destruct (is_Exception e) eqn:He; cbn.
    + split; [discriminate|left; reflexivity].
    + split; [exact He|]. exists w1. reflexivity.
Qed.

(** X8.  What [fetch_news] hands to the loop is never empty.  A reply
    with articles is handed on as it is, with nothing written; a reply
    without articles and an exception that is an instance of [Exception]
    are replaced by the mock data; any other exception of the news client
    goes through, and nothing else is raised. *)
Theorem fetch_news_is_never_empty (w : World) :
  (forall l, res (fetch w) = Ok l -> l <> []) /\
  (forall reply w1,
      get_top_headlines "economy" "en" 5 w = (Ok reply, w1) ->
      fetch w = Run (Ok (if match get_articles reply with [] => true | _ => false end
                         then Linear.MOCK_DATA else get_articles reply)) w1 []) /\
  (forall e w1,
      get_top_headlines "economy" "en" 5 w = (Raise e, w1) ->
      fetch w = if is_Exception e
                then Run (Ok Linear.MOCK_DATA) w1 [Print (ApiFailed e)]
                else Run (Raise e) w1 []) /\
  (forall e, res (fetch w) = Raise e ->
             is_Exception e = false /\
             exists w1, get_top_headlines "economy" "en" 5 w = (Raise e, w1)).
Proof.
  pose proof (fetch_outcome w) as Hf.
  split; [|split; [|split]].
  - intros l Hl. rewrite Hl in Hf. exact (proj1 Hf).
  - intros reply w1 H. rewrite (fetch_reply w w1 reply H).
    destruct (get_articles reply); reflexivity.
  - intros e w1 H. unfold fetch, Linear.fetch_news, try_except_Exception, try_except,
      bind, call, print, tell, ret.
    rewrite H. cbv beta iota. destruct (is_Exception e); reflexivity.
  - intros e He. rewrite He in Hf. exact Hf.
Qed.

Lemma process_article_raises (a : article) (w : World) (e : exn) :
  res (process a w) = Raise e ->
  (Py.sliceable (field a "title") = false \/
   writable (Py.slice_to 50 (field a "title")) = false) \/
  (is_Exception e = false /\
   exists st p, In (Completion st p (Raise e)) (trace (process a w))).
Proof.
  unfold_linear. repeat step; intros H; try discriminate; inversion H; subst.
  all: try congruence.
  all: try (left; left; reflexivity).
  all: try (left; right; reflexivity).
  all: try (right; split; [reflexivity|]; eexists; eexists; in_solve; fail).
Qed.

Lemma loop_raises (l : list article) :
  forall (w : World) (e : exn),
    res (loop l w) = Raise e ->
    Exists (fun a => Py.sliceable (field a "title") = false \/
                     writable (Py.slice_to 50 (field a "title")) = false) l \/
    (is_Exception e = false /\
     exists st p, In (Completion st p (Raise e)) (trace (loop l w))).
Proof.
  induction l as [|a l IH]; intros w e H; [discriminate|].
  rewrite loop_cons in H |- *.
  pose proof (process_article_raises a w) as Ha.
  destruct (process a w) as [[[]|e1] w1 t1]; simpl in Ha.
  - specialize (IH w1 e).
    destruct (loop l w1) as [r w2 t2]; simpl in *.
    destruct (IH H) as [Hex|[He [st [p Hin]]]].
    + left. apply Exists_cons_tl. exact Hex.
    + right. split; [exact He|]. exists st, p. apply in_or_app. right. exact Hin.
  - simpl in H. inversion H; subst.
    destruct (Ha e eq_refl) as [Hs|[He Hin]].
    + left. apply Exists_cons_hd. exact Hs.
    + right. split; [exact He|exact Hin].
Qed.

(** X9.  A run of the linear script that raises does so for one of two
    reasons: an article retrieved that cannot be announced, because its
    headline cannot be sliced or because the console cannot write the
    headline's first fifty characters, the announcement being outside
    every [try]; or an exception of the news client or of the completion
    client that is no instance of [Exception]. *)
Theorem linear_script_raises_only (w : World) (e : exn) :
  res (run_script w) = Raise e ->
  Exists (fun a => Py.sliceable (field a "title") = false \/
                   writable (Py.slice_to 50 (field a "title")) = false) (fetched w) \/
  is_Exception e = false.
Proof.
  unfold run_script, Linear.run_early_warning_system, fetched.
  pose proof (fetch_outcome w) as Hf.
  unfold fetch in *. unfold bind, print, tell.
  destruct (Linear.fetch_news get_top_headlines w) as [[l|e1] w1 t1]; simpl in Hf.
  - cbv beta iota. pose proof (loop_raises l w1 e) as Hl. unfold loop, process in Hl.
    destruct (for_each (Linear.process_article llm_invoke format str py writable) l w1)
      as [r w2 t2]; simpl in *.
    intros H. destruct (Hl H) as [Hty|[He _]]; [left; exact Hty|right; exact He].
  - simpl. intros H. inversion H; subst. right. exact (proj1 Hf).
Qed.

(** ** Further properties of the workflow *)

Lemma item_missing (a : article) (k : string) :
  Py.dict_get a k = None -> item a k = Raise (KeyError k).
Proof.
  Local Transparent item.
  unfold item. intros ->. reflexivity.
  Local Opaque item.
Qed.

(** X10.  The turns of the Filter loop that keep the list as it was or
    skip the log line.  An article without a [title] is passed over with
    no completion asked for and nothing written; whatever the completion
    client raises, an instance of [Exception] or not, ends the turn only;
    and an article whose title cannot be sliced is still judged by its
    completion, and kept when the marker is there, though its line is
    never written. *)
Theorem filter_turn_edge_cases (acc : list article) (news : article) (w : World) :
  (Py.dict_get news "title" = None -> filter_one acc news w = Run (Ok acc) w []) /\
  (forall title e w1,
      item news "title" = Ok title ->
      llm_invoke (wf_filter_prompt title) w = (Raise e, w1) ->
      filter_one acc news w =
      Run (Ok acc) w1 [Completion Filter (wf_filter_prompt title) (Raise e)]) /\
  (forall title reply w1,
      item news "title" = Ok title ->
      Py.sliceable title = false ->
      llm_invoke (wf_filter_prompt title) w = (Ok reply, w1) ->
      filter_one acc news w =
      Run (Ok (if PyStr.contains Workflow.relevant_marker (PyStr.lower reply)
               then (acc ++ [news])%list else acc))
          w1 [Completion Filter (wf_filter_prompt title) (Ok reply)]).
Proof.
  unfold wf_filter_prompt. split; [|split].
  - intros H. apply item_missing in H. unfold_workflow. rewrite H. reflexivity.
  - intros title e w1 Ht Hc. unfold_workflow. rewrite Ht. cbn. rewrite Hc. reflexivity.
  - intros title reply w1 Ht Hs Hc. unfold_workflow. rewrite Ht. cbn. rewrite Hc. cbn.
    destruct (PyStr.contains Workflow.relevant_marker (PyStr.lower reply)); cbn;
      rewrite Hs; reflexivity.
Qed.

(** The graph, node by node. *)
Lemma app_invoke_nodes (st : Workflow.AgentState) (w : World) :
  app_invoke st w =
  match fetch_node st w with
  | Run (Raise e) w1 t1 => Run (Raise e) w1 t1
  | Run (Ok arts) w1 t1 =>
      let st1 := Workflow.State (Some arts) (Workflow.relevant_news st)
                   (Workflow.analyzed_risks st) (Workflow.final_email_body st) in
      match filter_node st1 w1 with
      | Run (Raise e) w2 t2 => Run (Raise e) w2 (t1 ++ t2)%list
      | Run (Ok rel) w2 t2 =>
          let st2 := Workflow.State (Some arts) (Some rel)
                       (Workflow.analyzed_risks st) (Workflow.final_email_body st) in
          match rel with
          | [] => Run (Ok st2) w2 (t1 ++ t2 ++ [Print NoRelevantNews])%list
          | _ :: _ =>
              match analyze_node st2 w2 with
              | Run (Raise e) w3 t3 => Run (Raise e) w3 (t1 ++ t2 ++ t3)%list
              | Run (Ok risks) w3 t3 =>
                  let st3 := Workflow.State (Some arts) (Some rel) (Some risks)
                               (Workflow.final_email_body st) in
                  match report_node st3 w3 with
                  | Run (Raise e) w4 t4 =>
                      Run (Raise e) w4 (t1 ++ t2 ++ t3 ++ t4)%list
                  | Run (Ok body) w4 t4 =>
                      Run (Ok (Workflow.State (Some arts) (Some rel) (Some risks)
                                 (Some body)))
                          w4 (t1 ++ t2 ++ t3 ++ t4)%list
                  end
              end
          end
      end
  end.
Proof.
  unfold app_invoke, Workflow.app_invoke, fetch_node, filter_node, analyze_node,
    report_node, bind.
  destruct (Workflow.fetch_news_node get_top_headlines st w) as [[arts|e] w1 t1];
    cbv beta iota zeta; [|reflexivity].
  destruct (Workflow.filter_news_node llm_invoke format writable _ w1) as [[rel|e] w2 t2];
    cbv beta iota zeta; [|reflexivity].
  unfold Workflow.check_relevance, bind, lift, Workflow.channel, ret, print, tell.
  cbn [Workflow.relevant_news].
  destruct rel as [|x rel]; cbv beta iota zeta; [rewrite app_nil_r; reflexivity|].
  destruct (Workflow.analyze_risk_node llm_invoke format _ w2) as [[risks|e] w3 t3];
    cbv beta iota zeta; [|reflexivity].
  destruct (Workflow.report_node llm_invoke _ w3) as [[body|e] w4 t4];
    simpl; rewrite ?app_nil_r; reflexivity.
Qed.

Lemma stages_app (t1 t2 : list event) : stages (t1 ++ t2) = (stages t1 ++ stages t2)%list.
Proof. unfold stages. rewrite calls_app, map_app. reflexivity. Qed.

Lemma subseq_refl_nil {A : Type} (k : list A) : subseq [] k.
Proof. induction k as [|x k IH]; constructor; exact IH. Qed.

Lemma subseq_app {A : Type} (l1 k1 l2 k2 : list A) :
  subseq l1 k1 -> subseq l2 k2 -> subseq (l1 ++ l2) (k1 ++ k2).
Proof.
  intros H1 H2. induction H1; simpl; [exact H2| |]; constructor; assumption.
Qed.

(** One turn of the Filter loop: the article is kept or not, at most one
    completion is asked for, and an article kept has a title. *)
Lemma filter_one_detail (acc : list article) (news : article) (w : World) :
  exists (keep : bool) (i : nat),
    res (filter_one acc news w) = Ok (if keep then (acc ++ [news])%list else acc) /\
    stages (trace (filter_one acc news w)) = repeat Filter i /\
    (if keep then i = 1 /\ exists title, item news "title" = Ok title else i <= 1).
Proof.
  unfold_workflow.
  destruct (item news "title") as [title|e] eqn:Ht; cbn.
  2: { exists false, 0. repeat split. lia. }
  repeat wstep.
  all: first [ exists true, 1; split; [reflexivity|]; split; [reflexivity|];
               split; [reflexivity|]; exists title; reflexivity
             | exists false, 1; split; [reflexivity|]; split; [reflexivity|]; lia ].
Qed.

Lemma filter_loop_detail (raw : list article) :
  forall (acc : list article) (w : World),
  exists (sub : list article) (i : nat),
    res (filter_loop raw acc w) = Ok (acc ++ sub)%list /\
    subseq sub raw /\
    stages (trace (filter_loop raw acc w)) = repeat Filter i /\
    List.length sub <= i /\ i <= List.length raw /\
    Forall (fun news => exists title, item news "title" = Ok title) sub.
Proof.
  induction raw as [|x raw IH]; intros acc w.
  - exists [], 0. simpl. rewrite app_nil_r. repeat split; try constructor.
  - unfold filter_loop. rewrite fold_each_cons. fold filter_loop.
    destruct (filter_one_detail acc x w) as [keep [i1 [Hr [Hs Hk]]]].
    destruct (filter_one acc x w) as [r1 w1 t1]; simpl in Hr, Hs. subst r1.
    destruct (IH (if keep then (acc ++ [x])%list else acc) w1)
      as [sub [i [Hr2 [Hsub [Hs2 [Hlen [Hi Hall]]]]]]].
    destruct (filter_loop raw _ w1) as [r2 w2 t2]; simpl in Hr2, Hs2. subst r2.
    simpl. rewrite stages_app, Hs, Hs2, <- repeat_app.
    destruct keep.
    + destruct Hk as [-> Htitle]. exists (x :: sub), (1 + i).
      rewrite <- app_assoc. simpl. repeat split; try lia.
      * apply subseq_keep. exact Hsub.
      * constructor; assumption.
    + exists sub, (i1 + i). repeat split; try lia; try assumption.
      apply subseq_skip. exact Hsub.
Qed.

Lemma analyze_loop_detail (relevant : list article) :
  forall (acc : list Workflow.risk) (w : World),
    (exists j, stages (trace (analyze_loop relevant acc w)) = repeat Analyze j /\
               j <= List.length relevant) /\
    match res (analyze_loop relevant acc w) with
    | Ok l =>
        exists sub, l = (acc ++ sub)%list /\
                    subseq (map Workflow.original sub) relevant
    | Raise e =>
        Forall (fun news => exists title, item news "title" = Ok title) relevant ->
        exists p, In (Completion Analyze p (Raise e)) (trace (analyze_loop relevant acc w))
    end.
Proof.
  induction relevant as [|x relevant IH]; intros acc w.
  - split; [exists 0; split; [reflexivity|simpl; lia]|].
    exists []. simpl. rewrite app_nil_r. split; [reflexivity|constructor].
  - unfold analyze_loop. rewrite fold_each_cons. fold analyze_loop.
    pose proof (analyze_one_spec acc x w) as Hx.
    destruct (analyze_one acc x w) as [[l1|e] w1 t1]; simpl in Hx.
    + destruct Hx as [title [reply [Ht [-> Hl1]]]].
      destruct (IH l1 w1) as [[j [Hs Hj]] Hres].
      destruct (analyze_loop relevant l1 w1) as [[l2|e2] w2 t2]; simpl in *.
      * split; [exists (S j); unfold stages in *; simpl; rewrite Hs; split; [reflexivity|lia]|].
        destruct Hres as [sub [-> Hsub]].
        destruct (PyStr.contains "High" reply || PyStr.contains "Medium" reply); subst l1.
        -- exists (Workflow.Risk x reply :: sub). rewrite <- app_assoc.
           split; [reflexivity|]. simpl. apply subseq_keep. exact Hsub.
        -- exists sub. split; [reflexivity|]. apply subseq_skip. exact Hsub.
      * split; [exists (S j); unfold stages in *; simpl; rewrite Hs; split; [reflexivity|lia]|].
        intros Hall. inversion Hall; subst.
        destruct (Hres H2) as [p Hp]. exists p. right. exact Hp.
    + split.
      * destruct Hx as [[_ ->]|[title [_ ->]]];
          [exists 0|exists 1]; simpl; split; try reflexivity; lia.
      * intros Hall. inversion Hall as [|? ? [title Ht] ?]; subst.
        destruct Hx as [[Hbad _]|[title' [_ ->]]]; [congruence|].
        eexists. left. reflexivity.
Qed.

(** The Report node with entries to report: one completion, asked with
    the analyses joined by line feeds. *)
Lemma report_node_run (st : Workflow.AgentState) (w : World)
      (r : Workflow.risk) (risks : list Workflow.risk) :
  Workflow.analyzed_risks st = Some (r :: risks) ->
  report_node st w =
  let p := Workflow.writer_prompt
             (PyStr.join PyStr.nl (map Workflow.analysis (r :: risks))) in
  match llm_invoke p w with
  | (Ok body, w1) =>
      Run (Ok body) w1
          [Print WritingReport; Completion Report p (Ok body); Print (FinalEmail body)]
  | (Raise e, w1) =>
      Run (Raise e) w1 [Print WritingReport; Completion Report p (Raise e)]
  end.
Proof.
  intros H. unfold report_node, Workflow.report_node, Workflow.invoke, bind, call,
    lift, print, tell, ret.
  rewrite H. unfold Workflow.channel. cbv beta iota zeta.
  destruct (llm_invoke _ w) as [[body|e] w1]; reflexivity.
Qed.

Lemma fetch_node_run (st : Workflow.AgentState) (w : World) :
  stages (trace (fetch_node st w)) = [] /\
  match res (fetch_node st w) with
  | Ok _ => True
  | Raise e =>
      is_Exception e = false /\
      exists w1, get_top_headlines "economy" "en" 10 w = (Raise e, w1)
  end.
Proof.
  unfold fetch_node, Workflow.fetch_news_node, try_except_Exception, try_except,
    bind, call, print, tell, ret.
  destruct (get_top_headlines "economy" "en" 10 w) as [[reply|e] w1]; cbn;
    [split; [reflexivity|exact I]|].
  destruct (is_Exception e) eqn:He; cbn; split; try reflexivity; try exact I.
  split; [exact He|]. exists w1. reflexivity.
Qed.

Lemma filter_node_detail (st : Workflow.AgentState) (raw : list article) (w : World) :
  Workflow.raw_headlines st = Some raw ->
  exists (rel : list article) (i : nat),
    res (filter_node st w) = Ok rel /\
    subseq rel raw /\
    stages (trace (filter_node st w)) = repeat Filter i /\
    List.length rel <= i /\ i <= List.length raw /\
    Forall (fun news => exists title, item news "title" = Ok title) rel.
Proof.
  intros H. unfold filter_node, Workflow.filter_news_node, bind, lift, print, tell, ret.
  rewrite H. unfold Workflow.channel. cbv beta iota.
  destruct (filter_loop_detail raw [] w) as [sub [i Hd]].
  unfold filter_loop, filter_one in Hd.
  destruct (fold_each (Workflow.filter_one llm_invoke format writable) raw [] w) as [r w1 t].
  simpl in *. exists sub, i. exact Hd.
Qed.

Lemma analyze_node_detail (st : Workflow.AgentState) (rel : list article) (w : World) :
  Workflow.relevant_news st = Some rel ->
  (exists j, stages (trace (analyze_node st w)) = repeat Analyze j /\
             j <= List.length rel) /\
  match res (analyze_node st w) with
  | Ok risks => subseq (map Workflow.original risks) rel
  | Raise e =>
      Forall (fun news => exists title, item news "title" = Ok title) rel ->
      exists p, In (Completion Analyze p (Raise e)) (trace (analyze_node st w))
  end.
Proof.
  intros H. unfold analyze_node, Workflow.analyze_risk_node, bind, lift, print, tell, ret.
  rewrite H. unfold Workflow.channel. cbv beta iota.
  destruct (analyze_loop_detail rel [] w) as [Hs Hr].
  unfold analyze_loop, analyze_one in Hs, Hr.
  destruct (fold_each (Workflow.analyze_one llm_invoke format) rel [] w)
    as [[risks|e] w1 t]; simpl in *.
  - split; [exact Hs|]. destruct Hr as [sub [-> Hsub]]. exact Hsub.
  - split; [exact Hs|]. intros Hall. destruct (Hr Hall) as [p Hp].
    exists p. right. exact Hp.
Qed.

(** X11.  The stages of the completion calls of a run of the workflow come
    in blocks: the Filter calls, at most one per article fetched, then the
    Analyze calls, no more of them than of Filter calls, then at most one
    Report call. *)
Theorem workflow_stage_order (st : Workflow.AgentState) (w : World) :
  exists i j k,
    stages (trace (app_invoke st w)) =
      (repeat Filter i ++ repeat Analyze j ++ repeat Report k)%list /\
    j <= i /\ k <= 1 /\
    match res (fetch_node st w) with
    | Ok articles => i <= List.length articles
    | Raise _ => i = 0
    end.
Proof.
  rewrite app_invoke_nodes.
  destruct (fetch_node_run st w) as [Hs1 _].
  destruct (fetch_node st w) as [[arts|e] w1 t1]; simpl in Hs1; cbv zeta.
  2: { exists 0, 0, 0. simpl. rewrite Hs1. repeat split; lia. }
  destruct (filter_node_detail
              (Workflow.State (Some arts) (Workflow.relevant_news st)
                 (Workflow.analyzed_risks st) (Workflow.final_email_body st))
              arts w1 eq_refl) as [rel [i [Hr [_ [Hs2 [Hlen [Hi _]]]]]]].
  destruct (filter_node _ w1) as [r2 w2 t2]; simpl in Hr, Hs2. subst r2.
  destruct rel as [|x rel].
  { exists i, 0, 0. simpl. rewrite !stages_app, Hs1, Hs2. simpl.
    rewrite ?app_nil_r. repeat split; try lia. }
  destruct (analyze_node_detail
              (Workflow.State (Some arts) (Some (x :: rel))
                 (Workflow.analyzed_risks st) (Workflow.final_email_body st))
              (x :: rel) w2 eq_refl) as [[j [Hs3 Hj]] _].
  destruct (analyze_node _ w2) as [[risks|e] w3 t3]; simpl in Hs3.
  2: { exists i, j, 0. simpl. rewrite !stages_app, Hs1, Hs2, Hs3. simpl.
       rewrite ?app_nil_r. repeat split; try lia. }
  destruct risks as [|r risks].
  - match goal with
    | |- context [report_node ?s w3] => rewrite (report_node_nothing s w3 eq_refl)
    end.
    exists i, j, 0. simpl. rewrite !stages_app, Hs1, Hs2, Hs3. simpl.
    rewrite ?app_nil_r. repeat split; try lia.
  - match goal with
    | |- context [report_node ?s w3] => rewrite (report_node_run s w3 r risks eq_refl)
    end. cbv zeta.
    destruct (llm_invoke _ w3) as [[body|e] w4];
      exists i, j, 1; simpl; rewrite !stages_app, Hs1, Hs2, Hs3; simpl;
      repeat split; try lia.
Qed.

Lemma analyze_loop_quiet (relevant : list article) :
  forall (acc : list Workflow.risk) (w : World),
    forallb analyze_stage_event (trace (analyze_loop relevant acc w)) = true.
Proof.
  induction relevant as [|x relevant IH]; intros acc w; [reflexivity|].
  unfold analyze_loop. rewrite fold_each_cons. fold analyze_loop.
  pose proof (analyze_one_spec acc x w) as Hx.
  destruct (analyze_one acc x w) as [[l1|e] w1 t1]; simpl in Hx.
  - destruct Hx as [title [reply [_ [-> _]]]].
    specialize (IH l1 w1). destruct (analyze_loop relevant l1 w1) as [r2 w2 t2].
    simpl in *. exact IH.
  - destruct Hx as [[_ ->]|[title [_ ->]]]; reflexivity.
Qed.

Lemma analyze_node_quiet (st : Workflow.AgentState) (w : World) :
  forallb analyze_stage_event (trace (analyze_node st w)) = true.
Proof.
  unfold analyze_node, Workflow.analyze_risk_node, bind, lift, print, tell, ret.
  destruct (Workflow.relevant_news st) as [rel|]; unfold Workflow.channel;
    cbv beta iota; [|reflexivity].
  pose proof (analyze_loop_quiet rel [] w) as Hq.
  unfold analyze_loop, analyze_one in Hq.
  destruct (fold_each (Workflow.analyze_one llm_invoke format) rel [] w)
    as [[risks|e] w1 t]; simpl in *; exact Hq.
Qed.

(** Events of the first three nodes are not events of the Report node. *)
Lemma before_report_quiet (t1 t2 t3 : list event) (Q : event -> bool) :
  forallb fetch_stage_event t1 = true ->
  forallb filter_stage_event t2 = true ->
  forallb analyze_stage_event t3 = true ->
  (forall ev, fetch_stage_event ev || filter_stage_event ev ||
              analyze_stage_event ev = true -> Q ev = false) ->
  filter Q (t1 ++ t2 ++ t3) = [].
Proof.
  intros H1 H2 H3 HQ.
  eapply forallb_filter_nil; [|exact HQ].
  rewrite !forallb_app. apply andb_true_iff. split; [|apply andb_true_iff; split].
  - eapply forallb_weaken; [|exact H1]. intros ev ->. reflexivity.
  - eapply forallb_weaken; [|exact H2]. intros ev ->.
    rewrite orb_true_r. reflexivity.
  - eapply forallb_weaken; [|exact H3]. intros ev ->. apply orb_true_r.
Qed.

(** X12.  The lists of a finished run of the workflow: [relevant_news] is
    [raw_headlines] with articles left out, in the same order, and when it
    is not empty the articles of [analyzed_risks] are those of
    [relevant_news] with some left out, in the same order, each with a
    completion that contains [High] or [Medium]. *)
Theorem finished_run_lists (st s' : Workflow.AgentState) (w : World) :
  res (app_invoke st w) = Ok s' ->
  exists raw rel,
    Workflow.raw_headlines s' = Some raw /\
    Workflow.relevant_news s' = Some rel /\
    subseq rel raw /\
    (rel <> [] ->
     exists risks,
       Workflow.analyzed_risks s' = Some risks /\
       subseq (map Workflow.original risks) rel /\
       forall r, In r risks ->
         PyStr.contains "High" (Workflow.analysis r) ||
         PyStr.contains "Medium" (Workflow.analysis r) = true).
Proof.
  rewrite app_invoke_nodes.
  destruct (fetch_node st w) as [[arts|e] w1 t1]; cbv zeta; [|discriminate].
  destruct (filter_node_detail
              (Workflow.State (Some arts) (Workflow.relevant_news st)
                 (Workflow.analyzed_risks st) (Workflow.final_email_body st))
              arts w1 eq_refl) as [rel [i [Hr [Hsub _]]]].
  destruct (filter_node _ w1) as [r2 w2 t2]; simpl in Hr. subst r2.
  destruct rel as [|x rel].
  { intros H. inversion H; subst. exists arts, []. simpl.
    repeat split; try assumption. congruence. }
  pose proof (analyze_node_detail
                (Workflow.State (Some arts) (Some (x :: rel))
                   (Workflow.analyzed_risks st) (Workflow.final_email_body st))
                (x :: rel) w2 eq_refl) as [_ Hres].
  pose proof (analyze_node_entries
                (Workflow.State (Some arts) (Some (x :: rel))
                   (Workflow.analyzed_risks st) (Workflow.final_email_body st))
                (x :: rel) w2) as Hent.
  destruct (analyze_node _ w2) as [[risks|e] w3 t3]; simpl in Hres, Hent;
    [|discriminate].
  destruct (report_node _ w3) as [[body|e] w4 t4]; [|discriminate].
  intros H. inversion H; subst. exists arts, (x :: rel). simpl.
  repeat split; try assumption. intros _. exists risks.
  split; [reflexivity|]. split; [exact Hres|].
  intros r Hin. exact (proj2 (Hent risks eq_refl eq_refl r Hin)).
Qed.

(** X13.  The report of a finished run of the workflow that had relevant
    news.  With nothing in [analyzed_risks] the body is the fixed text, no
    Report completion is asked for and no e-mail is written; otherwise one
    Report completion is asked for, with the analyses joined by line
    feeds, and its reply is the body and the one e-mail written. *)
Theorem finished_run_report (st s' : Workflow.AgentState) (w : World)
        (x : article) (rel : list article) :
  res (app_invoke st w) = Ok s' ->
  Workflow.relevant_news s' = Some (x :: rel) ->
  exists risks,
    Workflow.analyzed_risks s' = Some risks /\
    match risks with
    | [] =>
        Workflow.final_email_body s' = Some "No significant risks detected." /\
        calls_of Report (trace (app_invoke st w)) = [] /\
        filter is_final_email (trace (app_invoke st w)) = []
    | _ :: _ =>
        let p := Workflow.writer_prompt
                   (PyStr.join PyStr.nl (map Workflow.analysis risks)) in
        exists body,
          Workflow.final_email_body s' = Some body /\
          In (Completion Report p (Ok body)) (trace (app_invoke st w)) /\
          calls_of Report (trace (app_invoke st w)) = [p] /\
          filter is_final_email (trace (app_invoke st w)) = [Print (FinalEmail body)]
    end.
Proof.
  rewrite app_invoke_nodes.
  pose proof (fetch_node_quiet st w) as Q1.
  destruct (fetch_node st w) as [[arts|e] w1 t1]; cbv zeta; [|discriminate].
  destruct (filter_node_spec
              (Workflow.State (Some arts) (Workflow.relevant_news st)
                 (Workflow.analyzed_risks st) (Workflow.final_email_body st))
              arts w1 eq_refl) as [l0 [_ [Q2 _]]].
  destruct (filter_node _ w1) as [[rel0|e] w2 t2]; [|discriminate].
  destruct rel0 as [|x0 rel0].
  { intros H. inversion H; subst. simpl. discriminate. }
  pose proof (analyze_node_quiet
                (Workflow.State (Some arts) (Some (x0 :: rel0))
                   (Workflow.analyzed_risks st) (Workflow.final_email_body st))
                w2) as Q3.
  destruct (analyze_node _ w2) as [[risks|e] w3 t3]; [|discriminate].
  simpl in Q1, Q2, Q3.
  pose proof (before_report_quiet t1 t2 t3) as Hq.
  assert (Hrep : calls_of Report (t1 ++ t2 ++ t3) = []).
  { apply calls_of_nil. apply Hq; try assumption.
    intros ev Hev. destruct ev as [s1 p r|l1|? ? ?]; [destruct s1|destruct l1|];
      simpl in *; try reflexivity; discriminate. }
  assert (Hmail : filter is_final_email (t1 ++ t2 ++ t3) = []).
  { apply Hq; try assumption.
    intros ev Hev. destruct ev as [s1 p r|l1|? ? ?]; [destruct s1|destruct l1|];
      simpl in *; try reflexivity; discriminate. }
  destruct risks as [|r risks].
  - match goal with
    | |- context [report_node ?s w3] => rewrite (report_node_nothing s w3 eq_refl)
    end.
    intros H _. inversion H; subst. exists []. simpl.
    split; [reflexivity|]. split; [reflexivity|].
    rewrite !app_assoc, calls_of_app, filter_app, <- !app_assoc, Hrep, Hmail.
    split; reflexivity.
  - match goal with
    | |- context [report_node ?s w3] => rewrite (report_node_run s w3 r risks eq_refl)
    end. cbv zeta.
    destruct (llm_invoke _ w3) as [[body|e] w4]; [|discriminate].
    intros H _. inversion H; subst. exists (r :: risks). simpl.
    split; [reflexivity|]. exists body. split; [reflexivity|].
    split.
    { apply in_or_app. right. apply in_or_app. right. apply in_or_app. right.
      right. left. reflexivity. }
    rewrite !app_assoc, calls_of_app, filter_app, <- !app_assoc, Hrep, Hmail.
    split; reflexivity.
Qed.

(** X14.  What a run of the workflow can raise.  The Filter node raises
    nothing, so an exception that ends the run is one the news client
    raised that is no instance of [Exception], or the exception of an
    Analyze completion or of the Report completion, which no node
    catches. *)
Theorem workflow_raises_only (st : Workflow.AgentState) (w : World) (e : exn) :
  res (app_invoke st w) = Raise e ->
  (is_Exception e = false /\
   exists w1, get_top_headlines "economy" "en" 10 w = (Raise e, w1)) \/
  (exists p, In (Completion Analyze p (Raise e)) (trace (app_invoke st w))) \/
  (exists p, In (Completion Report p (Raise e)) (trace (app_invoke st w))).
Proof.
  rewrite app_invoke_nodes.
  pose proof (fetch_node_run st w) as [_ Hf].
  destruct (fetch_node st w) as [[arts|e0] w1 t1]; simpl in Hf; cbv zeta.
  2: { simpl. intros H. inversion H; subst. left. exact Hf. }
  destruct (filter_node_detail
              (Workflow.State (Some arts) (Workflow.relevant_news st)
                 (Workflow.analyzed_risks st) (Workflow.final_email_body st))
              arts w1 eq_refl) as [rel [i [Hr [_ [_ [_ [_ Hall]]]]]]].
  destruct (filter_node _ w1) as [r2 w2 t2]; simpl in Hr. subst r2.
  destruct rel as [|x rel]; [discriminate|].
  pose proof (analyze_node_detail
                (Workflow.State (Some arts) (Some (x :: rel))
                   (Workflow.analyzed_risks st) (Workflow.final_email_body st))
                (x :: rel) w2 eq_refl) as [_ Ha].
  destruct (analyze_node _ w2) as [[risks|e0] w3 t3]; simpl in Ha.
  2: { simpl. intros H. inversion H; subst. right. left.
       destruct (Ha Hall) as [p Hp]. exists p.
       apply in_or_app. right. apply in_or_app. right. exact Hp. }
  destruct risks as [|r risks].
  - match goal with
    | |- context [report_node ?s w3] => rewrite (report_node_nothing s w3 eq_refl)
    end. discriminate.
  - match goal with
    | |- context [report_node ?s w3] => rewrite (report_node_run s w3 r risks eq_refl)
    end. cbv zeta.
    destruct (llm_invoke _ w3) as [[body|e0] w4]; [discriminate|].
    simpl. intros H. inversion H; subst. right. right.
    eexists. apply in_or_app. right. apply in_or_app. right.
    apply in_or_app. right. right. left. reflexivity.
Qed.

(** X15.  A failed Analyze completion ends the loop of [analyze_risk_node]
    at once: the exception, whatever it is, leaves the loop with that one
    call made, the risks gathered so far are dropped and the articles
    after it are not analysed. *)
Theorem analyze_failure_ends_the_loop
        (acc : list Workflow.risk) (news : article) (rest : list article)
        (w w1 : World) (title : pyval) (e : exn) :
  item news "title" = Ok title ->
  llm_invoke (wf_analysis_prompt news title) w = (Raise e, w1) ->
  analyze_loop (news :: rest) acc w =
  Run (Raise e) w1 [Completion Analyze (wf_analysis_prompt news title) (Raise e)].
Proof.
  intros Ht Hc. unfold analyze_loop. rewrite fold_each_cons.
  assert (H1 : analyze_one acc news w =
               Run (Raise e) w1
                   [Completion Analyze (wf_analysis_prompt news title) (Raise e)]).
  { unfold_workflow. unfold wf_analysis_prompt in *. rewrite Ht. cbn.
    rewrite Hc. reflexivity. }
  rewrite H1. reflexivity.
Qed.

End Pipelines.

(* ================================================================== *)
(** ** The claims on the test doubles *)
(* ================================================================== *)

Import Double.

Ltac in_trace := vm_compute; repeat (first [left; reflexivity | right]).

(** C1 fails as stated: the analysis says [Low] and [send_alert: true],
    and the alert is sent. *)
Lemma low_impact_is_alerted :
  parse_json_response py low_but_alert_reply = Ok (PyDict mapping_low) /\
  field mapping_low "impact_level" = PyStr "Low" /\
  field mapping_low "send_alert" = PyBool true /\
  replies (trace (linear_article one_article w_low_alert)) =
    [(Filter, Ok relevant_reply); (Analyze, Ok low_but_alert_reply);
     (Summarize, Ok "brief")] /\
  emails (trace (linear_article one_article w_low_alert)) =
    [("[Risk Alert] Market Risk Detected",
      "brief" ++ PyStr.nl ++ PyStr.nl ++ "[Original Source]: http://test.com/1")].
Proof. conjuncts; vm_compute; reflexivity. Qed.

Lemma send_alert_alone_opens_the_gate_witness :
  exists rep,
    In (Completion Summarize
          (summary_prompt format one_article (field mapping_low "risk_type")) rep)
       (trace (linear_article one_article w_low_alert)) /\
    forall body, rep = Ok body ->
      writable (field one_article "url") = true ->
      emails (trace (linear_article one_article w_low_alert)) =
      [("[Risk Alert] " ++ str (field mapping_low "risk_type") ++ " Detected",
        body ++ PyStr.nl ++ PyStr.nl ++ "[Original Source]: "
          ++ str (field one_article "url"))].
Proof.
  apply (send_alert_alone_opens_the_gate world llm_invoke format str py writable
           one_article w_low_alert low_but_alert_reply mapping_low).
  - in_trace.
  - vm_compute; reflexivity.
  - vm_compute; reflexivity.
  - vm_compute; reflexivity.
  - vm_compute; reflexivity.
Defined.

(** C2 fails as stated: the analysis completion cannot be parsed, it
    contains [High], and the workflow writes its report. *)
Lemma unparsed_analysis_is_reported :
  parse_json_response py prose_reply = Ok PyNone /\
  res (workflow_run w_prose) =
    Ok (Workflow.State (Some [one_article]) (Some [one_article])
          (Some [Workflow.Risk one_article prose_reply]) (Some "mail")) /\
  replies (trace (workflow_run w_prose)) =
    [(Filter, Ok relevant_reply); (Analyze, Ok prose_reply); (Report, Ok "mail")] /\
  filter is_final_email (trace (workflow_run w_prose)) = [Print (FinalEmail "mail")].
Proof. conjuncts; vm_compute; reflexivity. Qed.

Lemma no_alert_without_send_alert_or_marker_witness :
  (exists reply d,
      In (Completion Analyze (analysis_prompt format one_article) (Ok reply))
         (trace (linear_article one_article w_low_alert)) /\
      parse_json_response py reply = Ok (PyDict d) /\
      Py.truthy (field d "send_alert") = true) /\
  analyze_one world llm_invoke format [] one_article (replies_left [Ok prose_reply]) =
    Run (Ok (if PyStr.contains "High" prose_reply || PyStr.contains "Medium" prose_reply
             then ([] ++ [Workflow.Risk one_article prose_reply])%list else []))
        (replies_left [])
        [Completion Analyze
           (wf_analysis_prompt format one_article (PyStr "Central Bank hikes rates by 0.75%"))
           (Ok prose_reply)] /\
  (In (Workflow.original (Workflow.Risk one_article prose_reply)) [one_article] /\
   PyStr.contains "High" (Workflow.analysis (Workflow.Risk one_article prose_reply)) ||
   PyStr.contains "Medium" (Workflow.analysis (Workflow.Risk one_article prose_reply))
   = true) /\
  report_node world llm_invoke state_without_risks w_prose =
    Run (Ok "No significant risks detected.") w_prose [Print WritingReport].
Proof.
  pose proof (no_alert_without_send_alert_or_marker world llm_invoke format str py writable)
    as [H1 [H0 [H2 H3]]].
  split; [|split; [|split]].
  - apply (H1 one_article w_low_alert "[Risk Alert] Market Risk Detected"
              ("brief" ++ PyStr.nl ++ PyStr.nl ++ "[Original Source]: http://test.com/1")).
    in_trace.
  - apply (H0 [] one_article (replies_left [Ok prose_reply]) (replies_left [])
              (PyStr "Central Bank hikes rates by 0.75%") prose_reply); reflexivity.
  - apply (H2 (state_of [one_article]) [one_article] (replies_left [Ok prose_reply])
              [Workflow.Risk one_article prose_reply]).
    + reflexivity.
    + vm_compute; reflexivity.
    + left; reflexivity.
  - apply (H3 state_without_risks w_prose). reflexivity.
Defined.

Lemma no_survivor_short_circuit_witness :
  exists s',
    res (workflow_run w_none_relevant) = Ok s' /\
    Workflow.relevant_news s' = Some [] /\
    Workflow.analyzed_risks s' = None /\
    Workflow.final_email_body s' = None /\
    trace (workflow_run w_none_relevant) =
      (trace (filter_stage world llm_invoke get_top_headlines format writable
                Workflow.initial_state w_none_relevant)
       ++ [Print NoRelevantNews])%list /\
    List.length (filter is_no_relevant_news (trace (workflow_run w_none_relevant))) = 1 /\
    calls_of Analyze (trace (workflow_run w_none_relevant)) = [] /\
    calls_of Summarize (trace (workflow_run w_none_relevant)) = [] /\
    calls_of Report (trace (workflow_run w_none_relevant)) = [] /\
    filter is_final_email (trace (workflow_run w_none_relevant)) = [].
Proof.
  apply (no_survivor_short_circuit world llm_invoke get_top_headlines format writable
           Workflow.initial_state w_none_relevant).
  vm_compute; reflexivity.
Defined.

(** C4 fails as stated: the Filter completion parses to a mapping whose
    [is_relevant] is false, the text contains the marker, and the article
    is analyzed. *)
Lemma nested_is_relevant_reaches_analyze :
  parse_json_response py nested_reply = Ok (PyDict mapping_nested) /\
  field mapping_nested "is_relevant" = PyBool false /\
  replies (trace (workflow_run w_nested)) =
    [(Filter, Ok nested_reply); (Analyze, Ok high_alert_reply); (Report, Ok "mail")] /\
  calls_of Analyze (trace (workflow_run w_nested)) =
    [wf_analysis_prompt format one_article (PyStr "Central Bank hikes rates by 0.75%")].
Proof. conjuncts; vm_compute; reflexivity. Qed.

Lemma filter_gates_witness :
  (exists reply d,
      In (Completion Filter (filter_prompt format one_article) (Ok reply))
         (trace (linear_article one_article w_low_alert)) /\
      parse_json_response py reply = Ok (PyDict d) /\
      Py.truthy (field d "is_relevant") = true) /\
  res (filter_one world llm_invoke format writable [] one_article w_nested) =
    Ok (if PyStr.contains Workflow.relevant_marker (PyStr.lower nested_reply)
        then ([] ++ [one_article])%list else []) /\
  (exists l,
      res (filter_node world llm_invoke format writable (state_of [one_article]) w_nested)
      = Ok l /\
      forall news, In news l ->
        In news [one_article] /\
        passed_marker format
          (trace (filter_node world llm_invoke format writable
                    (state_of [one_article]) w_nested)) news) /\
  (exists news title,
      In news [one_article] /\ item news "title" = Ok title /\
      wf_analysis_prompt format one_article (PyStr "Central Bank hikes rates by 0.75%")
      = wf_analysis_prompt format news title).
Proof.
  pose proof (filter_gates world llm_invoke format str py writable) as [H1 [H0 [H2 H3]]].
  split; [|split; [|split]].
  - apply (H1 one_article w_low_alert
              (analysis_prompt format one_article) (Ok low_but_alert_reply)).
    in_trace.
  - apply (H0 [] one_article w_nested
              (World (Ok (Headlines (Some [one_article]))) [Ok high_alert_reply; Ok "mail"])
              (PyStr "Central Bank hikes rates by 0.75%") nested_reply); reflexivity.
  - apply (H2 (state_of [one_article]) [one_article] w_nested). reflexivity.
  - apply (H3 (state_of [one_article]) [one_article] (replies_left [Ok prose_reply])
              (wf_analysis_prompt format one_article
                 (PyStr "Central Bank hikes rates by 0.75%"))
              (Ok prose_reply)).
    + reflexivity.
    + in_trace.
Defined.

(** C5 fails on the workflow: the completion client raises while the
    first of two relevant articles is analyzed, and the run ends there,
    with the second article not analyzed and no report.  The linear script
    goes on to the next article in the same situation. *)
Lemma workflow_analyze_failure_aborts :
  res (workflow_run w_crash) = Raise crash /\
  replies (trace (workflow_run w_crash)) =
    [(Filter, Ok relevant_reply); (Filter, Ok relevant_reply); (Analyze, Raise crash)] /\
  filter is_final_email (trace (workflow_run w_crash)) = [] /\
  res (linear_run w_crash_linear) = Ok tt /\
  replies (trace (linear_run w_crash_linear)) =
    [(Filter, Ok relevant_reply); (Analyze, Raise crash);
     (Filter, Ok relevant_reply); (Analyze, Ok high_alert_reply); (Summarize, Ok "brief");
     (Filter, Ok irrelevant_reply)] /\
  emails (trace (linear_run w_crash_linear)) =
    [("[Risk Alert] Market Risk Detected",
      "brief" ++ PyStr.nl ++ PyStr.nl ++ "[Original Source]: http://test-news.com/2")].
Proof. conjuncts; vm_compute; reflexivity. Qed.

(** C6 fails as stated, twice.  Markers inside the text are removed too,
    so a text the two-ends reading refuses is parsed; and the exceptions of
    the decoder that are no [JSONDecodeError] go to the caller: an integer
    of 4301 digits raises [ValueError], and 994 lists one inside the other
    raise [RecursionError]. *)
Lemma inner_fence_is_parsed :
  parse_json_response py fenced_inside_reply = Ok (PyDict [("is_relevant", PyBool true)]) /\
  spec_parse py fenced_inside_reply = ParseError /\
  parse_json_response py long_integer = Raise ValueError /\
  parse_json_response py deep_list = Raise RecursionError.
Proof. conjuncts; vm_compute; reflexivity. Qed.

Lemma parser_removes_markers_and_catches_decode_errors_witness :
  ((ValueError = RecursionError /\
    recursion_room py < String.length (cleaned long_integer)) \/
   (ValueError = ValueError /\
    0 < int_max_str_digits py /\
    int_max_str_digits py < String.length (cleaned long_integer))) /\
  cleaned (assemble [FenceJson;
                     Plain (PyStr.nl ++ PyStr.q "{'is_relevant': ");
                     Fence; Plain "true"; Fence;
                     Plain ("}" ++ PyStr.nl); Fence])
  = PyStr.strip (plain [FenceJson;
                        Plain (PyStr.nl ++ PyStr.q "{'is_relevant': ");
                        Fence; Plain "true"; Fence;
                        Plain ("}" ++ PyStr.nl); Fence]) /\
  parse_json_response py fenced_reply = Ok (PyDict [("is_relevant", PyBool true)]).
Proof.
  pose proof (parser_removes_markers_and_catches_decode_errors py)
    as [H1 [_ [H3 [_ [_ [H6 _]]]]]].
  split; [|split].
  - apply (H1 long_integer ValueError). vm_compute; reflexivity.
  - apply H3. vm_compute; reflexivity.
  - apply H6. vm_compute. lia.
Defined.

Lemma retrieval_failure_falls_back_witness :
  Linear.fetch_news get_top_headlines w_crash_linear =
    Run (Ok Linear.MOCK_DATA) w_crash_linear [Print (ApiFailed offline)] /\
  Workflow.fetch_news_node get_top_headlines Workflow.initial_state w_crash =
    Run (Ok Workflow.MOCK_DATA) w_crash [Print FetchingNews; Print (ApiError offline)].
Proof.
  pose proof (retrieval_failure_falls_back world get_top_headlines) as [H1 [H2 _]].
  split.
  - apply (H1 w_crash_linear w_crash_linear offline); reflexivity.
  - apply (H2 Workflow.initial_state w_crash w_crash offline); reflexivity.
Defined.

(** C9 fails as stated: a text can be a JSON document for a value that is
    no mapping and not be returned.  An integer of 4301 digits raises
    [ValueError], and 994 lists one inside the other raise
    [RecursionError], where an interpreter without these limits decodes
    them. *)
Lemma long_integer_is_not_returned :
  Json.loads (Interpreter 0 0) (cleaned long_integer) =
    Ok (PyInt (Json.digits_value 0 long_integer)) /\
  is_mapping (PyInt (Json.digits_value 0 long_integer)) = false /\
  parse_json_response py long_integer = Raise ValueError /\
  Json.loads (Interpreter 994 0) (cleaned deep_list) = Ok (nested 993) /\
  is_mapping (nested 993) = false /\
  parse_json_response py deep_list = Raise RecursionError.
Proof. conjuncts; vm_compute; reflexivity. Qed.

Lemma non_mapping_values_pass_within_limits_witness :
  ((parse_json_response py (fence_json ++ PyStr.nl ++ "[1, 2]" ++ PyStr.nl ++ fence) =
      Ok (PyList [PyInt 1; PyInt 2]) /\
    forall k, Py.get (PyList [PyInt 1; PyInt 2]) k = Raise AttributeError) \/
   (parse_json_response py (fence_json ++ PyStr.nl ++ "[1, 2]" ++ PyStr.nl ++ fence) =
      Raise RecursionError /\
    recursion_room py <
    String.length (cleaned (fence_json ++ PyStr.nl ++ "[1, 2]" ++ PyStr.nl ++ fence))) \/
   (parse_json_response py (fence_json ++ PyStr.nl ++ "[1, 2]" ++ PyStr.nl ++ fence) =
      Raise ValueError /\
    0 < int_max_str_digits py /\
    int_max_str_digits py <
    String.length (cleaned (fence_json ++ PyStr.nl ++ "[1, 2]" ++ PyStr.nl ++ fence)))) /\
  parse_json_response py (fence_json ++ PyStr.nl ++ "[1, 2]" ++ PyStr.nl ++ fence) =
    Ok (PyList [PyInt 1; PyInt 2]).
Proof.
  pose proof (non_mapping_values_pass_within_limits py) as [H1 [H2 _]].
  split.
  - apply (H1 one_level (fence_json ++ PyStr.nl ++ "[1, 2]" ++ PyStr.nl ++ fence)
              (PyList [PyInt 1; PyInt 2])).
    + vm_compute; reflexivity.
    + reflexivity.
  - apply H2. vm_compute. lia.
Defined.

Lemma empty_reply_fallback_differs_witness :
  Workflow.fetch_news_node get_top_headlines Workflow.initial_state w_empty_reply =
    Run (Ok []) w_empty_reply [Print FetchingNews] /\
  workflow_run w_empty_reply =
    Run (Ok (Workflow.State (Some []) (Some []) None None)) w_empty_reply
        [Print FetchingNews; Print FilteringNews; Print NoRelevantNews] /\
  Linear.fetch_news get_top_headlines w_empty_reply =
    Run (Ok Linear.MOCK_DATA) w_empty_reply [].
Proof.
  pose proof (empty_reply_fallback_differs world llm_invoke get_top_headlines format writable)
    as [H1 [H2 H3]].
  split; [|split].
  - apply (H1 Workflow.initial_state w_empty_reply w_empty_reply (Headlines (Some [])));
      reflexivity.
  - apply (H2 Workflow.initial_state w_empty_reply w_empty_reply (Headlines (Some [])));
      reflexivity.
  - apply (H3 w_empty_reply w_empty_reply (Headlines (Some []))); reflexivity.
Defined.

(* ================================================================== *)
(** ** The further properties on the test doubles *)
(* ================================================================== *)

Ltac holds := first [split; vm_compute; reflexivity | vm_compute; reflexivity].

Lemma linear_loop_survives_completion_failures_witness :
  res (loop world llm_down format str py writable [one_article; other_article] w_low_alert)
  = Ok tt /\
  calls_of Filter
    (trace (loop world llm_down format str py writable
              [one_article; other_article] w_low_alert)) =
  map (filter_prompt format) [one_article; other_article].
Proof.
  apply (linear_loop_survives_completion_failures world llm_down format str py writable
           [one_article; other_article] w_low_alert).
  - repeat (constructor; [split; vm_compute; reflexivity|]). constructor.
  - intros p w0 e w1 H. inversion H. reflexivity.
Defined.

Lemma alert_is_built_from_analysis_and_summary_witness :
  exists reply d summary,
    In (Completion Analyze (analysis_prompt format one_article) (Ok reply))
       (trace (linear_article one_article w_low_alert)) /\
    parse_json_response py reply = Ok (PyDict d) /\
    In (Completion Summarize (summary_prompt format one_article (field d "risk_type"))
          (Ok summary))
       (trace (linear_article one_article w_low_alert)) /\
    "[Risk Alert] Market Risk Detected" =
      "[Risk Alert] " ++ str (field d "risk_type") ++ " Detected" /\
    "brief" ++ PyStr.nl ++ PyStr.nl ++ "[Original Source]: http://test.com/1" =
      summary ++ PyStr.nl ++ PyStr.nl ++ "[Original Source]: "
        ++ str (field one_article "url").
Proof.
  apply (alert_is_built_from_analysis_and_summary world llm_invoke format str py writable
           one_article w_low_alert).
  in_trace.
Defined.

Lemma missing_title_stops_the_script_witness :
  linear_article untitled_article w_untitled = Run (Raise TypeError) w_untitled [] /\
  loop world llm_invoke format str py writable [untitled_article; one_article] w_untitled =
    Run (Raise TypeError) w_untitled [].
Proof.
  apply (missing_title_stops_the_script world llm_invoke format str py writable
           untitled_article [one_article] w_untitled).
  vm_compute; reflexivity.
Defined.

Lemma filter_step_rejections_witness :
  let ends_with (reply : string) (l : line) :=
    linear_article one_article (replies_left [Ok reply]) =
    Run (Ok tt) (replies_left [])
        [Print (Processing (field one_article "title"));
         Completion Filter (filter_prompt format one_article) (Ok reply);
         Print l] in
  ends_with long_integer (FilterError ValueError) /\
  ends_with prose_reply (Skipped None) /\
  ends_with "[1]" (FilterError AttributeError) /\
  ends_with irrelevant_reply (Skipped (Some (PyStr "entertainment"))) /\
  ends_with surrogate_reason_reply (FilterError UnicodeEncodeError).
Proof.
  cbv zeta.
  assert (Ha : announced writable one_article) by holds.
  split; [|split; [|split; [|split]]].
  - pose proof (filter_step_rejections world llm_invoke format str py writable
                  one_article (replies_left [Ok long_integer]) (replies_left [])
                  long_integer Ha eq_refl) as H.
    apply (proj1 H ValueError). vm_compute; reflexivity.
  - pose proof (filter_step_rejections world llm_invoke format str py writable
                  one_article (replies_left [Ok prose_reply]) (replies_left [])
                  prose_reply Ha eq_refl) as H.
    apply (proj1 (proj2 H) PyNone); vm_compute; reflexivity.
  - pose proof (filter_step_rejections world llm_invoke format str py writable
                  one_article (replies_left [Ok "[1]"]) (replies_left [])
                  "[1]" Ha eq_refl) as H.
    apply (proj1 (proj2 (proj2 H)) (PyList [PyInt 1])); vm_compute; reflexivity.
  - pose proof (filter_step_rejections world llm_invoke format str py writable
                  one_article (replies_left [Ok irrelevant_reply]) (replies_left [])
                  irrelevant_reply Ha eq_refl) as H.
    apply (proj2 (proj2 (proj2 H)) mapping_irrelevant); vm_compute; reflexivity.
  - pose proof (filter_step_rejections world llm_invoke format str py writable
                  one_article (replies_left [Ok surrogate_reason_reply]) (replies_left [])
                  surrogate_reason_reply Ha eq_refl) as H.
    apply (proj2 (proj2 (proj2 H)) mapping_surrogate_reason); vm_compute; reflexivity.
Defined.

Lemma analysis_step_rejections_witness :
  let ends_with (reply : string) (l : line) :=
    linear_article one_article (replies_left [Ok relevant_reply; Ok reply]) =
    Run (Ok tt) (replies_left [])
        [Print (Processing (field one_article "title"));
         Completion Filter (filter_prompt format one_article) (Ok relevant_reply);
         Print Relevant;
         Completion Analyze (analysis_prompt format one_article) (Ok reply);
         Print l] in
  ends_with deep_list (AnalysisError RecursionError) /\
  ends_with prose_reply (Safe None) /\
  ends_with "[1]" (AnalysisError AttributeError) /\
  ends_with high_no_alert_reply (Safe (Some (PyStr "Market Risk"))) /\
  ends_with surrogate_risk_reply (AnalysisError UnicodeEncodeError).
Proof.
  cbv zeta.
  assert (Ha : announced writable one_article) by holds.
  assert (Hp : parse_json_response py relevant_reply = Ok (PyDict mapping_relevant))
    by (vm_compute; reflexivity).
  split; [|split; [|split; [|split]]].
  - pose proof (analysis_step_rejections world llm_invoke format str py writable
                  one_article (replies_left [Ok relevant_reply; Ok deep_list])
                  (replies_left [Ok deep_list]) (replies_left [])
                  relevant_reply deep_list mapping_relevant
                  Ha eq_refl Hp eq_refl eq_refl) as H.
    apply (proj1 H RecursionError). vm_compute; reflexivity.
  - pose proof (analysis_step_rejections world llm_invoke format str py writable
                  one_article (replies_left [Ok relevant_reply; Ok prose_reply])
                  (replies_left [Ok prose_reply]) (replies_left [])
                  relevant_reply prose_reply mapping_relevant
                  Ha eq_refl Hp eq_refl eq_refl) as H.
    apply (proj1 (proj2 H) PyNone); vm_compute; reflexivity.
  - pose proof (analysis_step_rejections world llm_invoke format str py writable
                  one_article (replies_left [Ok relevant_reply; Ok "[1]"])
                  (replies_left [Ok "[1]"]) (replies_left [])
                  relevant_reply "[1]" mapping_relevant
                  Ha eq_refl Hp eq_refl eq_refl) as H.
    apply (proj1 (proj2 (proj2 H)) (PyList [PyInt 1])); vm_compute; reflexivity.
  - pose proof (analysis_step_rejections world llm_invoke format str py writable
                  one_article (replies_left [Ok relevant_reply; Ok high_no_alert_reply])
                  (replies_left [Ok high_no_alert_reply]) (replies_left [])
                  relevant_reply high_no_alert_reply mapping_relevant
                  Ha eq_refl Hp eq_refl eq_refl) as H.
    apply (proj1 (proj2 (proj2 (proj2 H))) mapping_high_no_alert); vm_compute; reflexivity.
  - pose proof (analysis_step_rejections world llm_invoke format str py writable
                  one_article (replies_left [Ok relevant_reply; Ok surrogate_risk_reply])
                  (replies_left [Ok surrogate_risk_reply]) (replies_left [])
                  relevant_reply surrogate_risk_reply mapping_relevant
                  Ha eq_refl Hp eq_refl eq_refl) as H.
    apply (proj2 (proj2 (proj2 (proj2 H))) mapping_surrogate_risk); vm_compute; reflexivity.
Defined.


Lemma fetch_news_is_never_empty_witness :
  Linear.MOCK_DATA <> [] /\
  fetch world get_top_headlines w_prose = Run (Ok [one_article]) w_prose [] /\
  fetch world get_top_headlines w_empty_reply = Run (Ok Linear.MOCK_DATA) w_empty_reply [] /\
  fetch world get_top_headlines w_low_alert =
    Run (Ok Linear.MOCK_DATA) w_low_alert [Print (ApiFailed offline)] /\
  fetch world get_top_headlines (World (Raise (External false "interrupted")) []) =
    Run (Raise (External false "interrupted"))
        (World (Raise (External false "interrupted")) []) [] /\
  (is_Exception (External false "interrupted") = false /\
   exists w1,
     get_top_headlines "economy" "en" 5 (World (Raise (External false "interrupted")) [])
     = (Raise (External false "interrupted"), w1)).
Proof.
  split; [|split; [|split; [|split; [|split]]]].
  - apply (proj1 (fetch_news_is_never_empty world get_top_headlines w_low_alert)
             Linear.MOCK_DATA).
    vm_compute; reflexivity.
  - apply (proj1 (proj2 (fetch_news_is_never_empty world get_top_headlines w_prose))
             (Headlines (Some [one_article])) w_prose).
    reflexivity.
  - apply (proj1 (proj2 (fetch_news_is_never_empty world get_top_headlines w_empty_reply))
             (Headlines (Some [])) w_empty_reply).
    reflexivity.
  - apply (proj1 (proj2 (proj2 (fetch_news_is_never_empty world get_top_headlines
                                  w_low_alert)))
             offline w_low_alert).
    reflexivity.
  - apply (proj1 (proj2 (proj2 (fetch_news_is_never_empty world get_top_headlines
                                  (World (Raise (External false "interrupted")) []))))
             (External false "interrupted")
             (World (Raise (External false "interrupted")) [])).
    reflexivity.
  - apply (proj2 (proj2 (proj2 (fetch_news_is_never_empty world get_top_headlines
                                  (World (Raise (External false "interrupted")) []))))
             (External false "interrupted")).
    vm_compute; reflexivity.
Defined.

Lemma linear_script_raises_only_witness :
  (Exists (fun a => Py.sliceable (field a "title") = false \/
                    writable (Py.slice_to 50 (field a "title")) = false)
          (fetched world get_top_headlines w_untitled) \/
   is_Exception TypeError = false) /\
  (Exists (fun a => Py.sliceable (field a "title") = false \/
                    writable (Py.slice_to 50 (field a "title")) = false)
          (fetched world get_top_headlines w_surrogate) \/
   is_Exception UnicodeEncodeError = false).
Proof.
  split.
  - apply (linear_script_raises_only world llm_invoke get_top_headlines format str py
             writable w_untitled TypeError).
    vm_compute; reflexivity.
  - apply (linear_script_raises_only world llm_invoke get_top_headlines format str py
             writable w_surrogate UnicodeEncodeError).
    vm_compute; reflexivity.
Defined.

Lemma filter_turn_edge_cases_witness :
  filter_one world llm_invoke format writable [] untitled_article w_untitled =
    Run (Ok []) w_untitled [] /\
  filter_one world llm_invoke format writable [] one_article (replies_left [Raise crash]) =
    Run (Ok []) (replies_left [])
        [Completion Filter
           (wf_filter_prompt format (PyStr "Central Bank hikes rates by 0.75%"))
           (Raise crash)] /\
  filter_one world llm_invoke format writable [] numbered_article
             (replies_left [Ok relevant_reply]) =
    Run (Ok (if PyStr.contains Workflow.relevant_marker (PyStr.lower relevant_reply)
             then ([] ++ [numbered_article])%list else []))
        (replies_left [])
        [Completion Filter (wf_filter_prompt format (PyInt 5)) (Ok relevant_reply)].
Proof.
  split; [|split].
  - apply (proj1 (filter_turn_edge_cases world llm_invoke format writable
                    [] untitled_article w_untitled)).
    vm_compute; reflexivity.
  - apply (proj1 (proj2 (filter_turn_edge_cases world llm_invoke format writable
                           [] one_article (replies_left [Raise crash]))));
      vm_compute; reflexivity.
  - apply (proj2 (proj2 (filter_turn_edge_cases world llm_invoke format writable
                           [] numbered_article (replies_left [Ok relevant_reply]))));
      vm_compute; reflexivity.
Defined.

Lemma finished_run_lists_witness :
  exists raw rel,
    Workflow.raw_headlines s_prose = Some raw /\
    Workflow.relevant_news s_prose = Some rel /\
    subseq rel raw /\
    (rel <> [] ->
     exists risks,
       Workflow.analyzed_risks s_prose = Some risks /\
       subseq (map Workflow.original risks) rel /\
       forall r, In r risks ->
         PyStr.contains "High" (Workflow.analysis r) ||
         PyStr.contains "Medium" (Workflow.analysis r) = true).
Proof.
  apply (finished_run_lists world llm_invoke get_top_headlines format writable
           Workflow.initial_state s_prose w_prose).
  vm_compute; reflexivity.
Defined.

Lemma finished_run_report_witness :
  exists risks,
    Workflow.analyzed_risks s_prose = Some risks /\
    match risks with
    | [] =>
        Workflow.final_email_body s_prose = Some "No significant risks detected." /\
        calls_of Report (trace (workflow_run w_prose)) = [] /\
        filter is_final_email (trace (workflow_run w_prose)) = []
    | _ :: _ =>
        let p := Workflow.writer_prompt
                   (PyStr.join PyStr.nl (map Workflow.analysis risks)) in
        exists body,
          Workflow.final_email_body s_prose = Some body /\
          In (Completion Report p (Ok body)) (trace (workflow_run w_prose)) /\
          calls_of Report (trace (workflow_run w_prose)) = [p] /\
          filter is_final_email (trace (workflow_run w_prose)) = [Print (FinalEmail body)]
    end.
Proof.
  apply (finished_run_report world llm_invoke get_top_headlines format writable
           Workflow.initial_state s_prose w_prose one_article []).
  - vm_compute; reflexivity.
  - reflexivity.
Defined.

Lemma workflow_raises_only_witness :
  (is_Exception crash = false /\
   exists w1, get_top_headlines "economy" "en" 10 w_crash = (Raise crash, w1)) \/
  (exists p, In (Completion Analyze p (Raise crash)) (trace (workflow_run w_crash))) \/
  (exists p, In (Completion Report p (Raise crash)) (trace (workflow_run w_crash))).
Proof.
  apply (workflow_raises_only world llm_invoke get_top_headlines format writable
           Workflow.initial_state w_crash crash).
  vm_compute; reflexivity.
Defined.

Lemma analyze_failure_ends_the_loop_witness :
  analyze_loop world llm_invoke format [one_article; other_article] []
               (replies_left [Raise crash; Ok high_alert_reply]) =
  Run (Raise crash) (replies_left [Ok high_alert_reply])
      [Completion Analyze
         (wf_analysis_prompt format one_article (PyStr "Central Bank hikes rates by 0.75%"))
         (Raise crash)].
Proof.
  apply (analyze_failure_ends_the_loop world llm_invoke format [] one_article
           [other_article] (replies_left [Raise crash; Ok high_alert_reply])
           (replies_left [Ok high_alert_reply])
           (PyStr "Central Bank hikes rates by 0.75%") crash); vm_compute; reflexivity.
Defined.
